(** * HLS segment estimator (hls_estimator.py): a shallow embedding

    The estimator is Python: its integers are unbounded ([Z]), its floats
    are IEEE-754 binary64 (Rocq's primitive [float], specified by
    [SpecFloat]), and a failing operation raises an exception, which the
    embedding returns as data ([Raise]).  A Python [str] is the [string] of
    its UTF-8 bytes.  Of the console output ([print]) the embedding keeps
    what can fail: writing a text of the probe's report that the console
    cannot encode. *)

From Stdlib Require Import ZArith List String Ascii Bool Lia Floats Permutation.
Import ListNotations.
Open Scope string_scope.
Open Scope Z_scope.

#[local] Set Warnings "-inexact-float".

(** ** Exceptions and results *)

Inductive exn : Type :=
| ValueError
| TypeError
| AttributeError
| OverflowError
| ZeroDivisionError
| KeyError
| UnicodeEncodeError  (** a [ValueError]: [except ValueError] catches it *)
| RecursionError.

Inductive result (A : Type) : Type :=
| Return (a : A)
| Raise (e : exn).

Arguments Return {A} a.
Arguments Raise {A} e.

Definition bind {A B : Type} (r : result A) (k : A -> result B) : result B :=
  match r with
  | Return a => k a
  | Raise e => Raise e
  end.

Notation "x <- r ;; k" := (bind r (fun x => k))
  (at level 61, r at next level, right associativity).

(** ** Python numbers *)

Module Py.

(** [float(n)] for an int: the nearest binary64, ties to even;
    [OverflowError] when that is out of range. *)
Definition float_of_int (n : Z) : result float :=
  match binary_normalize prec emax n 0 false with
  | S754_infinity _ => Raise OverflowError
  | r => Return (SF2Prim r)
  end.

Definition raw_of_int (n : Z) : spec_float :=
  match n with
  | Z0 => S754_zero false
  | Zpos p => S754_finite false p 0
  | Zneg p => S754_finite true p 0
  end.

(** [a / b] on two ints: the correctly rounded quotient. *)
Definition int_true_divide (a b : Z) : result float :=
  if b =? 0 then Raise ZeroDivisionError
  else match SFdiv prec emax (raw_of_int a) (raw_of_int b) with
       | S754_infinity _ => Raise OverflowError
       | r => Return (SF2Prim r)
       end.

(** [x / y] on two floats: Python raises on a zero divisor. *)
Definition float_divide (x y : float) : result float :=
  if PrimFloat.eqb y 0 then Raise ZeroDivisionError
  else Return (x / y)%float.

(** [math.ceil] of a float, an int. *)
Definition SFceil (x : spec_float) : result Z :=
  match x with
  | S754_nan => Raise ValueError
  | S754_infinity _ => Raise OverflowError
  | S754_zero _ => Return 0
  | S754_finite s m e =>
      let v := if s then Zneg m else Zpos m in
      Return (match e with
              | Zneg p => - ((- v) / 2 ^ Zpos p)
              | _ => v * 2 ^ e
              end)
  end.

Definition ceil (x : float) : result Z := SFceil (Prim2SF x).

(** [int(x)] of a float: truncation towards zero. *)
Definition SFtrunc (x : spec_float) : result Z :=
  match x with
  | S754_nan => Raise ValueError
  | S754_infinity _ => Raise OverflowError
  | S754_zero _ => Return 0
  | S754_finite s m e =>
      let v := if s then Zneg m else Zpos m in
      Return (match e with
              | Zneg p => Z.quot v (2 ^ Zpos p)
              | _ => v * 2 ^ e
              end)
  end.

Definition trunc (x : float) : result Z := SFtrunc (Prim2SF x).

(** A number is an int or a float. *)
Inductive number : Type :=
| Int (n : Z)
| Float (x : float).

Definition to_float (a : number) : result float :=
  match a with
  | Int n => float_of_int n
  | Float x => Return x
  end.

(** [a * 8]: against a float the int literal converts to [8.0]. *)
Definition times8 (a : number) : number :=
  match a with
  | Int n => Int (n * 8)
  | Float x => Float (x * 8)%float
  end.

(** [a / y] for a float [y]. *)
Definition div_float (a : number) (y : float) : result float :=
  x <- to_float a ;; float_divide x y.

(** [a <= 0] and [a > 0] against the int literal 0. *)
Definition le0 (a : number) : bool :=
  match a with
  | Int n => n <=? 0
  | Float x => PrimFloat.leb x 0
  end.

Definition gt0 (a : number) : bool :=
  match a with
  | Int n => 0 <? n
  | Float x => PrimFloat.ltb 0 x
  end.

(** [x * 2^i <= y * 2^j], on integers. *)
Definition scaled_leb (x i y j : Z) : bool :=
  x * 2 ^ (i - Z.min i j) <=? y * 2 ^ (j - Z.min i j).

(** [n <= y] and [x <= n] for an int and a float: Python compares the
    exact values; an infinity lies beyond every int, and NaN compares
    false. *)
Definition int_le_float (n : Z) (y : spec_float) : bool :=
  match y with
  | S754_nan => false
  | S754_infinity s => negb s
  | S754_zero _ => n <=? 0
  | S754_finite s m e => scaled_leb n 0 (if s then Zneg m else Zpos m) e
  end.

Definition float_le_int (x : spec_float) (n : Z) : bool :=
  match x with
  | S754_nan => false
  | S754_infinity s => s
  | S754_zero _ => 0 <=? n
  | S754_finite s m e => scaled_leb (if s then Zneg m else Zpos m) e n 0
  end.

(** [a <= b] *)
Definition le (a b : number) : bool :=
  match a, b with
  | Int x, Int y => x <=? y
  | Float x, Float y => PrimFloat.leb x y
  | Int x, Float y => int_le_float x (Prim2SF y)
  | Float x, Int y => float_le_int (Prim2SF x) y
  end.

End Py.

(** ** The data model: the dictionaries the two functions return *)

Record VideoMetadata : Type := {
  total_duration_sec : Py.number;
  stream_bitrates_bps : list Z;
  error : option string
}.

Inductive SegmentEstimate : Type :=
| EstimateError (msg : string)
| Estimate (max_bitrate_mbps : float)
           (safe_segment_duration_sec : float)
           (total_video_duration_sec : Py.number)
           (estimated_total_segments : Z).

(** ** Segment estimator: [calculate_segment_duration] after its probe call *)

(** Truth value of [metadata.get("error")]: [None] and the empty string
    are false. *)
Definition error_truthy (e : option string) : bool :=
  match e with
  | None => false
  | Some msg => negb (msg =? "")%string
  end.

Definition sum (l : list Z) : Z := fold_left Z.add l 0.

Definition err_metadata (msg : string) : string :=
  "Failed to get video metadata: " ++ msg.
Definition err_duration : string :=
  "Video duration is zero or invalid. Cannot calculate segment duration.".
Definition err_no_bitrate : string :=
  "No bitrate data found for the video. Cannot estimate segment size.".
Definition err_total_bitrate : string :=
  "Total bitrate of the video is zero or negative. Cannot calculate segment duration. The file might not be a video or audio file, or lacks bitrate information.".
Definition err_segment_duration : string :=
  "Calculated segment duration is zero or negative. Check bitrate and target size.".

Definition estimate_segments (metadata : VideoMetadata)
    (target_segment_size_mb : Py.number) : result SegmentEstimate :=
  if error_truthy (error metadata) then
    Return (EstimateError
              (err_metadata (match error metadata with Some m => m | None => "" end)))
  else if Py.le0 (total_duration_sec metadata) then
    Return (EstimateError err_duration)
  else match stream_bitrates_bps metadata with
  | [] => Return (EstimateError err_no_bitrate)
  | _ :: _ =>
    let total_bitrate_bps := sum (stream_bitrates_bps metadata) in
    if total_bitrate_bps <=? 0 then Return (EstimateError err_total_bitrate)
    else
      total_bitrate_mbps <- Py.int_true_divide total_bitrate_bps 1000000 ;;
      let target_segment_size_mbits := Py.times8 target_segment_size_mb in
      safe_segment_duration_sec <-
        Py.div_float target_segment_size_mbits total_bitrate_mbps ;;
      let total_video_duration_sec := total_duration_sec metadata in
      if PrimFloat.leb safe_segment_duration_sec 0 then
        Return (EstimateError err_segment_duration)
      else
        q <- Py.div_float total_video_duration_sec safe_segment_duration_sec ;;
        estimated_total_segments <- Py.ceil q ;;
        Return (Estimate total_bitrate_mbps safe_segment_duration_sec
                         total_video_duration_sec estimated_total_segments)
  end.

(** ** The probe's report: what [json.loads] returns *)

#[local] Unset Elimination Schemes.
Inductive json : Type :=
| JNull
| JBool (b : bool)
| JInt (n : Z)
| JFloat (x : float)
| JStr (s : string)
| JList (items : list json)
| JDict (fields : list (string * json)).
#[local] Set Elimination Schemes.

Module Json.

Fixpoint lookup (key : string) (fields : list (string * json)) : option json :=
  match fields with
  | [] => None
  | (k, v) :: rest => if (k =? key)%string then Some v else lookup key rest
  end.

Definition is_str (s : string) (v : json) : bool :=
  match v with
  | JStr s' => (s' =? s)%string
  | _ => false
  end.

Definition substring_of (needle hay : string) : bool :=
  match String.index 0 needle hay with
  | Some _ => true
  | None => false
  end.

(** [key in v] *)
Definition contains (key : string) (v : json) : result bool :=
  match v with
  | JDict fields =>
      Return (match lookup key fields with Some _ => true | None => false end)
  | JList items => Return (existsb (is_str key) items)
  | JStr s => Return (substring_of key s)
  | _ => Raise TypeError
  end.

(** [v[key]] *)
Definition subscript (v : json) (key : string) : result json :=
  match v with
  | JDict fields =>
      match lookup key fields with
      | Some x => Return x
      | None => Raise KeyError
      end
  | _ => Raise TypeError
  end.

(** [v.get(key, default)] *)
Definition get (v : json) (key : string) (default : json) : result json :=
  match v with
  | JDict fields =>
      Return (match lookup key fields with Some x => x | None => default end)
  | _ => Raise AttributeError
  end.

Fixpoint chars (s : string) : list json :=
  match s with
  | EmptyString => []
  | String c rest => JStr (String c EmptyString) :: chars rest
  end.

(** [for x in v] *)
Definition iterate (v : json) : result (list json) :=
  match v with
  | JList items => Return items
  | JDict fields => Return (map (fun kv => JStr (fst kv)) fields)
  | JStr s => Return (chars s)
  | _ => Raise TypeError
  end.

(** [if v:] *)
Definition truthy (v : json) : bool :=
  match v with
  | JNull => false
  | JBool b => b
  | JInt n => negb (n =? 0)
  | JFloat x => negb (PrimFloat.eqb x 0)
  | JStr s => negb (s =? "")%string
  | JList items => match items with [] => false | _ => true end
  | JDict fields => match fields with [] => false | _ => true end
  end.

End Json.

(** ** The console: [print]

    [print] encodes its text for the console and raises
    [UnicodeEncodeError] on a character that the encoding lacks.  The
    script's own messages hold emoji and Bengali, so the console has a
    Unicode encoding (UTF-8), and what it cannot encode is a lone
    surrogate.  [json.loads] accepts one in a string (["\ud800"]); a
    [str] holds it as the three bytes that UTF-8 would give it: 0xED, a
    byte from 0xA0 to 0xBF, and a continuation byte.  A message made of
    the script's literals and of the file path is taken to be encodable:
    the prints modelled are the ones that quote the probe's report. *)

Module Console.

Definition surrogate_lead (a b : ascii) : bool :=
  ((N_of_ascii a =? 237) && (160 <=? N_of_ascii b) && (N_of_ascii b <=? 191))%N.

Fixpoint has_surrogate (s : string) : bool :=
  match s with
  | EmptyString => false
  | String a rest =>
      match rest with
      | EmptyString => false
      | String b _ => surrogate_lead a b || has_surrogate rest
      end
  end.

(** [print(f"...{v}...")]: a [str] is written as it is, any other value
    through its [repr], which escapes a surrogate. *)
Definition print (v : json) : result unit :=
  match v with
  | JStr s => if has_surrogate s then Raise UnicodeEncodeError else Return tt
  | _ => Return tt
  end.

End Console.

(** ** Metadata probe adapter: [get_video_metadata] *)

(** What [json.loads] raises that is not a [JSONDecodeError]: a plain
    [ValueError] on an integer literal above the digit limit of [int], and
    [RecursionError] on a document nested too deep. *)
Inductive loads_failure : Type :=
| IntegerTooLong
| NestedTooDeep.

Definition raised_by_loads (failure : loads_failure) : exn :=
  match failure with
  | IntegerTooLong => ValueError
  | NestedTooDeep => RecursionError
  end.

(** How the [ffprobe] run and the parse of its output end. *)
Inductive probe_outcome : Type :=
| CalledProcessError (stderr : string)
| FileNotFoundError
| JSONDecodeError
| Loaded (metadata : json)
| LoadsFailed (failure : loads_failure).

Record World : Type := {
  path_exists : string -> bool;
  run_ffprobe : string -> probe_outcome
}.

Definition placeholder (msg : string) : VideoMetadata :=
  {| total_duration_sec := Py.Int 0; stream_bitrates_bps := [];
     error := Some msg |}.

Section Adapter.

(** The builtins [float] and [int] on a [str]: [None] is [ValueError]. *)
Variable float_of_str : string -> option float.
Variable int_of_str : string -> option Z.

Definition py_float (v : json) : result float :=
  match v with
  | JStr s => match float_of_str s with
              | Some x => Return x
              | None => Raise ValueError
              end
  | JInt n => Py.float_of_int n
  | JFloat x => Return x
  | JBool b => Return (if b then 1 else 0)%float
  | _ => Raise TypeError
  end.

Definition py_int (v : json) : result Z :=
  match v with
  | JStr s => match int_of_str s with
              | Some n => Return n
              | None => Raise ValueError
              end
  | JInt n => Return n
  | JFloat x => Py.trunc x
  | JBool b => Return (if b then 1 else 0)
  | _ => Raise TypeError
  end.

(** The loop over [metadata['streams']]. *)
Fixpoint collect_bitrates (streams : list json) (stream_bitrates_bps : list Z)
  : result (list Z) :=
  match streams with
  | [] => Return stream_bitrates_bps
  | stream :: rest =>
      bit_rate <- Json.get stream "bit_rate" (JStr "0") ;;
      let bit_rate := if Json.is_str "N/A" bit_rate then JStr "0" else bit_rate in
      match py_int bit_rate with
      | Return n => collect_bitrates rest (stream_bitrates_bps ++ [n])%list
      | Raise ValueError | Raise UnicodeEncodeError =>
          raw <- Json.get stream "bit_rate" JNull ;;
          _ <- Console.print raw ;;
          collect_bitrates rest (stream_bitrates_bps ++ [0])%list
      | Raise e => Raise e
      end
  end.

Definition is_empty {A : Type} (l : list A) : bool :=
  match l with [] => true | _ => false end.

(** The per-stream pass: [if 'streams' in metadata: for stream in ...]. *)
Definition per_stream_bitrates (metadata : json) : result (list Z) :=
  has_streams <- Json.contains "streams" metadata ;;
  if has_streams : bool then
    streams <- Json.subscript metadata "streams" ;;
    items <- Json.iterate streams ;;
    collect_bitrates items []
  else Return [].

(** The fallback on the container-level bit rate. *)
Definition format_fallback (metadata : json) (stream_bitrates_bps : list Z)
    (total_duration_sec : float) : result (list Z) :=
  if is_empty stream_bitrates_bps && PrimFloat.ltb 0 total_duration_sec then
    format <- Json.get metadata "format" (JDict []) ;;
    format_bit_rate <- Json.get format "bit_rate" JNull ;;
    if Json.truthy format_bit_rate then
      match (_ <- Console.print format_bit_rate ;; py_int format_bit_rate) with
      | Return n => Return (stream_bitrates_bps ++ [n])%list
      | Raise ValueError | Raise UnicodeEncodeError =>
          _ <- Console.print format_bit_rate ;;
          Return stream_bitrates_bps
      | Raise e => Raise e
      end
    else Return stream_bitrates_bps
  else Return stream_bitrates_bps.

(** The body of the [try] once [json.loads] has returned. *)
Definition read_report (metadata : json) : result VideoMetadata :=
  has_format <- Json.contains "format" metadata ;;
  has_duration <-
    (if has_format : bool then
       format <- Json.subscript metadata "format" ;;
       Json.contains "duration" format
     else Return false) ;;
  if has_duration : bool then
    format <- Json.subscript metadata "format" ;;
    duration <- Json.subscript format "duration" ;;
    total_duration_sec <- py_float duration ;;
    stream_bitrates_bps <- per_stream_bitrates metadata ;;
    stream_bitrates_bps <-
      format_fallback metadata stream_bitrates_bps total_duration_sec ;;
    Return {| total_duration_sec := Py.Float total_duration_sec;
              stream_bitrates_bps := stream_bitrates_bps;
              error := None |}
  else Return (placeholder "Could not determine video duration.").

Definition failed_message (stderr video_file_path : string) : string :=
  if Json.substring_of "No such file or directory" stderr then
    "ffprobe error: Video file not found at " ++ video_file_path
      ++ " or ffprobe itself is missing."
  else if Json.substring_of "Invalid data found when processing input" stderr then
    "ffprobe error: Invalid data for " ++ video_file_path
      ++ ". File might be corrupted/not media."
  else "ffprobe command failed: " ++ stderr.

Definition get_video_metadata (w : World) (video_file_path : string)
  : result VideoMetadata :=
  if negb (path_exists w video_file_path) then
    Return (placeholder ("File not found: " ++ video_file_path))
  else match run_ffprobe w video_file_path with
  | Loaded metadata => read_report metadata
  | CalledProcessError stderr =>
      Return (placeholder (failed_message stderr video_file_path))
  | JSONDecodeError =>
      Return (placeholder "Failed to parse ffprobe JSON output.")
  | LoadsFailed failure => Raise (raised_by_loads failure)
  | FileNotFoundError =>
      Return (placeholder
                "ffprobe command not found. Ensure FFmpeg is installed and in PATH.")
  end.

Definition calculate_segment_duration (w : World) (video_file_path : string)
    (target_segment_size_mb : Py.number) : result SegmentEstimate :=
  metadata <- get_video_metadata w video_file_path ;;
  estimate_segments metadata target_segment_size_mb.

End Adapter.

(** ** Plain decimal literals: the part of [int(str)] and [float(str)]
    that a probe report uses (an optional minus sign, ASCII digits, and
    for a float one decimal point). *)

Module Decimal.

Definition digit (c : ascii) : option Z :=
  let n := Z.of_nat (nat_of_ascii c) in
  if (48 <=? n) && (n <=? 57) then Some (n - 48) else None.

(** Value and length of a run of digits. *)
Fixpoint digits (s : string) (acc len : Z) : option (Z * Z) :=
  match s with
  | EmptyString => Some (acc, len)
  | String c rest =>
      match digit c with
      | Some d => digits rest (10 * acc + d) (len + 1)
      | None => None
      end
  end.

Definition unsigned_int (s : string) : option Z :=
  match s with
  | EmptyString => None
  | _ => option_map fst (digits s 0 0)
  end.

Definition int_of_str (s : string) : option Z :=
  match s with
  | String "-" rest => option_map Z.opp (unsigned_int rest)
  | _ => unsigned_int s
  end.

Fixpoint split_point (s : string) : string * option string :=
  match s with
  | EmptyString => (EmptyString, None)
  | String "." rest => (EmptyString, Some rest)
  | String c rest =>
      let (a, b) := split_point rest in (String c a, b)
  end.

Definition quotient (num den : Z) : float :=
  match Py.int_true_divide num den with
  | Return x => x
  | Raise _ => infinity
  end.

Definition unsigned_float (s : string) : option float :=
  match split_point s with
  | (whole, None) => option_map (fun n => quotient n 1) (unsigned_int whole)
  | (whole, Some frac) =>
      match unsigned_int whole, digits frac 0 0 with
      | Some n, Some (f, k) =>
          match frac with
          | EmptyString => None
          | _ => Some (quotient (n * 10 ^ k + f) (10 ^ k))
          end
      | _, _ => None
      end
  end.

Definition float_of_str (s : string) : option float :=
  match s with
  | String "-" rest => option_map PrimFloat.opp (unsigned_float rest)
  | _ => unsigned_float s
  end.

End Decimal.

(** [n == 0] *)
Definition is_zero (n : Py.number) : bool :=
  match n with
  | Py.Int z => z =? 0
  | Py.Float x => PrimFloat.eqb x 0
  end.

(** ** The script around the estimator: processes, files, the environment

    [install_ffmpeg], the probe with its call of [install_ffmpeg], and the
    main block start processes and look at the file system.  What a
    command does, and whether a file exists, may depend on the commands run
    before (installing a package, writing a video), so the machine answers
    from the commands run so far, and every function passes that list
    along. *)

Module Script.

Definition command : Type := list string.

(** How a process ends: exit status 0 with what it printed, another exit
    status with what it wrote on stderr, or no such program. *)
Inductive exit : Type :=
| Exit0 (stdout : string)
| ExitFailure (stderr : string)
| NoSuchProgram.

Record System : Type := {
  (** ['COLAB_GPU' in os.environ] *)
  colab_gpu : bool;
  (** [os.geteuid()]; [None] on a platform that has none. *)
  geteuid : option Z;
  execute : list command -> command -> exit;
  (** [os.path.exists] *)
  path_present : list command -> string -> bool
}.

(** A captured stream: a [str] under [text=True], [bytes] otherwise. *)
Inductive captured : Type :=
| Str (s : string)
| Bytes (b : string).

(** [subprocess.run(cmd, capture_output=True, check=True)]: the completed
    process, [CalledProcessError] or [FileNotFoundError]. *)
Inductive run_result : Type :=
| Completed (stdout : string)
| Failed (stderr : captured)
| Missing.

(** How [json.loads] ends: the document, [JSONDecodeError], or one of the
    other exceptions it raises. *)
Inductive decoded : Type :=
| Document (metadata : json)
| DecodeError
| OtherError (failure : loads_failure).

(** A computation over the commands run so far. *)
Definition io (A : Type) : Type := list command -> result A * list command.

Definition ret {A : Type} (a : A) : io A := fun t => (Return a, t).

Definition lift {A : Type} (r : result A) : io A := fun t => (r, t).

Definition io_bind {A B : Type} (c : io A) (k : A -> io B) : io B :=
  fun t =>
    match c t with
    | (Return a, t') => k a t'
    | (Raise e, t') => (Raise e, t')
    end.

Notation "x <~ c ;; k" := (io_bind c (fun x => k))
  (at level 61, c at next level, right associativity).

Definition ffmpeg_version : command := ["ffmpeg"; "-version"].
Definition apt_get_update : command := ["apt-get"; "update"].
Definition apt_get_install : command := ["apt-get"; "install"; "-y"; "ffmpeg"].

Definition ffprobe_command (video_file_path : string) : command :=
  ["ffprobe"; "-v"; "error"; "-print_format"; "json"; "-show_format"; "-show_streams";
   video_file_path].

Definition dummy_video_command (video_path : string) : command :=
  ["ffmpeg"; "-y"; "-f"; "lavfi"; "-i";
   "anullsrc=channel_layout=stereo:sample_rate=44100:d=5";
   "-f"; "lavfi"; "-i"; "testsrc=duration=5:size=320x240:rate=15";
   "-c:v"; "libx264"; "-preset"; "ultrafast"; "-tune"; "zerolatency";
   "-c:a"; "aac"; "-b:a"; "64k"; "-b:v"; "250k"; "-shortest"; video_path].

(** [cmd.insert(0, "sudo")] under [if use_sudo]. *)
Definition with_sudo (use_sudo : bool) (cmd : command) : command :=
  if use_sudo then "sudo" :: cmd else cmd.

Section Program.

(** The builtins [float] and [int] on a [str] and [bytes.decode]: [None]
    is the [ValueError] each raises ([UnicodeDecodeError] for [decode]);
    and [json.loads]. *)
Variable float_of_str : string -> option float.
Variable int_of_str : string -> option Z.
Variable loads : string -> decoded.
Variable decode : string -> option string.

Variable sys : System.

Definition run (text : bool) (cmd : command) : io run_result :=
  fun t =>
    (Return match execute sys t cmd with
            | Exit0 stdout => Completed stdout
            | ExitFailure stderr => Failed (if text then Str stderr else Bytes stderr)
            | NoSuchProgram => Missing
            end,
     (t ++ [cmd])%list).

Definition os_path_exists (path : string) : io bool :=
  fun t => (Return (path_present sys t path), t).

(** ['COLAB_GPU' in os.environ or os.geteuid() != 0] *)
Definition use_sudo : result bool :=
  if colab_gpu sys then Return true
  else match geteuid sys with
       | Some uid => Return (negb (uid =? 0))
       | None => Raise AttributeError
       end.

(** [e.stderr.decode() if e.stderr else "No stderr"]: a [str] has no
    [decode]. *)
Definition stderr_text (stderr : captured) : result string :=
  match stderr with
  | Str s => if (s =? "")%string then Return "No stderr" else Raise AttributeError
  | Bytes b =>
      if (b =? "")%string then Return "No stderr"
      else match decode b with
           | Some s => Return s
           | None => Raise ValueError
           end
  end.

(** The two handlers of the inner [try]. *)
Definition install_failed (r : run_result) : io bool :=
  match r with
  | Failed stderr => _ <~ lift (stderr_text stderr) ;; ret false
  | _ => ret false
  end.

Definition install_ffmpeg : io bool :=
  use_sudo <~ lift use_sudo ;;
  r <~ run true ffmpeg_version ;;
  match r with
  | Completed _ => ret true
  | _ =>
      r <~ run false (with_sudo use_sudo apt_get_update) ;;
      match r with
      | Completed _ =>
          r <~ run false (with_sudo use_sudo apt_get_install) ;;
          match r with
          | Completed _ =>
              r <~ run true ffmpeg_version ;;
              match r with
              | Completed _ => ret true
              | _ => install_failed r
              end
          | _ => install_failed r
          end
      | _ => install_failed r
      end
  end.

Definition get_video_metadata (video_file_path : string) : io VideoMetadata :=
  found <~ os_path_exists video_file_path ;;
  if negb found then ret (placeholder ("File not found: " ++ video_file_path))
  else
    r <~ run true (ffprobe_command video_file_path) ;;
    match r with
    | Completed stdout =>
        match loads stdout with
        | Document metadata => lift (read_report float_of_str int_of_str metadata)
        | DecodeError => ret (placeholder "Failed to parse ffprobe JSON output.")
        | OtherError failure => lift (Raise (raised_by_loads failure))
        end
    | Failed (Str stderr) => ret (placeholder (failed_message stderr video_file_path))
    | Failed (Bytes _) => lift (Raise TypeError)
    | Missing =>
        _ <~ install_ffmpeg ;;
        ret (placeholder
               "ffprobe command not found. Ensure FFmpeg is installed and in PATH.")
    end.

Definition calculate_segment_duration (video_file_path : string)
    (target_segment_size_mb : Py.number) : io SegmentEstimate :=
  metadata <~ get_video_metadata video_file_path ;;
  lift (estimate_segments metadata target_segment_size_mb).

(** How the main block ends: which of its closing messages it prints. *)
Inductive outcome : Type :=
| Aborted
| Skipped
| Printed (estimation_results : SegmentEstimate).

Definition main : io outcome :=
  ffmpeg_ready <~ install_ffmpeg ;;
  if negb ffmpeg_ready then ret Aborted
  else
    found <~ os_path_exists "test_video.mp4" ;;
    video_path <~
      (if negb found then
         r <~ run true (dummy_video_command "test_video.mp4") ;;
         match r with
         | Completed _ => ret "test_video.mp4"
         | _ => ret ""
         end
       else ret "test_video.mp4") ;;
    if negb (video_path =? "")%string then
      estimation_results <~ calculate_segment_duration video_path (Py.Int 22) ;;
      ret (Printed estimation_results)
    else ret Skipped.

(** The probe's view of the machine after the commands [t]. *)
Definition world_at (t : list command) : World :=
  {| path_exists := path_present sys t;
     run_ffprobe := fun path =>
       match execute sys t (ffprobe_command path) with
       | Exit0 stdout =>
           match loads stdout with
           | Document metadata => Loaded metadata
           | DecodeError => JSONDecodeError
           | OtherError failure => LoadsFailed failure
           end
       | ExitFailure stderr => CalledProcessError stderr
       | NoSuchProgram => FileNotFoundError
       end |}.

End Program.

End Script.

(** * Binary64 rounding

    What [SpecFloat]'s rounding returns, in closed form, and the facts on
    signs, validity and magnitude that follow. *)

Module Binary64.

(** Number of binary digits. *)
Lemma digits2_pos_bounds (p : positive) :
  2 ^ (Zpos (digits2_pos p) - 1) <= Zpos p < 2 ^ Zpos (digits2_pos p).
Proof.
  induction p as [p IH|p IH|]; simpl digits2_pos.
  - rewrite Pos2Z.inj_succ.
    replace (Z.succ (Zpos (digits2_pos p)) - 1) with (Z.succ (Zpos (digits2_pos p) - 1)) by lia.
    rewrite !Z.pow_succ_r by lia. lia.
  - rewrite Pos2Z.inj_succ.
    replace (Z.succ (Zpos (digits2_pos p)) - 1) with (Z.succ (Zpos (digits2_pos p) - 1)) by lia.
    rewrite !Z.pow_succ_r by lia. lia.
  - simpl. lia.
Qed.

Lemma Zdigits2_bounds (m : Z) :
  0 < m -> 2 ^ (Zdigits2 m - 1) <= m < 2 ^ Zdigits2 m.
Proof.
  destruct m as [|p|p]; try lia. intros _. apply digits2_pos_bounds.
Qed.

Lemma Zdigits2_pos (m : Z) : 0 < m -> 0 < Zdigits2 m.
Proof. destruct m; simpl; lia. Qed.

Lemma Zdigits2_unique (m k : Z) :
  2 ^ (k - 1) <= m < 2 ^ k -> 0 < m -> Zdigits2 m = k.
Proof.
  intros [Hlo Hhi] Hm.
  pose proof (Zdigits2_bounds m Hm) as [Hlo' Hhi'].
  pose proof (Zdigits2_pos m Hm) as Hd.
  assert (Hk : 0 < k).
  { destruct (Z_lt_le_dec 0 k) as [|Hk]; [assumption|].
    destruct (Z.eq_dec k 0) as [->|]; [simpl in Hhi; lia|].
    rewrite (Z.pow_neg_r 2 k) in Hhi by lia. lia. }
  destruct (Z_lt_le_dec (Zdigits2 m) k) as [Hlt|Hge].
  - assert (2 ^ Zdigits2 m <= 2 ^ (k - 1)) by (apply Z.pow_le_mono_r; lia). lia.
  - destruct (Z_lt_le_dec k (Zdigits2 m)) as [Hlt|Hle]; [|lia].
    assert (2 ^ k <= 2 ^ (Zdigits2 m - 1)) by (apply Z.pow_le_mono_r; lia). lia.
Qed.

(** Right shifts of the rounding record. *)
Definition frac_class (a b : Z) : location :=
  if a =? 0 then loc_Exact else loc_Inexact (Z.compare (2 * a) b).

Lemma shr_1_spec (a b : Z) (mrs : shr_record) :
  0 <= shr_m mrs -> 0 <= a < b ->
  loc_of_shr_record mrs = frac_class a b ->
  shr_m (shr_1 mrs) = shr_m mrs / 2
  /\ loc_of_shr_record (shr_1 mrs) = frac_class ((shr_m mrs mod 2) * b + a) (2 * b).
Proof.
  destruct mrs as [mm r s]. simpl shr_m. intros Hm Hab Hloc.
  assert (Hs : orb r s = negb (a =? 0)).
  { unfold frac_class in Hloc. destruct (Z.eqb_spec a 0).
    - destruct r, s; simpl in Hloc; try discriminate; reflexivity.
    - destruct r, s; simpl in Hloc; try discriminate; reflexivity. }
  assert (Hdm : mm = 2 * (mm / 2) + mm mod 2) by (apply Z.div_mod; lia).
  assert (Hmod : 0 <= mm mod 2 < 2) by (apply Z.mod_pos_bound; lia).
  unfold shr_1. rewrite Hs.
  assert (Hcase : forall q bit, mm = 2 * q + (if bit : bool then 1 else 0) ->
            q = mm / 2 /\
            loc_of_shr_record {| shr_m := q; shr_r := bit; shr_s := negb (a =? 0) |}
            = frac_class (mm mod 2 * b + a) (2 * b)).
  { intros q bit Hq.
    assert (Hb : mm mod 2 = if bit then 1 else 0) by (destruct bit; lia).
    split; [destruct bit; lia|]. rewrite Hb. unfold frac_class.
    destruct bit; destruct (Z.eqb_spec a 0) as [->|Ha]; simpl negb; cbn [loc_of_shr_record].
    - destruct (Z.eqb_spec (1 * b + 0) 0); [lia|].
      destruct (Z.compare_spec (2 * (1 * b + 0)) (2 * b)); try lia; reflexivity.
    - destruct (Z.eqb_spec (1 * b + a) 0); [lia|].
      destruct (Z.compare_spec (2 * (1 * b + a)) (2 * b)); try lia; reflexivity.
    - destruct (Z.eqb_spec (0 * b + 0) 0); [reflexivity|lia].
    - destruct (Z.eqb_spec (0 * b + a) 0); [lia|].
      destruct (Z.compare_spec (2 * (0 * b + a)) (2 * b)); try lia; reflexivity. }
  destruct mm as [|[p|p|]|p]; try lia; cbn [shr_m].
  - destruct (Hcase 0 false) as [H1 H2]; [lia|]. split; assumption.
  - destruct (Hcase (Zpos p) true) as [H1 H2]; [lia|]. split; assumption.
  - destruct (Hcase (Zpos p) false) as [H1 H2]; [lia|]. split; assumption.
  - destruct (Hcase 0 true) as [H1 H2]; [lia|]. split; assumption.
Qed.

Definition shifted (k a b : Z) (mrs mrs' : shr_record) : Prop :=
  shr_m mrs' = shr_m mrs / 2 ^ k
  /\ loc_of_shr_record mrs' = frac_class (shr_m mrs mod 2 ^ k * b + a) (2 ^ k * b).

Lemma shifted_fraction (k a b m : Z) :
  0 <= k -> 0 <= a < b -> 0 <= m mod 2 ^ k * b + a < 2 ^ k * b.
Proof.
  intros Hk Hab.
  assert (0 < 2 ^ k) by (apply Z.pow_pos_nonneg; lia).
  pose proof (Z.mod_pos_bound m (2 ^ k)). nia.
Qed.

Lemma shifted_trans (k j a b : Z) (x y z : shr_record) :
  0 <= k -> 0 <= j -> 0 <= shr_m x -> 0 <= a < b ->
  shifted k a b x y ->
  shifted j (shr_m x mod 2 ^ k * b + a) (2 ^ k * b) y z ->
  shifted (k + j) a b x z.
Proof.
  intros Hk Hj Hx Hab [Hy1 Hy2] [Hz1 Hz2].
  assert (Hpk : 0 < 2 ^ k) by (apply Z.pow_pos_nonneg; lia).
  assert (Hpj : 0 < 2 ^ j) by (apply Z.pow_pos_nonneg; lia).
  split.
  - rewrite Hz1, Hy1, Z.pow_add_r, Z.div_div by lia. reflexivity.
  - rewrite Hz2, Hy1. f_equal.
    + rewrite Z.pow_add_r, Z.rem_mul_r by lia. ring.
    + rewrite Z.pow_add_r by lia. ring.
Qed.

Lemma shifted_nonneg (k a b : Z) (x y : shr_record) :
  0 <= k -> 0 <= shr_m x -> shifted k a b x y -> 0 <= shr_m y.
Proof.
  intros Hk Hx [-> _]. apply Z.div_pos; [assumption|apply Z.pow_pos_nonneg; lia].
Qed.

Lemma iter_shr_1_spec (n : positive) :
  forall (a b : Z) (mrs : shr_record),
    0 <= shr_m mrs -> 0 <= a < b ->
    loc_of_shr_record mrs = frac_class a b ->
    shifted (Zpos n) a b mrs (iter_pos shr_1 n mrs).
Proof.
  assert (Hone : forall a b mrs, 0 <= shr_m mrs -> 0 <= a < b ->
            loc_of_shr_record mrs = frac_class a b ->
            shifted 1 a b mrs (shr_1 mrs)).
  { intros a b mrs Hm Hab Hl. destruct (shr_1_spec a b mrs Hm Hab Hl) as [H1 H2].
    split; [exact H1|]. rewrite H2. reflexivity. }
  induction n as [n IH|n IH|]; intros a b mrs Hm Hab Hl; cbn [iter_pos].
  - replace (Zpos n~1) with (1 + (Zpos n + Zpos n)) by lia.
    pose proof (Hone a b mrs Hm Hab Hl) as H1.
    pose proof (shifted_nonneg 1 _ _ _ _ ltac:(lia) Hm H1) as Hm1.
    pose proof (shifted_fraction 1 a b (shr_m mrs) ltac:(lia) Hab) as Hab1.
    pose proof (IH _ _ _ Hm1 Hab1 (proj2 H1)) as H2.
    pose proof (shifted_nonneg (Zpos n) _ _ _ _ ltac:(lia) Hm1 H2) as Hm2.
    pose proof (shifted_fraction (Zpos n) _ _ (shr_m (shr_1 mrs)) ltac:(lia) Hab1) as Hab2.
    pose proof (IH _ _ _ Hm2 Hab2 (proj2 H2)) as H3.
    apply (shifted_trans 1 (Zpos n + Zpos n) a b mrs (shr_1 mrs)); try lia; try assumption.
    apply (shifted_trans (Zpos n) (Zpos n) _ _ (shr_1 mrs) (iter_pos shr_1 n (shr_1 mrs)));
      try lia; assumption.
  - replace (Zpos n~0) with (Zpos n + Zpos n) by lia.
    pose proof (IH a b mrs Hm Hab Hl) as H2.
    pose proof (shifted_nonneg (Zpos n) _ _ _ _ ltac:(lia) Hm H2) as Hm2.
    pose proof (shifted_fraction (Zpos n) a b (shr_m mrs) ltac:(lia) Hab) as Hab2.
    pose proof (IH _ _ _ Hm2 Hab2 (proj2 H2)) as H3.
    apply (shifted_trans (Zpos n) (Zpos n) a b mrs (iter_pos shr_1 n mrs));
      try lia; assumption.
  - apply Hone; assumption.
Qed.

(** The exponent of the format. *)
Definition cexp (m e : Z) : Z := fexp prec emax (Zdigits2 m + e).

Lemma fexp_eq (x : Z) : fexp prec emax x = Z.max (x - 53) (-1074).
Proof. reflexivity. Qed.

Lemma Zdigits2_shift (m n : Z) :
  0 < m -> 0 <= n < Zdigits2 m -> 
  0 < m / 2 ^ n /\ Zdigits2 (m / 2 ^ n) = Zdigits2 m - n.
Proof.
  intros Hm Hn. pose proof (Zdigits2_bounds m Hm) as [Hlo Hhi].
  assert (Hp : 0 < 2 ^ n) by (apply Z.pow_pos_nonneg; lia).
  assert (Hlo' : 2 ^ (Zdigits2 m - n - 1) <= m / 2 ^ n).
  { apply Z.div_le_lower_bound; [lia|].
    rewrite <- Z.pow_add_r by lia. replace (n + (Zdigits2 m - n - 1)) with (Zdigits2 m - 1) by lia.
    exact Hlo. }
  assert (Hhi' : m / 2 ^ n < 2 ^ (Zdigits2 m - n)).
  { apply Z.div_lt_upper_bound; [lia|].
    rewrite <- Z.pow_add_r by lia. replace (n + (Zdigits2 m - n)) with (Zdigits2 m) by lia.
    exact Hhi. }
  assert (Hpos : 0 < m / 2 ^ n).
  { assert (0 < 2 ^ (Zdigits2 m - n - 1)) by (apply Z.pow_pos_nonneg; lia). lia. }
  split; [exact Hpos|]. apply Zdigits2_unique; [split; assumption|exact Hpos].
Qed.

Lemma Zdigits2_shift_out (m n : Z) :
  0 <= m -> Zdigits2 m <= n -> m / 2 ^ n = 0.
Proof.
  intros Hm Hn. destruct (Z.eq_dec m 0) as [->|Hne].
  - apply Z.div_0_l. assert (0 < 2 ^ n); [|lia]. apply Z.pow_pos_nonneg; [lia|].
    simpl in Hn. exact Hn.
  - pose proof (Zdigits2_bounds m ltac:(lia)) as [_ Hhi].
    pose proof (Zdigits2_pos m ltac:(lia)).
    apply Z.div_small. split; [lia|].
    assert (2 ^ Zdigits2 m <= 2 ^ n) by (apply Z.pow_le_mono_r; lia). lia.
Qed.

Lemma loc_of_shr_record_of_loc (m : Z) (l : location) :
  loc_of_shr_record (shr_record_of_loc m l) = l /\ shr_m (shr_record_of_loc m l) = m.
Proof. destruct l as [|[| |]]; split; reflexivity. Qed.

(** [shr] by any [n >= 0]. *)
Lemma shr_spec (m e n a b : Z) (l : location) :
  0 <= m -> 0 <= a < b -> 0 <= n -> l = frac_class a b ->
  shifted n a b (shr_record_of_loc m l) (fst (shr (shr_record_of_loc m l) e n))
  /\ snd (shr (shr_record_of_loc m l) e n) = e + n.
Proof.
  intros Hm Hab Hn Hl.
  destruct (loc_of_shr_record_of_loc m l) as [Hloc Hsm].
  destruct n as [|p|p]; try lia.
  - simpl. split; [|lia]. split.
    + now rewrite Z.div_1_r.
    + rewrite Hloc, Hl, Z.mod_1_r. f_equal; lia.
  - simpl. split; [|reflexivity].
    apply iter_shr_1_spec; [rewrite Hsm; exact Hm | exact Hab | now rewrite Hloc].
Qed.

(** Rounding to nearest, ties to even, of [m + a/b]. *)
Definition rne (m a b : Z) : Z := round_nearest_even m (frac_class a b).

Lemma rne_bounds (m a b : Z) : m <= rne m a b <= m + 1.
Proof.
  unfold rne, frac_class, round_nearest_even.
  destruct (a =? 0); [lia|].
  destruct (2 * a ?= b); [destruct (Z.even m)| |]; lia.
Qed.

Lemma rne_exact (m b : Z) : rne m 0 b = m.
Proof. reflexivity. Qed.

Definition finish (s : bool) (m e : Z) : spec_float :=
  match m with
  | Z0 => S754_zero s
  | Zpos p => if e <=? 971 then S754_finite s p e else S754_infinity s
  | Zneg _ => S754_nan
  end.

(** The mantissa kept by the first shift has at most 53 digits and is in
    canonical position. *)
Lemma kept_mantissa (m e : Z) :
  0 <= m -> e <= cexp m e ->
  let c := cexp m e in
  let m1 := m / 2 ^ (c - e) in
  0 <= m1 < 2 ^ 53
  /\ (0 < m1 -> Zdigits2 m1 + c = Zdigits2 m + e)
  /\ (m1 = 0 -> c = -1074)
  /\ -1074 <= c.
Proof.
  intros Hm He c m1.
  assert (Hcdef : c = Z.max (Zdigits2 m + e - 53) (-1074)) by reflexivity.
  fold c in He. clearbody c.
  assert (Hc : -1074 <= c) by lia.
  assert (Hp : 0 < 2 ^ (c - e)) by (apply Z.pow_pos_nonneg; lia).
  destruct (Z.eq_dec m 0) as [->|Hne].
  - subst m1. rewrite Z.div_0_l by lia. simpl in Hcdef. repeat split; try lia.
  - assert (Hmpos : 0 < m) by lia.
    pose proof (Zdigits2_pos m Hmpos) as Hd.
    destruct (Z_lt_le_dec (c - e) (Zdigits2 m)) as [Hlt|Hge].
    + destruct (Zdigits2_shift m (c - e) Hmpos ltac:(lia)) as [Hpos Hdig].
      fold m1 in Hpos, Hdig.
      pose proof (Zdigits2_bounds m1 Hpos) as [_ Hhi].
      assert (Zdigits2 m1 <= 53) by lia.
      assert (2 ^ Zdigits2 m1 <= 2 ^ 53) by (apply Z.pow_le_mono_r; lia).
      repeat split; try lia.
    + assert (H0 : m1 = 0) by (apply Zdigits2_shift_out; lia).
      rewrite H0. repeat split; try lia.
Qed.

Lemma rounded_canonical (m e r : Z) :
  0 <= m -> e <= cexp m e ->
  let c := cexp m e in
  let m1 := m / 2 ^ (c - e) in
  m1 <= r <= m1 + 1 ->
  0 <= r <= 2 ^ 53
  /\ (r = 2 ^ 53 -> fexp prec emax (Zdigits2 r + c) = c + 1)
  /\ (0 < r < 2 ^ 53 -> fexp prec emax (Zdigits2 r + c) = c).
Proof.
  intros Hm He c m1 Hr.
  pose proof (kept_mantissa m e Hm He) as H. cbv zeta in H.
  change (cexp m e) with c in H. change (m / 2 ^ (c - e)) with m1 in H.
  destruct H as (Hm1 & Hdig & Hzero & Hc).
  split; [lia|]. rewrite !fexp_eq.
  assert (Hcdef : c = Z.max (Zdigits2 m + e - 53) (-1074)) by reflexivity.
  clearbody m1. clearbody c.
  destruct (Z.eq_dec m1 0) as [H0|Hne].
  - specialize (Hzero H0). split; [lia|]. intros Hr0.
    assert (r = 1) by lia. subst r. change (Zdigits2 1) with 1. lia.
  - assert (Hpos : 0 < m1) by lia. specialize (Hdig Hpos).
    pose proof (Zdigits2_bounds m1 Hpos) as [Hlo Hhi].
    pose proof (Zdigits2_pos m1 Hpos) as Hd.
    destruct (Z_lt_le_dec r (2 ^ Zdigits2 m1)) as [Hlt|Hge].
    + assert (Hdr : Zdigits2 r = Zdigits2 m1) by (apply Zdigits2_unique; lia).
      assert (Zdigits2 m1 <= 53).
      { destruct (Z_lt_le_dec 53 (Zdigits2 m1)); [|lia].
        assert (2 ^ 53 <= 2 ^ (Zdigits2 m1 - 1)) by (apply Z.pow_le_mono_r; lia). lia. }
      split; intros Hr'.
      * assert (2 ^ Zdigits2 m1 <= 2 ^ 53) by (apply Z.pow_le_mono_r; lia). lia.
      * rewrite Hdr. lia.
    + assert (Hreq : r = 2 ^ Zdigits2 m1) by lia.
      assert (Hdr : Zdigits2 r = Zdigits2 m1 + 1).
      { apply Zdigits2_unique; [|lia].
        replace (Zdigits2 m1 + 1 - 1) with (Zdigits2 m1) by lia.
        rewrite Z.pow_add_r by lia. lia. }
      assert (Hle : Zdigits2 m1 <= 53).
      { destruct (Z_lt_le_dec 53 (Zdigits2 m1)); [|lia].
        assert (2 ^ 53 <= 2 ^ (Zdigits2 m1 - 1)) by (apply Z.pow_le_mono_r; lia). lia. }
      split; intros Hr'.
      * assert (Zdigits2 m1 = 53).
        { destruct (Z.eq_dec (Zdigits2 m1) 53); [assumption|].
          assert (2 ^ Zdigits2 m1 < 2 ^ 53) by (apply Z.pow_lt_mono_r; lia). lia. }
        rewrite Hdr. lia.
      * assert (Zdigits2 m1 < 53).
        { destruct (Z.eq_dec (Zdigits2 m1) 53) as [E|]; [rewrite E in Hreq; lia|lia]. }
        rewrite Hdr. lia.
Qed.

Lemma shr_nonpos (mrs : shr_record) (e n : Z) : n <= 0 -> shr mrs e n = (mrs, e).
Proof. destruct n; try reflexivity. lia. Qed.

(** What [binary_round_aux] returns, in closed form. *)
Lemma binary_round_aux_spec (s : bool) (m e a b : Z) :
  0 <= m -> 0 <= a < b -> e <= cexp m e ->
  let c := cexp m e in
  let n := c - e in
  let r := rne (m / 2 ^ n) (m mod 2 ^ n * b + a) (2 ^ n * b) in
  binary_round_aux prec emax s m e (frac_class a b)
  = if r =? 2 ^ 53 then finish s (2 ^ 52) (c + 1) else finish s r c.
Proof.
  intros Hm Hab He c n r.
  pose proof (rounded_canonical m e r Hm He) as Hcan. cbv zeta in Hcan.
  change (cexp m e) with c in Hcan. change (c - e) with n in Hcan.
  specialize (Hcan (rne_bounds _ _ _)). destruct Hcan as (Hr & Hr53 & Hrlt).
  pose proof (kept_mantissa m e Hm He) as Hk. cbv zeta in Hk.
  change (cexp m e) with c in Hk. destruct Hk as (_ & _ & _ & Hc).
  unfold binary_round_aux, shr_fexp.
  change (fexp prec emax (Zdigits2 m + e)) with c.
  destruct (shr_spec m e (c - e) a b (frac_class a b) Hm Hab ltac:(lia) eq_refl)
    as [[Hs1 Hs2] He1].
  destruct (shr (shr_record_of_loc m (frac_class a b)) e (c - e)) as [mrs' e'].
  cbn [fst snd] in Hs1, Hs2, He1.
  rewrite (proj2 (loc_of_shr_record_of_loc m (frac_class a b))) in Hs1, Hs2.
  assert (He' : e' = c) by lia. rewrite He'. clear He' He1.
  rewrite Hs2, Hs1. change (c - e) with n.
  change (round_nearest_even (m / 2 ^ n) (frac_class (m mod 2 ^ n * b + a) (2 ^ n * b)))
    with r.
  clearbody r. clearbody c. clear Hs1 Hs2 mrs' e'.
  destruct (Z.eqb_spec r (2 ^ 53)) as [E|NE].
  - rewrite (Hr53 E).
    destruct (shr_spec r c 1 0 1 loc_Exact ltac:(lia) ltac:(lia) ltac:(lia) eq_refl)
      as [[Ht1 _] Ht2].
    replace (c + 1 - c) with 1 by lia.
    destruct (shr (shr_record_of_loc r loc_Exact) c 1) as [mrs2 e2].
    cbn [fst snd] in Ht1, Ht2. cbn [shr_record_of_loc shr_m] in Ht1.
    rewrite Ht1, Ht2, E. reflexivity.
  - destruct (Z.eq_dec r 0) as [E0|N0].
    + subst r. rewrite shr_nonpos.
      * reflexivity.
      * change (Zdigits2 0) with 0. rewrite fexp_eq. lia.
    + rewrite Hrlt by lia. rewrite shr_nonpos by lia.
      cbn [shr_record_of_loc shr_m]. destruct r; try lia. reflexivity.
Qed.

Lemma new_location_spec (nb k : Z) : new_location nb k = frac_class k nb.
Proof.
  unfold new_location, new_location_even, new_location_odd, frac_class.
  destruct (Z.even nb) eqn:Ev; destruct (Z.eqb_spec k 0); try reflexivity.
  f_equal.
  assert (Hodd : Z.odd nb = true) by (rewrite <- Z.negb_even, Ev; reflexivity).
  apply Z.odd_spec in Hodd. destruct Hodd as [h Hh].
  destruct (Z.compare_spec (2 * k + 1) nb); destruct (Z.compare_spec (2 * k) nb);
    try reflexivity; lia.
Qed.

(** Shape and validity of a rounded result. *)
Definition signed_shape (s : bool) (x : spec_float) : Prop :=
  x = S754_zero s \/ x = S754_infinity s
  \/ exists m e, x = S754_finite s m e.

Lemma finish_canonical (s : bool) (r c : Z) :
  0 <= r -> fexp prec emax (Zdigits2 r + c) = c ->
  valid_binary (finish s r c) = true /\ signed_shape s (finish s r c).
Proof.
  intros Hr Hc. destruct r as [|p|p]; try lia; cbn [finish].
  - split; [reflexivity | left; reflexivity].
  - destruct (Z.leb_spec c 971) as [Hle|Hgt].
    + split.
      * cbn [valid_binary]. unfold bounded, canonical_mantissa.
        change (Zpos (digits2_pos p)) with (Zdigits2 (Zpos p)).
        rewrite Hc, Z.eqb_refl. cbn [andb]. apply Z.leb_le. exact Hle.
      * right; right. eauto.
    + split; [reflexivity | right; left; reflexivity].
Qed.

Lemma binary_round_aux_valid (s : bool) (m e a b : Z) :
  0 <= m -> 0 <= a < b -> e <= cexp m e ->
  valid_binary (binary_round_aux prec emax s m e (frac_class a b)) = true
  /\ signed_shape s (binary_round_aux prec emax s m e (frac_class a b)).
Proof.
  intros Hm Hab He. rewrite binary_round_aux_spec by assumption. cbv zeta.
  set (c := cexp m e).
  set (r := rne (m / 2 ^ (c - e)) (m mod 2 ^ (c - e) * b + a) (2 ^ (c - e) * b)).
  pose proof (rounded_canonical m e r Hm He) as Hcan. cbv zeta in Hcan.
  change (cexp m e) with c in Hcan.
  specialize (Hcan (rne_bounds _ _ _)). destruct Hcan as (Hr & Hr53 & Hrlt).
  destruct (Z.eqb_spec r (2 ^ 53)) as [E|NE].
  - apply finish_canonical; [lia|]. specialize (Hr53 E). rewrite E in Hr53.
    change (Zdigits2 (2 ^ 53)) with 54 in Hr53. change (Zdigits2 (2 ^ 52)) with 53.
    rewrite fexp_eq in *. lia.
  - destruct (Z.eq_dec r 0) as [->|N0].
    + split; [reflexivity | left; reflexivity].
    + apply finish_canonical; [lia|]. apply Hrlt. lia.
Qed.

Lemma Zdigits2_ge (q k : Z) : 0 <= k -> 2 ^ k <= q -> k + 1 <= Zdigits2 q.
Proof.
  intros Hk Hq. assert (0 < 2 ^ k) by (apply Z.pow_pos_nonneg; lia).
  pose proof (Zdigits2_bounds q ltac:(lia)) as [_ Hhi].
  pose proof (Zdigits2_pos q ltac:(lia)).
  destruct (Z_lt_le_dec k (Zdigits2 q)); [lia|].
  assert (2 ^ Zdigits2 q <= 2 ^ k) by (apply Z.pow_le_mono_r; lia). lia.
Qed.

(** The quotient computed by [SFdiv_core_binary], with its exponent. *)
Definition div_exponent (m1 e1 m2 e2 : Z) : Z :=
  Z.min (fexp prec emax (Zdigits2 m1 + e1 - (Zdigits2 m2 + e2))) (e1 - e2).

Lemma SFdiv_core_binary_spec (m1 e1 m2 e2 : Z) :
  0 < m1 -> 0 < m2 ->
  let e' := div_exponent m1 e1 m2 e2 in
  let s := e1 - e2 - e' in
  SFdiv_core_binary prec emax m1 e1 m2 e2
  = (m1 * 2 ^ s / m2, e', frac_class ((m1 * 2 ^ s) mod m2) m2)
  /\ 0 <= s
  /\ e' <= fexp prec emax (Zdigits2 m1 + e1 - (Zdigits2 m2 + e2))
       <= cexp (m1 * 2 ^ s / m2) e'.
Proof.
  intros H1 H2 e' s.
  assert (Hs : 0 <= s) by (unfold s, e', div_exponent; lia).
  assert (Hps : 0 < 2 ^ s) by (apply Z.pow_pos_nonneg; lia).
  split; [|split; [exact Hs|]].
  - unfold SFdiv_core_binary. fold (div_exponent m1 e1 m2 e2). fold e'. fold s.
    assert (Hm' : match s with Zpos _ => Z.shiftl m1 s | Z0 => m1 | Zneg _ => 0 end
                  = m1 * 2 ^ s).
    { destruct s as [|p|p] eqn:Es; try lia.
      apply Z.shiftl_mul_pow2. lia. }
    rewrite Hm'. unfold Z.div, Z.modulo.
    destruct (Z.div_eucl (m1 * 2 ^ s) m2) as [q r]. cbn [fst snd].
    rewrite new_location_spec. reflexivity.
  - set (q := m1 * 2 ^ s / m2).
    pose proof (Zdigits2_bounds m1 H1) as [Hlo1 _].
    pose proof (Zdigits2_bounds m2 H2) as [_ Hhi2].
    pose proof (Zdigits2_pos m1 H1) as Hd1. pose proof (Zdigits2_pos m2 H2) as Hd2.
    set (D := Zdigits2 m1 + e1 - (Zdigits2 m2 + e2)).
    assert (He'D : e' <= fexp prec emax D) by (unfold e', div_exponent; fold D; lia).
    split; [exact He'D|].
    assert (Hqr : m1 * 2 ^ s = m2 * q + (m1 * 2 ^ s) mod m2) by (apply Z.div_mod; lia).
    pose proof (Z.mod_pos_bound (m1 * 2 ^ s) m2 H2) as Hr.
    assert (Hq0 : 0 <= q) by (apply Z.div_pos; nia).
    assert (Hnum : 2 ^ (Zdigits2 m1 - 1 + s) <= m1 * 2 ^ s).
    { rewrite Z.pow_add_r by lia. nia. }
    unfold cexp. rewrite !fexp_eq. rewrite fexp_eq in He'D.
    destruct (Z.eq_dec q 0) as [E0|N0].
    + rewrite E0. change (Zdigits2 0) with 0.
      assert (Hlt : 2 ^ (Zdigits2 m1 - 1 + s) < 2 ^ Zdigits2 m2) by nia.
      apply Z.pow_lt_mono_r_iff in Hlt; [|lia|lia].
      unfold s in Hlt. unfold D in *. lia.
    + assert (Hdq : Zdigits2 m1 + s - Zdigits2 m2 <= Zdigits2 q).
      { pose proof (Zdigits2_pos q ltac:(lia)).
        destruct (Z_lt_le_dec (Zdigits2 m1 + s - 1 - Zdigits2 m2) 0); [lia|].
        assert (Hk : 2 ^ (Zdigits2 m1 + s - 1 - Zdigits2 m2) <= q).
        { assert (Hsplit : 2 ^ (Zdigits2 m1 - 1 + s)
                           = 2 ^ (Zdigits2 m1 + s - 1 - Zdigits2 m2) * 2 ^ Zdigits2 m2).
          { rewrite <- Z.pow_add_r by lia. f_equal. lia. }
          assert (0 < 2 ^ (Zdigits2 m1 + s - 1 - Zdigits2 m2))
            by (apply Z.pow_pos_nonneg; lia).
          nia. }
        pose proof (Zdigits2_ge q (Zdigits2 m1 + s - 1 - Zdigits2 m2) ltac:(lia) Hk). lia. }
      unfold s in Hdq. unfold D in *. lia.
Qed.

Lemma binary_round_aux_nonzero (s s' : bool) (m e a b : Z) :
  0 <= m -> 0 <= a < b -> e <= cexp m e -> -1074 < cexp m e ->
  binary_round_aux prec emax s m e (frac_class a b) <> S754_zero s'.
Proof.
  intros Hm Hab He Hc. rewrite binary_round_aux_spec by assumption. cbv zeta.
  pose proof (kept_mantissa m e Hm He) as Hk. cbv zeta in Hk.
  destruct Hk as (Hm1 & _ & Hzero & _).
  pose proof (rne_bounds (m / 2 ^ (cexp m e - e))
                (m mod 2 ^ (cexp m e - e) * b + a) (2 ^ (cexp m e - e) * b)) as Hr.
  set (r := rne _ _ _) in *.
  assert (Hpos : 0 < r) by (destruct (Z.eq_dec (m / 2 ^ (cexp m e - e)) 0); [lia|lia]).
  destruct (Z.eqb_spec r (2 ^ 53)) as [E|NE].
  - cbn. destruct (cexp m e + 1 <=? 971); discriminate.
  - destruct r; try lia. cbn. destruct (cexp m e <=? 971); discriminate.
Qed.

(** ** Division and multiplication of finite numbers *)

Lemma SFdiv_finite (sx sy : bool) (mx my : positive) (ex ey : Z) :
  let R := SFdiv prec emax (S754_finite sx mx ex) (S754_finite sy my ey) in
  valid_binary R = true
  /\ signed_shape (xorb sx sy) R
  /\ (-1021 < Zdigits2 (Zpos mx) + ex - (Zdigits2 (Zpos my) + ey) ->
      R <> S754_zero (xorb sx sy)).
Proof.
  intros R. subst R. cbn [SFdiv].
  destruct (SFdiv_core_binary_spec (Zpos mx) ex (Zpos my) ey) as (Hcore & Hs & He1 & He2);
    try lia.
  rewrite Hcore.
  set (e' := div_exponent (Zpos mx) ex (Zpos my) ey) in *.
  set (q := Zpos mx * 2 ^ (ex - ey - e') / Zpos my) in *.
  assert (Hq : 0 <= q).
  { apply Z.div_pos; [|lia].
    assert (0 < 2 ^ (ex - ey - e')) by (apply Z.pow_pos_nonneg; lia). nia. }
  pose proof (Z.mod_pos_bound (Zpos mx * 2 ^ (ex - ey - e')) (Zpos my) ltac:(lia)) as Hr.
  destruct (binary_round_aux_valid (xorb sx sy) q e' _ _ Hq Hr ltac:(lia)) as [Hv Hsh].
  split; [exact Hv|]. split; [exact Hsh|].
  intros HD. apply binary_round_aux_nonzero; try assumption; try lia.
  rewrite fexp_eq in He2. lia.
Qed.

Lemma Zdigits2_mul (x y : Z) :
  0 < x -> 0 < y -> Zdigits2 x + Zdigits2 y - 1 <= Zdigits2 (x * y).
Proof.
  intros Hx Hy.
  pose proof (Zdigits2_bounds x Hx) as [Hlx _]. pose proof (Zdigits2_bounds y Hy) as [Hly _].
  pose proof (Zdigits2_pos x Hx). pose proof (Zdigits2_pos y Hy).
  assert (H2 : 2 ^ (Zdigits2 x + Zdigits2 y - 2) <= x * y).
  { replace (Zdigits2 x + Zdigits2 y - 2) with ((Zdigits2 x - 1) + (Zdigits2 y - 1)) by lia.
    rewrite Z.pow_add_r by lia.
    assert (0 < 2 ^ (Zdigits2 x - 1)) by (apply Z.pow_pos_nonneg; lia).
    assert (0 < 2 ^ (Zdigits2 y - 1)) by (apply Z.pow_pos_nonneg; lia). nia. }
  pose proof (Zdigits2_ge (x * y) (Zdigits2 x + Zdigits2 y - 2) ltac:(lia) H2). lia.
Qed.

Lemma valid_finite (s : bool) (m : positive) (e : Z) :
  valid_binary (S754_finite s m e) = true ->
  e = Z.max (Zdigits2 (Zpos m) + e - 53) (-1074) /\ e <= 971.
Proof.
  cbn [valid_binary]. unfold bounded, canonical_mantissa. intros H.
  apply andb_true_iff in H. destruct H as [H1 H2].
  apply Z.eqb_eq in H1. apply Z.leb_le in H2. rewrite fexp_eq in H1.
  change (Zpos (digits2_pos m)) with (Zdigits2 (Zpos m)) in H1.
  split; [lia|exact H2].
Qed.

Lemma SFmul_finite (sx sy : bool) (mx my : positive) (ex ey : Z) :
  valid_binary (S754_finite sx mx ex) = true ->
  valid_binary (S754_finite sy my ey) = true ->
  let R := SFmul prec emax (S754_finite sx mx ex) (S754_finite sy my ey) in
  valid_binary R = true
  /\ signed_shape (xorb sx sy) R
  /\ (-1020 < Zdigits2 (Zpos mx) + ex + (Zdigits2 (Zpos my) + ey) ->
      R <> S754_zero (xorb sx sy)).
Proof.
  intros Vx Vy R. subst R. cbn [SFmul].
  apply valid_finite in Vx, Vy. destruct Vx as [Vx _], Vy as [Vy _].
  pose proof (Zdigits2_mul (Zpos mx) (Zpos my) ltac:(lia) ltac:(lia)) as Hd.
  pose proof (Zdigits2_pos (Zpos mx) ltac:(lia)). pose proof (Zdigits2_pos (Zpos my) ltac:(lia)).
  change loc_Exact with (frac_class 0 1).
  change (Zpos (mx * my)) with (Zpos mx * Zpos my).
  assert (He : ex + ey <= cexp (Zpos mx * Zpos my) (ex + ey)).
  { unfold cexp. rewrite fexp_eq. lia. }
  destruct (binary_round_aux_valid (xorb sx sy) (Zpos mx * Zpos my) (ex + ey) 0 1
              ltac:(lia) ltac:(lia) He) as [Hv Hsh].
  split; [exact Hv|]. split; [exact Hsh|].
  intros HD. apply binary_round_aux_nonzero; try assumption; try lia.
  unfold cexp. rewrite fexp_eq. lia.
Qed.

(** ** Rounding an integer mantissa ([binary_round], [binary_normalize]) *)

Lemma iter_xO (m k : positive) : Zpos (Pos.iter xO m k) = Zpos m * 2 ^ Zpos k.
Proof.
  induction k as [|k IH] using Pos.peano_ind.
  - simpl. lia.
  - rewrite Pos.iter_succ, Pos2Z.inj_succ, Z.pow_succ_r by lia.
    rewrite Pos2Z.inj_xO, IH. ring.
Qed.

Lemma Zdigits2_mul_pow2 (m k : Z) :
  0 < m -> 0 <= k -> Zdigits2 (m * 2 ^ k) = Zdigits2 m + k.
Proof.
  intros Hm Hk. pose proof (Zdigits2_bounds m Hm) as [Hlo Hhi].
  pose proof (Zdigits2_pos m Hm).
  assert (0 < 2 ^ k) by (apply Z.pow_pos_nonneg; lia).
  apply Zdigits2_unique; [|nia].
  replace (Zdigits2 m + k - 1) with (Zdigits2 m - 1 + k) by lia.
  rewrite !Z.pow_add_r by lia. nia.
Qed.

Lemma Zdigits2_le (x y : Z) : 0 < x -> x <= y -> Zdigits2 x <= Zdigits2 y.
Proof.
  intros Hx Hxy. pose proof (Zdigits2_bounds x Hx) as [Hlo _].
  pose proof (Zdigits2_pos x Hx).
  pose proof (Zdigits2_ge y (Zdigits2 x - 1) ltac:(lia) ltac:(lia)). lia.
Qed.

Lemma shl_align_spec (mx : positive) (ex ex' : Z) :
  let ez := Z.min ex ex' in
  shl_align mx ex ex' = (Z.to_pos (Zpos mx * 2 ^ (ex - ez)), ez).
Proof.
  intros ez. unfold shl_align. destruct (ex' - ex) as [|d|d] eqn:E.
  - replace ez with ex by lia. rewrite Z.sub_diag. simpl. f_equal. lia.
  - replace ez with ex by lia. rewrite Z.sub_diag. simpl. f_equal. lia.
  - replace ez with ex' by lia. replace (ex - ex') with (Zpos d) by lia.
    rewrite <- iter_xO. reflexivity.
Qed.

(** Magnitude: the position of the leading bit. *)
Definition mag (x : spec_float) : Z :=
  match x with
  | S754_finite _ m e => Zdigits2 (Zpos m) + e
  | _ => 0
  end.

Lemma binary_round_aux_mag (s s' : bool) (m e a b : Z) (m' : positive) (e' : Z) :
  0 < m -> 0 <= a < b -> e <= cexp m e ->
  binary_round_aux prec emax s m e (frac_class a b) = S754_finite s' m' e' ->
  Zdigits2 m + e <= Zdigits2 (Zpos m') + e'.
Proof.
  intros Hm Hab He. rewrite binary_round_aux_spec by (try assumption; lia). cbv zeta.
  pose proof (kept_mantissa m e ltac:(lia) He) as Hk. cbv zeta in Hk.
  destruct Hk as (Hm1 & Hdig & Hzero & Hc).
  assert (Hcdef : cexp m e = Z.max (Zdigits2 m + e - 53) (-1074)) by reflexivity.
  pose proof (rne_bounds (m / 2 ^ (cexp m e - e))
                (m mod 2 ^ (cexp m e - e) * b + a) (2 ^ (cexp m e - e) * b)) as Hr.
  set (r := rne _ _ _) in *. set (c := cexp m e) in *. set (m1 := m / 2 ^ (c - e)) in *.
  destruct (Z.eqb_spec r (2 ^ 53)) as [E|NE].
  - change (2 ^ 52) with (Zpos 4503599627370496). cbn [finish].
    destruct (c + 1 <=? 971); [|discriminate].
    intros H; injection H as _ <- <-. change (Zdigits2 (Zpos 4503599627370496)) with 53. lia.
  - destruct r as [|p|p] eqn:Er; try lia; cbn [finish]; [discriminate|].
    destruct (c <=? 971); [|discriminate].
    intros H; injection H as _ <- <-.
    destruct (Z.eq_dec m1 0) as [E0|N0].
    + assert (Hd : Zdigits2 m <= c - e).
      { destruct (Z_lt_le_dec (c - e) (Zdigits2 m)) as [Hlt|]; [|lia].
        destruct (Zdigits2_shift m (c - e) Hm ltac:(lia)) as [Hp _]. fold m1 in Hp. lia. }
      pose proof (Zdigits2_pos (Zpos p) ltac:(lia)). lia.
    + pose proof (Zdigits2_le m1 (Zpos p) ltac:(lia) ltac:(lia)). lia.
Qed.

Lemma binary_round_facts (s : bool) (mx : positive) (ex : Z) :
  let R := binary_round prec emax s mx ex in
  valid_binary R = true
  /\ signed_shape s R
  /\ (-1021 < Zdigits2 (Zpos mx) + ex -> R <> S754_zero s)
  /\ (forall s' m' e', R = S754_finite s' m' e' ->
       Zdigits2 (Zpos mx) + ex <= Zdigits2 (Zpos m') + e').
Proof.
  intros R. subst R. unfold binary_round.
  rewrite shl_align_spec. cbv zeta.
  change (Zpos (digits2_pos mx)) with (Zdigits2 (Zpos mx)).
  set (ez := Z.min ex (fexp prec emax (Zdigits2 (Zpos mx) + ex))).
  assert (Hez : 0 <= ex - ez) by lia.
  assert (Hp : 0 < 2 ^ (ex - ez)) by (apply Z.pow_pos_nonneg; lia).
  rewrite Z2Pos.id by nia.
  set (mz := Zpos mx * 2 ^ (ex - ez)).
  assert (Hmz : 0 < mz) by (unfold mz; nia).
  assert (Hdz : Zdigits2 mz + ez = Zdigits2 (Zpos mx) + ex).
  { unfold mz. rewrite Zdigits2_mul_pow2 by lia. lia. }
  assert (He : ez <= cexp mz ez) by (unfold cexp; rewrite Hdz; lia).
  change loc_Exact with (frac_class 0 1).
  destruct (binary_round_aux_valid s mz ez 0 1 ltac:(lia) ltac:(lia) He) as [Hv Hsh].
  split; [exact Hv|]. split; [exact Hsh|]. split.
  - intros HD. apply binary_round_aux_nonzero; try assumption; try lia.
    unfold cexp. rewrite Hdz, fexp_eq. lia.
  - intros s' m' e' HR. rewrite <- Hdz.
    apply (binary_round_aux_mag s s' mz ez 0 1); try assumption. lia.
Qed.

End Binary64.

(** * Properties *)

(** ** The definitions on sample inputs *)

Example ceil_102_27 : Py.ceil (3600 / 35.2)%float = Return 103.
Proof. vm_compute. reflexivity. Qed.

Example int_true_divide_5 : Py.int_true_divide 5000000 1000000 = Return 5%float.
Proof. vm_compute. reflexivity. Qed.

Example float_of_int_176 : Py.float_of_int 176 = Return 176%float.
Proof. vm_compute. reflexivity. Qed.

Example float_of_int_huge : Py.float_of_int (2 ^ 1024) = Raise OverflowError.
Proof. vm_compute. reflexivity. Qed.

Example int_of_str_5000000 : Decimal.int_of_str "5000000" = Some 5000000.
Proof. reflexivity. Qed.

Example int_of_str_NA : Decimal.int_of_str "N/A" = None.
Proof. reflexivity. Qed.

Example float_of_str_3600 : Decimal.float_of_str "3600.000000" = Some 3600%float.
Proof. vm_compute. reflexivity. Qed.

Example float_of_str_35_2 : Decimal.float_of_str "35.2" = Some 35.2%float.
Proof. vm_compute. reflexivity. Qed.

Example float_of_str_NA : Decimal.float_of_str "N/A" = None.
Proof. reflexivity. Qed.

(** ** The guards of the estimator *)

Lemma estimate_error_first (md : VideoMetadata) (target : Py.number) (msg : string) :
  error md = Some msg -> msg <> "" ->
  estimate_segments md target = Return (EstimateError (err_metadata msg)).
Proof.
  intros He Hne. unfold estimate_segments. rewrite He. simpl.
  destruct (String.eqb_spec msg "") as [->|_]; [contradiction | reflexivity].
Qed.

Lemma estimate_duration_guard (md : VideoMetadata) (target : Py.number) :
  error_truthy (error md) = false ->
  Py.le0 (total_duration_sec md) = true ->
  estimate_segments md target = Return (EstimateError err_duration).
Proof.
  intros He Hd. unfold estimate_segments. rewrite He, Hd. reflexivity.
Qed.

Lemma estimate_empty_guard (md : VideoMetadata) (target : Py.number) :
  error_truthy (error md) = false ->
  Py.le0 (total_duration_sec md) = false ->
  stream_bitrates_bps md = [] ->
  estimate_segments md target = Return (EstimateError err_no_bitrate).
Proof.
  intros He Hd Hb. unfold estimate_segments. rewrite He, Hd, Hb. reflexivity.
Qed.

Lemma estimate_sum_guard (md : VideoMetadata) (target : Py.number) :
  error_truthy (error md) = false ->
  Py.le0 (total_duration_sec md) = false ->
  stream_bitrates_bps md <> [] ->
  sum (stream_bitrates_bps md) <= 0 ->
  estimate_segments md target = Return (EstimateError err_total_bitrate).
Proof.
  intros He Hd Hb Hs. unfold estimate_segments. rewrite He, Hd.
  destruct (stream_bitrates_bps md) as [|b l] eqn:E; [contradiction|].
  apply Z.leb_le in Hs. rewrite Hs. reflexivity.
Qed.

(** C3: the guards fire in the order metadata error, duration, empty
    bitrate list, bitrate sum; with no error and a zero duration the result
    is the duration error whatever the bitrate list and the target are. *)
Theorem guards_short_circuit_in_order :
  (forall md target msg,
      error md = Some msg -> msg <> "" ->
      estimate_segments md target = Return (EstimateError (err_metadata msg)))
  /\ (forall md target,
      error_truthy (error md) = false ->
      Py.le0 (total_duration_sec md) = true ->
      estimate_segments md target = Return (EstimateError err_duration))
  /\ (forall md target,
      error_truthy (error md) = false ->
      Py.le0 (total_duration_sec md) = false ->
      stream_bitrates_bps md = [] ->
      estimate_segments md target = Return (EstimateError err_no_bitrate))
  /\ (forall md target,
      error_truthy (error md) = false ->
      Py.le0 (total_duration_sec md) = false ->
      stream_bitrates_bps md <> [] ->
      sum (stream_bitrates_bps md) <= 0 ->
      estimate_segments md target = Return (EstimateError err_total_bitrate))
  /\ (forall bitrates target,
      estimate_segments
        {| total_duration_sec := Py.Int 0; stream_bitrates_bps := bitrates;
           error := None |} target
      = Return (EstimateError err_duration)
      /\ estimate_segments
        {| total_duration_sec := Py.Float 0; stream_bitrates_bps := bitrates;
           error := None |} target
      = Return (EstimateError err_duration)).
Proof.
  split; [exact estimate_error_first|].
  split; [exact estimate_duration_guard|].
  split; [exact estimate_empty_guard|].
  split; [exact estimate_sum_guard|].
  intros bitrates target. split; reflexivity.
Qed.

(** ** The adapter's failure paths *)

Definition is_placeholder (md : VideoMetadata) : Prop :=
  total_duration_sec md = Py.Int 0 /\ stream_bitrates_bps md = [].

Lemma append_nonempty (a b : string) : a <> "" -> a ++ b <> "".
Proof. destruct a; [contradiction | discriminate]. Qed.

Lemma failed_message_nonempty (stderr path : string) :
  failed_message stderr path <> "".
Proof.
  unfold failed_message.
  destruct (Json.substring_of _ stderr).
  - apply append_nonempty. discriminate.
  - destruct (Json.substring_of _ stderr); apply append_nonempty; discriminate.
Qed.

Section AdapterFacts.

Variable float_of_str : string -> option float.
Variable int_of_str : string -> option Z.

Lemma read_report_returns (j : json) (md : VideoMetadata) :
  read_report float_of_str int_of_str j = Return md ->
  error md = None \/ md = placeholder "Could not determine video duration.".
Proof.
  unfold read_report, bind.
  destruct (Json.contains "format" j) as [[|]|]; try discriminate.
  - destruct (Json.subscript j "format") as [f|]; try discriminate.
    destruct (Json.contains "duration" f) as [[|]|]; try discriminate.
    + destruct (Json.subscript f "duration") as [d|]; try discriminate.
      destruct (py_float float_of_str d) as [t|]; try discriminate.
      destruct (per_stream_bitrates int_of_str j) as [l|]; try discriminate.
      destruct (format_fallback int_of_str j l t) as [l'|]; try discriminate.
      intros H; injection H as <-. left. reflexivity.
    + intros H; injection H as <-. right. reflexivity.
  - intros H; injection H as <-. right. reflexivity.
Qed.

Lemma adapter_error_shape (w : World) (path : string) (md : VideoMetadata) :
  get_video_metadata float_of_str int_of_str w path = Return md ->
  error md = None \/ exists msg, msg <> "" /\ md = placeholder msg.
Proof.
  unfold get_video_metadata.
  destruct (path_exists w path); simpl.
  - destruct (run_ffprobe w path) as [stderr| | |j|failure].
    + intros H; injection H as <-. right. eexists; split; [|reflexivity].
      apply failed_message_nonempty.
    + intros H; injection H as <-. right. eexists; split; [|reflexivity]. discriminate.
    + intros H; injection H as <-. right. eexists; split; [|reflexivity]. discriminate.
    + intros H. apply read_report_returns in H. destruct H as [H| ->]; [left; exact H|].
      right. eexists; split; [|reflexivity]. discriminate.
    + discriminate.
  - intros H; injection H as <-. right. eexists; split; [|reflexivity].
    discriminate.
Qed.

End AdapterFacts.

(** C4: a metadata error is propagated with its prefix whatever the numeric
    fields hold.  The code tests [metadata.get("error")], so the message is
    a non-empty string; every error the adapter returns is one, hence the
    second part needs no such premise. *)
Theorem metadata_error_is_propagated :
  (forall md target msg,
      error md = Some msg -> msg <> "" ->
      estimate_segments md target
      = Return (EstimateError ("Failed to get video metadata: " ++ msg)))
  /\ (forall float_of_str int_of_str w path target md msg,
      get_video_metadata float_of_str int_of_str w path = Return md ->
      error md = Some msg ->
      calculate_segment_duration float_of_str int_of_str w path target
      = Return (EstimateError ("Failed to get video metadata: " ++ msg))).
Proof.
  split; [exact estimate_error_first|].
  intros fs is_ w path target md msg Hget Herr.
  unfold calculate_segment_duration. rewrite Hget. simpl.
  destruct (adapter_error_shape _ _ _ _ _ Hget) as [Hnone | [m [Hm ->]]].
  - congruence.
  - simpl in Herr. injection Herr as ->. now apply estimate_error_first.
Qed.

Lemma metadata_error_is_propagated_witness :
  estimate_segments
    {| total_duration_sec := Py.Float 3600; stream_bitrates_bps := [5000000];
       error := Some "boom" |} (Py.Int 22)
  = Return (EstimateError "Failed to get video metadata: boom").
Proof.
  apply (proj1 metadata_error_is_propagated); [reflexivity | discriminate].
Defined.

(** ** Worlds used as concrete inputs *)

Definition world_of (outcome : probe_outcome) : World :=
  {| path_exists := fun _ => true; run_ffprobe := fun _ => outcome |}.

Definition no_file : World :=
  {| path_exists := fun _ => false; run_ffprobe := fun _ => FileNotFoundError |}.

(** [{"format": {"duration": "N/A"}, "streams": []}] *)
Definition report_unknown_duration : json :=
  JDict [("format", JDict [("duration", JStr "N/A")]); ("streams", JList [])].

(** [{"format": {"duration": "0.000000"}, "streams": []}] *)
Definition report_zero_duration : json :=
  JDict [("format", JDict [("duration", JStr "0.000000")]); ("streams", JList [])].

(** [{"format": {"duration": "3600.000000", "bit_rate": "5000000"},
      "streams": []}] *)
Definition report_format_only : json :=
  JDict [("format", JDict [("duration", JStr "3600.000000");
                           ("bit_rate", JStr "5000000")]);
         ("streams", JList [])].

Definition probe := get_video_metadata Decimal.float_of_str Decimal.int_of_str.

(** C1, at a failing input: a report whose duration is the string N/A makes
    [float] raise [ValueError], which no handler of the adapter catches (the
    per-stream [int(bit_rate)] does catch it). *)
Theorem unparsable_duration_escapes :
  probe (world_of (Loaded report_unknown_duration)) "clip.mp4" = Raise ValueError.
Proof. reflexivity. Qed.

Lemma null_duration_escapes float_of_str int_of_str :
  get_video_metadata float_of_str int_of_str
    (world_of (Loaded (JDict [("format", JDict [("duration", JNull)])]))) "clip.mp4"
  = Raise TypeError.
Proof. reflexivity. Qed.

Lemma scalar_report_escapes float_of_str int_of_str :
  get_video_metadata float_of_str int_of_str (world_of (Loaded (JInt 5))) "clip.mp4"
  = Raise TypeError.
Proof. reflexivity. Qed.

(** ** Error and placeholders *)

(** C7 as stated fails from right to left: a report with a zero duration
    and no bit rate is returned with placeholders and no error. *)
Lemma placeholders_without_error :
  probe (world_of (Loaded report_zero_duration)) "clip.mp4"
  = Return {| total_duration_sec := Py.Float 0; stream_bitrates_bps := [];
              error := None |}
  /\ is_zero (Py.Float 0) = true.
Proof. split; vm_compute; reflexivity. Qed.

(** C7, amended: a returned metadata whose error is set holds the
    placeholders (duration 0, no bit rates). *)
Theorem error_implies_placeholders float_of_str int_of_str w path md :
  get_video_metadata float_of_str int_of_str w path = Return md ->
  error md <> None ->
  total_duration_sec md = Py.Int 0 /\ stream_bitrates_bps md = [].
Proof.
  intros Hget Herr.
  destruct (adapter_error_shape _ _ _ _ _ Hget) as [Hnone | [m [_ ->]]].
  - contradiction.
  - split; reflexivity.
Qed.

Lemma error_implies_placeholders_witness :
  total_duration_sec (placeholder "File not found: clip.mp4") = Py.Int 0
  /\ stream_bitrates_bps (placeholder "File not found: clip.mp4") = [].
Proof.
  apply (error_implies_placeholders Decimal.float_of_str Decimal.int_of_str
           no_file "clip.mp4").
  - reflexivity.
  - discriminate.
Defined.

(** ** The container-level fallback *)

Lemma subscript_contains (v : json) (key : string) (x : json) :
  Json.subscript v key = Return x -> Json.contains key v = Return true.
Proof.
  destruct v; try discriminate. simpl.
  destruct (Json.lookup key fields); [reflexivity | discriminate].
Qed.

Lemma subscript_get (v : json) (key : string) (x default : json) :
  Json.subscript v key = Return x -> Json.get v key default = Return x.
Proof.
  destruct v; try discriminate. simpl.
  destruct (Json.lookup key fields); [intros H; injection H as ->; reflexivity | discriminate].
Qed.

(** [{"format": {"duration": "3600.000000", "bit_rate": 0}, "streams": []}] *)
Definition report_zero_bit_rate : json :=
  JDict [("format", JDict [("duration", JStr "3600.000000");
                           ("bit_rate", JInt 0)]);
         ("streams", JList [])].

(** C9 as stated fails: the code tests the truth value of the format's bit
    rate, so a bit rate that is present and that [int] turns into 0, the
    JSON number 0, is dropped and the returned list is empty, not [[0]]. *)
Lemma zero_format_bit_rate_is_dropped :
  let format := JDict [("duration", JStr "3600.000000"); ("bit_rate", JInt 0)] in
  Json.subscript report_zero_bit_rate "format" = Return format
  /\ per_stream_bitrates Decimal.int_of_str report_zero_bit_rate = Return []
  /\ Json.subscript format "bit_rate" = Return (JInt 0)
  /\ py_int Decimal.int_of_str (JInt 0) = Return 0
  /\ probe (world_of (Loaded report_zero_bit_rate)) "clip.mp4"
     = Return {| total_duration_sec := Py.Float 3600;
                 stream_bitrates_bps := [];
                 error := None |}.
Proof. repeat split; vm_compute; reflexivity. Qed.

Lemma print_falsy (v : json) :
  Json.truthy v = false -> Console.print v = Return tt.
Proof.
  destruct v; try reflexivity. simpl.
  destruct (String.eqb_spec s "") as [->|_]; [reflexivity | discriminate].
Qed.

(** C9, amended: when the probe succeeds, the per-stream pass collects
    nothing, the duration is positive and the format's bit rate is present
    and [int] turns it into [n], the returned list is [[n]] if the bit rate
    is truthy and empty if it is not (the number 0, [false], 0.0).  The
    bit rate is printed first: a string that the console cannot encode
    raises [UnicodeEncodeError], which escapes. *)
Theorem format_bit_rate_fallback
    (float_of_str : string -> option float) (int_of_str : string -> option Z)
    (w : World) (path : string) (metadata format duration bit_rate : json)
    (total : float) (n : Z) :
  path_exists w path = true ->
  run_ffprobe w path = Loaded metadata ->
  Json.subscript metadata "format" = Return format ->
  Json.subscript format "duration" = Return duration ->
  py_float float_of_str duration = Return total ->
  PrimFloat.ltb 0 total = true ->
  per_stream_bitrates int_of_str metadata = Return [] ->
  Json.subscript format "bit_rate" = Return bit_rate ->
  py_int int_of_str bit_rate = Return n ->
  get_video_metadata float_of_str int_of_str w path
  = (_ <- Console.print bit_rate ;;
     Return {| total_duration_sec := Py.Float total;
               stream_bitrates_bps := if Json.truthy bit_rate then [n] else [];
               error := None |}).
Proof.
  intros Hex Hrun Hfmt Hdur Hfloat Hpos Hstreams Hbr Hint.
  unfold get_video_metadata. rewrite Hex, Hrun. simpl.
  unfold read_report.
  rewrite (subscript_contains _ _ _ Hfmt). simpl. rewrite Hfmt. simpl.
  rewrite (subscript_contains _ _ _ Hdur). simpl. rewrite Hdur. simpl.
  rewrite Hfloat. simpl. rewrite Hstreams. simpl.
  unfold format_fallback. rewrite Hpos. simpl.
  rewrite (subscript_get _ _ _ (JDict []) Hfmt). simpl.
  rewrite (subscript_get _ _ _ JNull Hbr). simpl.
  destruct (Json.truthy bit_rate) eqn:Htruthy.
  - destruct (Console.print bit_rate) as [[]|e] eqn:Hprint; simpl.
    + rewrite Hint. reflexivity.
    + assert (He : e = UnicodeEncodeError).
      { destruct bit_rate; try discriminate. simpl in Hprint.
        destruct (Console.has_surrogate s); congruence. }
      subst e. reflexivity.
  - rewrite (print_falsy _ Htruthy). reflexivity.
Qed.

Lemma format_bit_rate_fallback_witness :
  probe (world_of (Loaded report_format_only)) "clip.mp4"
  = Return {| total_duration_sec := Py.Float 3600;
              stream_bitrates_bps := [5000000];
              error := None |}.
Proof.
  apply (format_bit_rate_fallback Decimal.float_of_str Decimal.int_of_str
           (world_of (Loaded report_format_only)) "clip.mp4" report_format_only
           (JDict [("duration", JStr "3600.000000"); ("bit_rate", JStr "5000000")])
           (JStr "3600.000000") (JStr "5000000") 3600%float 5000000);
    vm_compute; reflexivity.
Defined.

(** ** Signs through the estimator's arithmetic *)

Import Binary64.

Lemma Prim2SF_0 : Prim2SF 0 = S754_zero false.
Proof. reflexivity. Qed.

Lemma Prim2SF_8 : Prim2SF 8 = S754_finite false 4503599627370496 (-49).
Proof. reflexivity. Qed.

(** Signs of a float, read off its specification. *)
Definition nonpositive (x : spec_float) : Prop :=
  match x with
  | S754_zero _ => True
  | S754_infinity s | S754_finite s _ _ => s = true
  | S754_nan => False
  end.

Definition positive_or_inf (x : spec_float) : Prop :=
  match x with
  | S754_infinity s | S754_finite s _ _ => s = false
  | _ => False
  end.

Lemma leb_0_iff (x : float) : PrimFloat.leb x 0 = true <-> nonpositive (Prim2SF x).
Proof.
  rewrite leb_spec, Prim2SF_0.
  destruct (Prim2SF x) as [s|[|]| |[|] m e]; cbn; intuition congruence.
Qed.

Lemma ltb_0_iff (x : float) : PrimFloat.ltb 0 x = true <-> positive_or_inf (Prim2SF x).
Proof.
  rewrite ltb_spec, Prim2SF_0.
  destruct (Prim2SF x) as [s|[|]| |[|] m e]; cbn; intuition congruence.
Qed.

Lemma eqb_0_iff (x : float) :
  PrimFloat.eqb x 0 = true <-> exists s, Prim2SF x = S754_zero s.
Proof.
  rewrite eqb_spec, Prim2SF_0.
  destruct (Prim2SF x) as [s|[|]| |[|] m e]; cbn; split;
    try discriminate; try (intros [z Hz]; discriminate); eauto.
Qed.

Definition nonnegative (x : spec_float) : Prop :=
  match x with
  | S754_zero _ => True
  | S754_infinity s | S754_finite s _ _ => s = false
  | S754_nan => False
  end.

Lemma shape_nonnegative (x : spec_float) : signed_shape false x -> nonnegative x.
Proof. intros [->|[->|(m & e & ->)]]; exact I || reflexivity. Qed.

Lemma shape_nonpositive (x : spec_float) : signed_shape true x -> nonpositive x.
Proof. intros [->|[->|(m & e & ->)]]; exact I || reflexivity. Qed.

Lemma positive_nonnegative (x : spec_float) : positive_or_inf x -> nonnegative x.
Proof. destruct x; cbn; tauto. Qed.

(** [x * 8] keeps the sign. *)
Lemma SFmul_8_sign (x : spec_float) :
  valid_binary x = true ->
  (nonnegative x -> nonnegative (SFmul prec emax x (Prim2SF 8)))
  /\ (nonpositive x -> nonpositive (SFmul prec emax x (Prim2SF 8))).
Proof.
  intros Vx. rewrite Prim2SF_8.
  destruct x as [s|s| |s m e]; cbn [SFmul nonnegative nonpositive].
  - split; intros _; exact I.
  - rewrite xorb_false_r. split; intros H; exact H.
  - split; intros H; exact H.
  - destruct (SFmul_finite s false m 4503599627370496 e (-49) Vx eq_refl) as (_ & Hsh & _).
    cbv zeta in Hsh. cbn [SFmul] in Hsh. rewrite xorb_false_r in *.
    split; intros ->; [apply shape_nonnegative | apply shape_nonpositive]; exact Hsh.
Qed.

(** [x / m] for a positive finite [m] keeps the sign. *)
Lemma SFdiv_positive_sign (x : spec_float) (mm : positive) (em : Z) :
  (nonnegative x -> nonnegative (SFdiv prec emax x (S754_finite false mm em)))
  /\ (nonpositive x -> nonpositive (SFdiv prec emax x (S754_finite false mm em))).
Proof.
  destruct x as [s|s| |s m e]; cbn [SFdiv nonnegative nonpositive].
  - split; intros _; exact I.
  - rewrite xorb_false_r. split; intros H; exact H.
  - split; intros H; exact H.
  - destruct (SFdiv_finite s false m mm e em) as (_ & Hsh & _).
    cbv zeta in Hsh. cbn [SFdiv] in Hsh. rewrite xorb_false_r in *.
    split; intros ->; [apply shape_nonnegative | apply shape_nonpositive]; exact Hsh.
Qed.

(** Python's [a / b] on positive ints is a positive finite float. *)
Lemma int_true_divide_positive (a b : Z) (m : float) :
  0 < a -> 0 < b -> -1021 < Zdigits2 a - Zdigits2 b ->
  Py.int_true_divide a b = Return m ->
  exists mm em, Prim2SF m = S754_finite false mm em.
Proof.
  intros Ha Hb HD. unfold Py.int_true_divide.
  destruct (Z.eqb_spec b 0); [lia|].
  destruct a as [|pa|pa]; try lia. destruct b as [|pb|pb]; try lia.
  cbn [Py.raw_of_int].
  destruct (SFdiv_finite false false pa pb 0 0) as (Hv & Hsh & Hnz).
  cbv zeta in Hv, Hsh, Hnz. cbn [xorb] in Hsh, Hnz.
  specialize (Hnz ltac:(lia)).
  destruct (SFdiv prec emax (S754_finite false pa 0) (S754_finite false pb 0))
    as [s|s| |s mm em] eqn:E.
  - destruct Hsh as [Hs|[Hs|(? & ? & Hs)]]; try discriminate. congruence.
  - discriminate.
  - destruct Hsh as [Hs|[Hs|(? & ? & Hs)]]; discriminate.
  - intros H. assert (Hm : m = SF2Prim (S754_finite s mm em)) by congruence.
    exists mm, em. rewrite Hm, Prim2SF_SF2Prim by exact Hv.
    destruct Hsh as [Hs|[Hs|(? & ? & Hs)]]; try discriminate. injection Hs as -> _ _. reflexivity.
Qed.

Lemma mbps_positive (total : Z) (m : float) :
  0 < total -> Py.int_true_divide total 1000000 = Return m ->
  exists mm em, Prim2SF m = S754_finite false mm em.
Proof.
  intros Ht. apply int_true_divide_positive; try lia.
  pose proof (Zdigits2_pos total Ht). change (Zdigits2 1000000) with 20. lia.
Qed.

(** [float(n)] keeps the sign of [n]. *)
Lemma float_of_int_sign (n : Z) (x : float) :
  Py.float_of_int n = Return x ->
  (0 <= n -> nonnegative (Prim2SF x)) /\ (n <= 0 -> nonpositive (Prim2SF x))
  /\ (0 < n -> exists mx ex, Prim2SF x = S754_finite false mx ex
                            /\ Zdigits2 n <= Zdigits2 (Zpos mx) + ex).
Proof.
  unfold Py.float_of_int, binary_normalize. destruct n as [|p|p].
  - intros H. assert (Hx : x = SF2Prim (S754_zero false)) by congruence.
    rewrite Hx. split; [intros _; exact I|]. split; [intros _; exact I|lia].
  - destruct (binary_round_facts false p 0) as (Hv & Hsh & Hnz & Hmag).
    cbv zeta in Hv, Hsh, Hnz, Hmag.
    pose proof (Zdigits2_pos (Zpos p) ltac:(lia)) as Hd. specialize (Hnz ltac:(lia)).
    destruct (binary_round prec emax false p 0) as [s|s| |s mx ex] eqn:E.
    + destruct Hsh as [Hs|[Hs|(? & ? & Hs)]]; try discriminate. congruence.
    + discriminate.
    + destruct Hsh as [Hs|[Hs|(? & ? & Hs)]]; discriminate.
    + intros H. assert (Hx : x = SF2Prim (S754_finite s mx ex)) by congruence.
      rewrite Hx, Prim2SF_SF2Prim by exact Hv.
      assert (s = false) as ->.
      { destruct Hsh as [Hs|[Hs|(? & ? & Hs)]]; try discriminate. now injection Hs. }
      split; [intros _; reflexivity|]. split; [lia|].
      intros _. exists mx, ex. split; [reflexivity|].
      specialize (Hmag _ _ _ eq_refl). lia.
  - destruct (binary_round_facts true p 0) as (Hv & Hsh & _).
    cbv zeta in Hv, Hsh.
    destruct (binary_round prec emax true p 0) as [s|s| |s mx ex] eqn:E.
    + intros H. assert (Hx : x = SF2Prim (S754_zero s)) by congruence.
      rewrite Hx, Prim2SF_SF2Prim by exact Hv.
      split; [intros _; exact I|]. split; [intros _; exact I|lia].
    + discriminate.
    + destruct Hsh as [Hs|[Hs|(? & ? & Hs)]]; discriminate.
    + intros H. assert (Hx : x = SF2Prim (S754_finite s mx ex)) by congruence.
      rewrite Hx, Prim2SF_SF2Prim by exact Hv.
      assert (s = true) as ->.
      { destruct Hsh as [Hs|[Hs|(? & ? & Hs)]]; try discriminate. now injection Hs. }
      split; [lia|]. split; [intros _; reflexivity|lia].
Qed.

(** ** The estimator past its guards *)

Definition passes_guards (md : VideoMetadata) : Prop :=
  error md = None
  /\ Py.gt0 (total_duration_sec md) = true
  /\ stream_bitrates_bps md <> []
  /\ 0 < sum (stream_bitrates_bps md).

Lemma gt0_not_le0 (a : Py.number) : Py.gt0 a = true -> Py.le0 a = false.
Proof.
  destruct a as [n|x]; cbn.
  - intros H. apply Z.ltb_lt in H. apply Z.leb_gt. exact H.
  - intros H. apply ltb_0_iff in H.
    destruct (PrimFloat.leb x 0) eqn:E; [|reflexivity].
    apply leb_0_iff in E. destruct (Prim2SF x); cbn in *; congruence || contradiction.
Qed.

Lemma estimate_past_guards (md : VideoMetadata) (target : Py.number) :
  passes_guards md ->
  estimate_segments md target
  = (total_bitrate_mbps <- Py.int_true_divide (sum (stream_bitrates_bps md)) 1000000 ;;
     safe_segment_duration_sec <- Py.div_float (Py.times8 target) total_bitrate_mbps ;;
     if PrimFloat.leb safe_segment_duration_sec 0 then
       Return (EstimateError err_segment_duration)
     else
       q <- Py.div_float (total_duration_sec md) safe_segment_duration_sec ;;
       estimated_total_segments <- Py.ceil q ;;
       Return (Estimate total_bitrate_mbps safe_segment_duration_sec
                        (total_duration_sec md) estimated_total_segments)).
Proof.
  intros (He & Hd & Hb & Hs). unfold estimate_segments.
  rewrite He. cbn [error_truthy]. rewrite (gt0_not_le0 _ Hd).
  destruct (stream_bitrates_bps md) as [|b l] eqn:E; [contradiction|].
  destruct (Z.leb_spec (sum (b :: l)) 0); [lia|]. reflexivity.
Qed.

Lemma scaled_target_sign (target : Py.number) (x : float) :
  Py.to_float (Py.times8 target) = Return x ->
  (Py.le0 target = true -> nonpositive (Prim2SF x))
  /\ (Py.gt0 target = true -> nonnegative (Prim2SF x)).
Proof.
  destruct target as [n|t]; cbn [Py.times8 Py.to_float Py.le0 Py.gt0].
  - intros Hx. destruct (float_of_int_sign _ _ Hx) as (Hp & Hn & _). split; intros H.
    + apply Z.leb_le in H. apply Hn. lia.
    + apply Z.ltb_lt in H. apply Hp. lia.
  - intros Hx. assert (x = (t * 8)%float) as -> by congruence.
    rewrite mul_spec. destruct (SFmul_8_sign (Prim2SF t) (Prim2SF_valid t)) as [Hp Hn].
    split; intros H.
    + apply Hn. apply leb_0_iff. exact H.
    + apply Hp. apply positive_nonnegative. apply ltb_0_iff. exact H.
Qed.

Lemma float_divide_by_positive (x m : float) (mm : positive) (em : Z) :
  Prim2SF m = S754_finite false mm em ->
  Py.float_divide x m = Return (x / m)%float
  /\ (nonnegative (Prim2SF x) -> nonnegative (Prim2SF (x / m)))
  /\ (nonpositive (Prim2SF x) -> nonpositive (Prim2SF (x / m))).
Proof.
  intros Hm. unfold Py.float_divide.
  destruct (PrimFloat.eqb m 0) eqn:E.
  - apply eqb_0_iff in E. destruct E as [s E]. congruence.
  - split; [reflexivity|]. rewrite div_spec, Hm. apply SFdiv_positive_sign.
Qed.

Lemma nonnegative_leb (s : float) :
  nonnegative (Prim2SF s) ->
  PrimFloat.leb s 0 = PrimFloat.eqb s 0.
Proof.
  intros H. rewrite leb_spec, eqb_spec, Prim2SF_0.
  destruct (Prim2SF s) as [z|z| |z m e]; cbn in *; subst; try reflexivity; contradiction.
Qed.

Lemma nonpositive_leb (s : float) :
  nonpositive (Prim2SF s) -> PrimFloat.leb s 0 = true.
Proof. apply leb_0_iff. Qed.

(** X1: a target of zero or less is reported as data: past the guards, and when
    neither the megabit rate nor an int target overflows a float, the result
    is the segment-duration error. *)
Theorem nonpositive_target_is_reported (md : VideoMetadata) (target : Py.number)
    (m x : float) :
  passes_guards md ->
  Py.le0 target = true ->
  Py.int_true_divide (sum (stream_bitrates_bps md)) 1000000 = Return m ->
  Py.to_float (Py.times8 target) = Return x ->
  estimate_segments md target = Return (EstimateError err_segment_duration).
Proof.
  intros Hg Ht Hm Hx. rewrite (estimate_past_guards md target Hg), Hm. cbn [bind].
  destruct Hg as (_ & _ & _ & Hs).
  destruct (mbps_positive _ _ Hs Hm) as (mm & em & HM).
  destruct (float_divide_by_positive x m mm em HM) as (Hdiv & _ & Hneg).
  unfold Py.div_float. rewrite Hx. cbn [bind]. rewrite Hdiv. cbn [bind].
  rewrite nonpositive_leb; [reflexivity|].
  apply Hneg. apply (scaled_target_sign target x Hx). exact Ht.
Qed.

(** C2, amended: past the guards and for a positive target, when the
    conversions to float succeed, the computed segment duration is not zero
    and [math.ceil] returns, the estimator returns the four fields as the
    code computes them. *)
Theorem estimate_formulas (md : VideoMetadata) (target : Py.number)
    (m s q : float) (n : Z) :
  passes_guards md ->
  Py.gt0 target = true ->
  Py.int_true_divide (sum (stream_bitrates_bps md)) 1000000 = Return m ->
  Py.div_float (Py.times8 target) m = Return s ->
  PrimFloat.eqb s 0 = false ->
  Py.div_float (total_duration_sec md) s = Return q ->
  Py.ceil q = Return n ->
  estimate_segments md target
  = Return (Estimate m s (total_duration_sec md) n).
Proof.
  intros Hg Ht Hm Hs Hs0 Hq Hn. rewrite (estimate_past_guards md target Hg), Hm.
  cbn [bind]. rewrite Hs. cbn [bind].
  destruct Hg as (_ & _ & _ & Hsum).
  destruct (mbps_positive _ _ Hsum Hm) as (mm & em & HM).
  assert (Hnn : nonnegative (Prim2SF s)).
  { unfold Py.div_float in Hs.
    destruct (Py.to_float (Py.times8 target)) as [x|] eqn:Hx; [|discriminate].
    cbn [bind] in Hs.
    destruct (float_divide_by_positive x m mm em HM) as (Hdiv & Hpos & _).
    rewrite Hdiv in Hs. assert (s = (x / m)%float) as -> by congruence.
    apply Hpos. apply (scaled_target_sign target x Hx). exact Ht. }
  rewrite (nonnegative_leb s Hnn), Hs0, Hq. cbn [bind]. rewrite Hn. reflexivity.
Qed.

Lemma valid_mag_le (s : bool) (m : positive) (e : Z) :
  valid_binary (S754_finite s m e) = true -> Zdigits2 (Zpos m) + e <= 1024.
Proof. intros V. apply valid_finite in V. lia. Qed.

(** A positive int target never yields a zero quotient. *)
Lemma int_target_quotient_nonzero (n : Z) (x m : float) (mm : positive) (em : Z) :
  0 < n ->
  Py.float_of_int (n * 8) = Return x ->
  Prim2SF m = S754_finite false mm em ->
  PrimFloat.leb (x / m) 0 = false.
Proof.
  intros Hn Hx HM.
  destruct (float_of_int_sign _ _ Hx) as (_ & _ & Hpos).
  destruct (Hpos ltac:(lia)) as (mx & ex & HX & Hmag).
  pose proof (Zdigits2_ge (n * 8) 3 ltac:(lia) ltac:(change (2 ^ 3) with 8; lia)) as Hd.
  pose proof (valid_mag_le false mm em) as Hv. rewrite <- HM in Hv.
  specialize (Hv (Prim2SF_valid m)).
  destruct (SFdiv_finite false false mx mm ex em) as (_ & Hsh & Hnz).
  cbv zeta in Hsh, Hnz. cbn [xorb] in Hsh, Hnz. specialize (Hnz ltac:(lia)).
  rewrite leb_spec, div_spec, HX, HM, Prim2SF_0. unfold SF64div.
  destruct Hsh as [Hs|[Hs|(? & ? & Hs)]]; [contradiction| |]; rewrite Hs; reflexivity.
Qed.

(** C8, amended: past the guards and for a positive target the segment
    duration is never negative; the defensive branch is taken only for a
    float target whose quotient [(t * 8) / mbps] rounds to zero. *)
Theorem defensive_branch_needs_underflow (md : VideoMetadata) (target : Py.number) :
  passes_guards md ->
  Py.gt0 target = true ->
  estimate_segments md target = Return (EstimateError err_segment_duration) ->
  exists t m,
    target = Py.Float t
    /\ Py.int_true_divide (sum (stream_bitrates_bps md)) 1000000 = Return m
    /\ PrimFloat.eqb (t * 8 / m) 0 = true.
Proof.
  intros Hg Ht. rewrite (estimate_past_guards md target Hg).
  destruct Hg as (_ & _ & _ & Hsum).
  destruct (Py.int_true_divide (sum (stream_bitrates_bps md)) 1000000) as [m|] eqn:Hm;
    [|discriminate].
  cbn [bind]. destruct (mbps_positive _ _ Hsum Hm) as (mm & em & HM).
  unfold Py.div_float at 1.
  destruct (Py.to_float (Py.times8 target)) as [x|] eqn:Hx; [|discriminate].
  cbn [bind].
  destruct (float_divide_by_positive x m mm em HM) as (Hdiv & Hpos & _).
  rewrite Hdiv. cbn [bind].
  destruct (PrimFloat.leb (x / m) 0) eqn:Hleb.
  - intros _. destruct target as [n|t].
    + cbn [Py.gt0] in Ht. apply Z.ltb_lt in Ht. cbn [Py.times8 Py.to_float] in Hx.
      rewrite (int_target_quotient_nonzero n x m mm em Ht Hx HM) in Hleb. discriminate.
    + exists t, m. split; [reflexivity|]. split; [reflexivity|].
      cbn [Py.times8 Py.to_float] in Hx. assert (x = (t * 8)%float) as Ex by congruence.
      rewrite <- Ex. rewrite <- nonnegative_leb; [exact Hleb|].
      apply Hpos. apply (scaled_target_sign (Py.Float t) x); [|exact Ht].
      cbn. congruence.
  - destruct (Py.div_float (total_duration_sec md) (x / m)) as [q|]; [|discriminate].
    cbn [bind]. destruct (Py.ceil q); discriminate.
Qed.

(** ** Order: the target against the segment duration and count *)

(** Rounding is monotone in the value rounded, and so are the float
    operations of the estimator; away from the subnormal range rounding
    commutes with doubling. *)

Module Order.

(** Rounding to nearest-even is monotone on [q + a/K]. *)
Lemma rne_mono (q a K q' a' K' : Z) :
  0 <= a < K -> 0 <= a' < K' ->
  (q * K + a) * K' <= (q' * K' + a') * K ->
  rne q a K <= rne q' a' K'.
Proof.
  intros Ha Ha' Hle.
  pose proof (rne_bounds q a K) as Hr. pose proof (rne_bounds q' a' K') as Hr'.
  destruct (Z_lt_le_dec q q') as [Hlt|Hge]; [lia|].
  destruct (Z_lt_le_dec q' q) as [Hgt|Hle'].
  - exfalso. assert (Hq : q' + 1 <= q) by lia.
    assert (H1 : 0 <= a * K') by nia.
    assert (H2 : a' * K < K' * K) by nia.
    assert (H3 : (q' + 1) * (K * K') <= q * (K * K')) by (apply Z.mul_le_mono_nonneg_r; nia).
    nia.
  - assert (q' = q) by lia. subst q'.
    assert (HaK : a * K' <= a' * K) by nia.
    unfold rne, frac_class, round_nearest_even in *.
    destruct (Z.eqb_spec a 0) as [->|Hne].
    + destruct (a' =? 0); [lia|]. destruct (2 * a' ?= K'); [destruct (Z.even q)| |]; lia.
    + destruct (Z.eqb_spec a' 0) as [->|Hne']; [nia|].
      destruct (Z.compare_spec (2 * a) K); destruct (Z.compare_spec (2 * a') K');
        try (destruct (Z.even q)); try lia; nia.
Qed.

(** The kept mantissa and its fraction, from the value [(m*b + a) / b]. *)
Lemma kept_as_quotient (m a b n : Z) :
  0 <= m -> 0 <= a < b -> 0 <= n ->
  (m * b + a) / (2 ^ n * b) = m / 2 ^ n
  /\ (m * b + a) mod (2 ^ n * b) = m mod 2 ^ n * b + a.
Proof.
  intros Hm Hab Hn. assert (Hp : 0 < 2 ^ n) by (apply Z.pow_pos_nonneg; lia).
  pose proof (Z.div_mod m (2 ^ n) ltac:(lia)) as Hdm.
  pose proof (Z.mod_pos_bound m (2 ^ n) Hp) as Hmod.
  assert (HK : 0 < 2 ^ n * b) by nia.
  apply (Z.div_mod_unique (2 ^ n * b)).
  - left. apply Z.mod_pos_bound. exact HK.
  - left. nia.
  - rewrite <- Z.div_mod by lia. nia.
Qed.

Lemma pow2_pos (k : Z) : 0 <= k -> 0 < 2 ^ k.
Proof. intros. apply Z.pow_pos_nonneg; lia. Qed.

(** [ple x i y j]: [x * 2^i <= y * 2^j], for exponents of either sign. *)
Definition ple (x i y j : Z) : Prop :=
  x * 2 ^ (i - Z.min i j) <= y * 2 ^ (j - Z.min i j).

Lemma ple_at (g x i y j : Z) :
  g <= i -> g <= j ->
  ple x i y j <-> x * 2 ^ (i - g) <= y * 2 ^ (j - g).
Proof.
  intros Hi Hj. unfold ple. set (h := Z.min i j).
  assert (Hh : g <= h /\ h <= i /\ h <= j) by (unfold h; lia).
  replace (i - g) with ((i - h) + (h - g)) by lia.
  replace (j - g) with ((j - h) + (h - g)) by lia.
  rewrite !Z.pow_add_r by lia.
  pose proof (pow2_pos (h - g) ltac:(lia)) as P.
  rewrite !Z.mul_assoc. split; intros H.
  - apply Z.mul_le_mono_nonneg_r; lia.
  - apply Z.mul_le_mono_pos_r in H; lia.
Qed.

Lemma ple_shift (k x i y j : Z) : ple x i y j <-> ple x (i + k) y (j + k).
Proof.
  unfold ple. replace (Z.min (i + k) (j + k)) with (Z.min i j + k) by lia.
  replace (i + k - (Z.min i j + k)) with (i - Z.min i j) by lia.
  replace (j + k - (Z.min i j + k)) with (j - Z.min i j) by lia.
  reflexivity.
Qed.

Lemma ple_refl (x i : Z) : ple x i x i.
Proof. unfold ple. lia. Qed.

Lemma ple_scale (z x i y j : Z) : 0 < z -> ple x i y j <-> ple (x * z) i (y * z) j.
Proof.
  intros Hz. unfold ple.
  replace (x * z * 2 ^ (i - Z.min i j)) with (x * 2 ^ (i - Z.min i j) * z) by ring.
  replace (y * z * 2 ^ (j - Z.min i j)) with (y * 2 ^ (j - Z.min i j) * z) by ring.
  split; intros H.
  - apply Z.mul_le_mono_nonneg_r; lia.
  - apply Z.mul_le_mono_pos_r in H; lia.
Qed.

Lemma ple_pow_l (s x i y j : Z) : 0 <= s -> ple (x * 2 ^ s) i y j <-> ple x (i + s) y j.
Proof.
  intros Hs. rewrite (ple_at (Z.min i j) (x * 2 ^ s) i y j) by lia.
  rewrite (ple_at (Z.min i j) x (i + s) y j) by lia.
  replace (i + s - Z.min i j) with (s + (i - Z.min i j)) by lia.
  rewrite Z.pow_add_r by lia. rewrite !Z.mul_assoc. reflexivity.
Qed.

Lemma ple_pow_r (s x i y j : Z) : 0 <= s -> ple x i (y * 2 ^ s) j <-> ple x i y (j + s).
Proof.
  intros Hs. rewrite (ple_at (Z.min i j) x i (y * 2 ^ s) j) by lia.
  rewrite (ple_at (Z.min i j) x i y (j + s)) by lia.
  replace (j + s - Z.min i j) with (s + (j - Z.min i j)) by lia.
  rewrite Z.pow_add_r by lia. rewrite !Z.mul_assoc. reflexivity.
Qed.

Lemma ple_trans (x i y j z k : Z) :
  ple x i y j -> ple y j z k -> ple x i z k.
Proof.
  set (g := Z.min i (Z.min j k)).
  rewrite (ple_at g x i y j), (ple_at g y j z k), (ple_at g x i z k) by (unfold g; lia).
  lia.
Qed.

(** The value [(m + a/b) * 2^e] of one rounding input against another. *)
Definition vle (m e a b m' e' a' b' : Z) : Prop :=
  ple ((m * b + a) * b') e ((m' * b' + a') * b) e'.

Definition rounded_mantissa (m e a b : Z) : Z :=
  rne (m / 2 ^ (cexp m e - e)) (m mod 2 ^ (cexp m e - e) * b + a)
      (2 ^ (cexp m e - e) * b).

Lemma cexp_mono (m e a b m' e' a' b' : Z) :
  0 <= m -> 0 <= a < b -> e <= cexp m e ->
  0 <= m' -> 0 <= a' < b' -> e' <= cexp m' e' ->
  vle m e a b m' e' a' b' ->
  cexp m e <= cexp m' e'.
Proof.
  intros Hm Hab He Hm' Hab' He' Hv.
  destruct (Z_le_gt_dec (cexp m e) (cexp m' e')) as [|Hgt]; [assumption|exfalso].
  unfold cexp in *. rewrite fexp_eq in He, He'. rewrite !fexp_eq in Hgt.
  assert (Hmpos : 0 < m).
  { destruct (Z.eq_dec m 0) as [->|]; [|lia]. change (Zdigits2 0) with 0 in *. lia. }
  pose proof (Zdigits2_bounds m Hmpos) as [Hlo _].
  pose proof (Zdigits2_pos m Hmpos) as Hd.
  assert (Hhi' : m' + 1 <= 2 ^ Zdigits2 m').
  { destruct (Z.eq_dec m' 0) as [->|]; [simpl; lia|].
    pose proof (Zdigits2_bounds m' ltac:(lia)). lia. }
  assert (Hd' : 0 <= Zdigits2 m').
  { destruct (Z.eq_dec m' 0) as [->|]; [simpl; lia|].
    pose proof (Zdigits2_pos m' ltac:(lia)). lia. }
  unfold vle, ple in Hv. set (g := Z.min e e') in *.
  assert (Hg : g <= e /\ g <= e') by (unfold g; lia).
  assert (Hmag : Zdigits2 m' + e' <= Zdigits2 m + e - 1) by lia.
  pose proof (pow2_pos (e - g) ltac:(lia)) as P1.
  pose proof (pow2_pos (e' - g) ltac:(lia)) as P2.
  assert (Hpow : 2 ^ Zdigits2 m' * 2 ^ (e' - g) <= 2 ^ (Zdigits2 m - 1) * 2 ^ (e - g)).
  { rewrite <- !Z.pow_add_r by lia. apply Z.pow_le_mono_r; lia. }
  assert (L1 : 2 ^ (Zdigits2 m - 1) * b <= m * b + a) by nia.
  assert (L2 : m' * b' + a' < 2 ^ Zdigits2 m' * b') by nia.
  assert (L3 : (2 ^ (Zdigits2 m - 1) * b) * b' * 2 ^ (e - g)
               <= (m * b + a) * b' * 2 ^ (e - g)).
  { apply Z.mul_le_mono_nonneg_r; [lia|]. apply Z.mul_le_mono_nonneg_r; lia. }
  assert (L4 : (m' * b' + a') * b * 2 ^ (e' - g)
               < (2 ^ Zdigits2 m' * b') * b * 2 ^ (e' - g)).
  { apply Z.mul_lt_mono_pos_r; [lia|]. apply Z.mul_lt_mono_pos_r; lia. }
  assert (L5 : (2 ^ Zdigits2 m' * b') * b * 2 ^ (e' - g)
               <= (2 ^ (Zdigits2 m - 1) * b) * b' * 2 ^ (e - g)).
  { replace (2 ^ Zdigits2 m' * b' * b * 2 ^ (e' - g))
      with ((2 ^ Zdigits2 m' * 2 ^ (e' - g)) * (b * b')) by ring.
    replace (2 ^ (Zdigits2 m - 1) * b * b' * 2 ^ (e - g))
      with ((2 ^ (Zdigits2 m - 1) * 2 ^ (e - g)) * (b * b')) by ring.
    apply Z.mul_le_mono_nonneg_r; [nia|exact Hpow]. }
  lia.
Qed.

Lemma mantissa_mono (m e a b m' e' a' b' : Z) :
  0 <= m -> 0 <= a < b -> e <= cexp m e ->
  0 <= m' -> 0 <= a' < b' -> e' <= cexp m' e' ->
  vle m e a b m' e' a' b' ->
  cexp m e = cexp m' e' ->
  rounded_mantissa m e a b <= rounded_mantissa m' e' a' b'.
Proof.
  intros Hm Hab He Hm' Hab' He' Hv Hc. unfold rounded_mantissa. rewrite <- Hc.
  set (c := cexp m e) in *. clearbody c.
  set (n := c - e). set (n' := c - e').
  pose proof (pow2_pos n ltac:(lia)) as Pn. pose proof (pow2_pos n' ltac:(lia)) as Pn'.
  pose proof (Z.div_mod m (2 ^ n) ltac:(lia)) as Hdm.
  pose proof (Z.mod_pos_bound m (2 ^ n) Pn) as Hmod.
  pose proof (Z.div_mod m' (2 ^ n') ltac:(lia)) as Hdm'.
  pose proof (Z.mod_pos_bound m' (2 ^ n') Pn') as Hmod'.
  apply rne_mono.
  - nia.
  - nia.
  - replace (m / 2 ^ n * (2 ^ n * b) + (m mod 2 ^ n * b + a)) with (m * b + a) by nia.
    replace (m' / 2 ^ n' * (2 ^ n' * b') + (m' mod 2 ^ n' * b' + a')) with (m' * b' + a') by nia.
    unfold vle in Hv. apply (ple_shift (c - e - e')) in Hv.
    apply (ple_at 0) in Hv; [|lia|lia].
    replace (e + (c - e - e') - 0) with n' in Hv by (unfold n'; lia).
    replace (e' + (c - e - e') - 0) with n in Hv by (unfold n; lia).
    nia.
Qed.

(** The rounded mantissa and exponent are monotone in the value: the
    exponent does not decrease, and on equal exponents neither does the
    mantissa. *)
Lemma canon_mono (m e a b m' e' a' b' : Z) :
  0 <= m -> 0 <= a < b -> e <= cexp m e ->
  0 <= m' -> 0 <= a' < b' -> e' <= cexp m' e' ->
  vle m e a b m' e' a' b' ->
  cexp m e <= cexp m' e'
  /\ (cexp m e = cexp m' e' ->
      rounded_mantissa m e a b <= rounded_mantissa m' e' a' b')
  /\ (cexp m e < cexp m' e' -> 2 ^ 52 <= rounded_mantissa m' e' a' b').
Proof.
  intros Hm Hab He Hm' Hab' He' Hv.
  split; [exact (cexp_mono m e a b m' e' a' b' Hm Hab He Hm' Hab' He' Hv)|].
  split; [apply mantissa_mono; assumption|].
  intros Hlt. unfold rounded_mantissa.
  pose proof (rne_bounds (m' / 2 ^ (cexp m' e' - e'))
                (m' mod 2 ^ (cexp m' e' - e') * b' + a')
                (2 ^ (cexp m' e' - e') * b')) as Hr.
  pose proof (kept_mantissa m e Hm He) as Hk. cbv zeta in Hk.
  destruct Hk as (_ & _ & _ & Hc).
  pose proof (kept_mantissa m' e' Hm' He') as Hk'. cbv zeta in Hk'.
  destruct Hk' as (Hb' & Hd' & Hz' & _).
  set (c' := cexp m' e') in *. set (m1 := m' / 2 ^ (c' - e')) in *.
  assert (Hpos : 0 < m1) by lia.
  specialize (Hd' Hpos).
  assert (Hcd : c' = Zdigits2 m' + e' - 53).
  { assert (Hdef : c' = Z.max (Zdigits2 m' + e' - 53) (-1074))
      by (unfold c', cexp; apply fexp_eq).
    lia. }
  assert (Hdig : Zdigits2 m1 = 53) by lia.
  pose proof (Zdigits2_bounds m1 Hpos) as [Hlo _]. rewrite Hdig in Hlo.
  change (53 - 1) with 52 in Hlo. lia.
Qed.

(** What [binary_round_aux] returns, as a function of the input. *)
Definition rounded (s : bool) (m e a b : Z) : spec_float :=
  if rounded_mantissa m e a b =? 2 ^ 53 then finish s (2 ^ 52) (cexp m e + 1)
  else finish s (rounded_mantissa m e a b) (cexp m e).

Lemma binary_round_aux_rounded (s : bool) (m e a b : Z) :
  0 <= m -> 0 <= a < b -> e <= cexp m e ->
  binary_round_aux prec emax s m e (frac_class a b) = rounded s m e a b.
Proof. intros Hm Hab He. apply binary_round_aux_spec; assumption. Qed.

Lemma rounded_mantissa_bounds (m e a b : Z) :
  0 <= m -> e <= cexp m e ->
  0 <= rounded_mantissa m e a b <= 2 ^ 53.
Proof.
  intros Hm He.
  pose proof (rounded_canonical m e (rounded_mantissa m e a b) Hm He) as Hcan.
  cbv zeta in Hcan. apply Hcan. apply rne_bounds.
Qed.

(** The order of two floats that are not negative, on their canonical
    representations: by exponent, then by mantissa. *)
Definition fle (x y : spec_float) : Prop :=
  match x, y with
  | S754_zero _, (S754_zero _ | S754_finite false _ _ | S754_infinity false) => True
  | S754_finite false m e, S754_finite false m' e' =>
      e < e' \/ (e = e' /\ Zpos m <= Zpos m')
  | S754_finite false _ _, S754_infinity false => True
  | S754_infinity false, S754_infinity false => True
  | _, _ => False
  end.

Lemma finish_fle (r c r' c' : Z) :
  0 <= r -> 0 <= r' ->
  (r = 0 \/ (0 < r' /\ (c < c' \/ (c = c' /\ r <= r')))) ->
  fle (finish false r c) (finish false r' c').
Proof.
  intros Hr Hr' H. destruct r as [|p|p]; try lia.
  - cbn [finish]. destruct r' as [|p'|p']; try lia; cbn [finish fle]; [exact I|].
    destruct (c' <=? 971); exact I.
  - destruct H as [H|[Hpos H]]; [discriminate|].
    destruct r' as [|p'|p']; try lia. cbn [finish].
    destruct (Z.leb_spec c 971); destruct (Z.leb_spec c' 971); cbn [fle]; try exact I.
    + exact H.
    + lia.
Qed.

Lemma rounded_mono (m e a b m' e' a' b' : Z) :
  0 <= m -> 0 <= a < b -> e <= cexp m e ->
  0 <= m' -> 0 <= a' < b' -> e' <= cexp m' e' ->
  vle m e a b m' e' a' b' ->
  fle (rounded false m e a b) (rounded false m' e' a' b').
Proof.
  intros Hm Hab He Hm' Hab' He' Hv.
  destruct (canon_mono m e a b m' e' a' b' Hm Hab He Hm' Hab' He' Hv) as (Hc & Heq & Hlt).
  pose proof (rounded_mantissa_bounds m e a b Hm He) as Hr.
  pose proof (rounded_mantissa_bounds m' e' a' b' Hm' He') as Hr'.
  unfold rounded.
  set (r := rounded_mantissa m e a b) in *. set (r' := rounded_mantissa m' e' a' b') in *.
  set (c := cexp m e) in *. set (c' := cexp m' e') in *.
  clearbody r r' c c'.
  assert (P52 : 2 ^ 52 = 4503599627370496) by reflexivity.
  assert (P53 : 2 ^ 53 = 9007199254740992) by reflexivity.
  destruct (Z.eqb_spec r (2 ^ 53)) as [E|NE]; destruct (Z.eqb_spec r' (2 ^ 53)) as [E'|NE'];
    apply finish_fle; lia.
Qed.

(** ** The operations as roundings *)

Lemma SFmul_rounded (sx sy : bool) (mx my : positive) (ex ey : Z) :
  valid_binary (S754_finite sx mx ex) = true ->
  valid_binary (S754_finite sy my ey) = true ->
  ex + ey <= cexp (Zpos mx * Zpos my) (ex + ey)
  /\ SFmul prec emax (S754_finite sx mx ex) (S754_finite sy my ey)
     = rounded (xorb sx sy) (Zpos mx * Zpos my) (ex + ey) 0 1.
Proof.
  intros Vx Vy. cbn [SFmul].
  apply valid_finite in Vx, Vy. destruct Vx as [Vx _], Vy as [Vy _].
  pose proof (Zdigits2_mul (Zpos mx) (Zpos my) ltac:(lia) ltac:(lia)) as Hd.
  pose proof (Zdigits2_pos (Zpos mx) ltac:(lia)). pose proof (Zdigits2_pos (Zpos my) ltac:(lia)).
  assert (He : ex + ey <= cexp (Zpos mx * Zpos my) (ex + ey)).
  { unfold cexp. rewrite fexp_eq. lia. }
  split; [exact He|].
  change loc_Exact with (frac_class 0 1).
  change (Zpos (mx * my)) with (Zpos mx * Zpos my).
  apply binary_round_aux_rounded; lia.
Qed.

Lemma SFdiv_rounded (sx sy : bool) (mx my : positive) (ex ey : Z) :
  let e' := div_exponent (Zpos mx) ex (Zpos my) ey in
  let s := ex - ey - e' in
  let q := Zpos mx * 2 ^ s / Zpos my in
  let r := (Zpos mx * 2 ^ s) mod Zpos my in
  0 <= s /\ 0 <= q /\ 0 <= r < Zpos my /\ e' <= cexp q e'
  /\ q * Zpos my + r = Zpos mx * 2 ^ s
  /\ SFdiv prec emax (S754_finite sx mx ex) (S754_finite sy my ey)
     = rounded (xorb sx sy) q e' r (Zpos my).
Proof.
  intros e' s q r. cbn [SFdiv].
  destruct (SFdiv_core_binary_spec (Zpos mx) ex (Zpos my) ey) as (Hcore & Hs & He1 & He2);
    try lia.
  fold e' in Hcore, Hs, He1, He2. fold s in Hcore, Hs. fold q in Hcore, He2.
  fold r in Hcore. rewrite Hcore.
  pose proof (pow2_pos s Hs) as Hp.
  assert (Hq : 0 <= q) by (apply Z.div_pos; nia).
  pose proof (Z.mod_pos_bound (Zpos mx * 2 ^ s) (Zpos my) ltac:(lia)) as Hr. fold r in Hr.
  pose proof (Z.div_mod (Zpos mx * 2 ^ s) (Zpos my) ltac:(lia)) as Hdm.
  fold q in Hdm. fold r in Hdm.
  assert (He : e' <= cexp q e') by (unfold q, s; lia).
  split; [exact Hs|]. split; [exact Hq|]. split; [exact Hr|]. split; [exact He|].
  split; [lia|].
  apply binary_round_aux_rounded; assumption.
Qed.

Lemma binary_round_rounded (s : bool) (mx : positive) (ex : Z) :
  let ez := Z.min ex (fexp prec emax (Zdigits2 (Zpos mx) + ex)) in
  let mz := Zpos mx * 2 ^ (ex - ez) in
  0 <= ex - ez /\ 0 < mz /\ ez <= cexp mz ez
  /\ Zdigits2 mz + ez = Zdigits2 (Zpos mx) + ex
  /\ binary_round prec emax s mx ex = rounded s mz ez 0 1.
Proof.
  intros ez mz. unfold binary_round.
  rewrite shl_align_spec. cbv zeta.
  change (Zpos (digits2_pos mx)) with (Zdigits2 (Zpos mx)). fold ez.
  assert (Hez : 0 <= ex - ez) by (unfold ez; lia).
  pose proof (pow2_pos (ex - ez) Hez) as Hp.
  rewrite Z2Pos.id by nia. fold mz.
  assert (Hmz : 0 < mz) by (unfold mz; nia).
  assert (Hdz : Zdigits2 mz + ez = Zdigits2 (Zpos mx) + ex).
  { unfold mz. rewrite Zdigits2_mul_pow2 by lia. lia. }
  assert (He : ez <= cexp mz ez) by (unfold cexp; rewrite Hdz; unfold ez; lia).
  split; [exact Hez|]. split; [exact Hmz|]. split; [exact He|]. split; [exact Hdz|].
  change loc_Exact with (frac_class 0 1).
  apply binary_round_aux_rounded; lia.
Qed.

(** ** Order of valid floats *)

Lemma fle_ple (m m' : positive) (e e' : Z) :
  valid_binary (S754_finite false m e) = true ->
  valid_binary (S754_finite false m' e') = true ->
  fle (S754_finite false m e) (S754_finite false m' e') ->
  ple (Zpos m) e (Zpos m') e'.
Proof.
  intros V V' H. cbn [fle] in H.
  apply valid_finite in V, V'. destruct V as [V _], V' as [V' _].
  apply (ple_at e); [lia|lia|]. rewrite Z.sub_diag, Z.mul_1_r.
  destruct H as [Hlt|[-> Hle]].
  - pose proof (Zdigits2_bounds (Zpos m) ltac:(lia)) as [_ Hhi].
    pose proof (Zdigits2_bounds (Zpos m') ltac:(lia)) as [Hlo _].
    assert (Hd' : Zdigits2 (Zpos m') = 53) by lia.
    assert (Hd : Zdigits2 (Zpos m) <= 53) by lia.
    rewrite Hd' in Hlo. change (53 - 1) with 52 in Hlo.
    assert (H53 : Zpos m < 2 ^ 53).
    { eapply Z.lt_le_trans; [exact Hhi|]. apply Z.pow_le_mono_r; lia. }
    assert (H2 : 2 ^ 1 <= 2 ^ (e' - e)) by (apply Z.pow_le_mono_r; lia).
    change (2 ^ 1) with 2 in H2. change (2 ^ 53) with (2 * 2 ^ 52) in H53. nia.
  - rewrite Z.sub_diag. lia.
Qed.

Lemma fle_zero_l (s : bool) (y : spec_float) : nonnegative y -> fle (S754_zero s) y.
Proof. destruct y as [z|z| |z m e]; cbn; intros H; subst; try exact I; contradiction. Qed.

Lemma fle_inf_r (x : spec_float) : nonnegative x -> fle x (S754_infinity false).
Proof. destruct x as [z|z| |z m e]; cbn; intros H; subst; try exact I; contradiction. Qed.

Lemma rounded_nonnegative (m e a b : Z) :
  0 <= m -> e <= cexp m e -> nonnegative (rounded false m e a b).
Proof.
  intros Hm He. pose proof (rounded_mantissa_bounds m e a b Hm He) as Hr.
  unfold rounded. destruct (rounded_mantissa m e a b =? 2 ^ 53).
  - cbn. destruct (cexp m e + 1 <=? 971); reflexivity.
  - destruct (rounded_mantissa m e a b) as [|p|p]; try lia; cbn; [exact I|].
    destruct (cexp m e <=? 971); reflexivity.
Qed.

(** ** Monotonicity of the operations *)

(** [x * y] for a fixed positive [y]. *)
Lemma SFmul_mono (x x' : spec_float) (my : positive) (ey : Z) :
  valid_binary x = true -> valid_binary x' = true ->
  valid_binary (S754_finite false my ey) = true ->
  fle x x' ->
  fle (SFmul prec emax x (S754_finite false my ey))
      (SFmul prec emax x' (S754_finite false my ey)).
Proof.
  intros Vx Vx' Vy H.
  destruct x as [s|[|]| |[|] m e]; destruct x' as [s'|[|]| |[|] m' e'];
    try contradiction; try exact I.
  - destruct (SFmul_rounded false false m' my e' ey Vx' Vy) as [He ->].
    cbn [SFmul xorb]. apply fle_zero_l. apply rounded_nonnegative; [lia|exact He].
  - destruct (SFmul_rounded false false m my e ey Vx Vy) as [He ->].
    cbn [SFmul xorb]. apply fle_inf_r. apply rounded_nonnegative; [lia|exact He].
  - destruct (SFmul_rounded false false m my e ey Vx Vy) as [He ->].
    destruct (SFmul_rounded false false m' my e' ey Vx' Vy) as [He' ->].
    cbn [xorb]. apply rounded_mono; try lia.
    unfold vle.
    replace ((Zpos m * Zpos my * 1 + 0) * 1) with (Zpos m * Zpos my) by ring.
    replace ((Zpos m' * Zpos my * 1 + 0) * 1) with (Zpos m' * Zpos my) by ring.
    apply ple_scale; [lia|]. apply ple_shift. apply fle_ple; assumption.
Qed.

(** [x / y] for a fixed positive [y]. *)
Lemma SFdiv_mono (x x' : spec_float) (my : positive) (ey : Z) :
  valid_binary x = true -> valid_binary x' = true ->
  fle x x' ->
  fle (SFdiv prec emax x (S754_finite false my ey))
      (SFdiv prec emax x' (S754_finite false my ey)).
Proof.
  intros Vx Vx' H.
  destruct x as [s|[|]| |[|] m e]; destruct x' as [s'|[|]| |[|] m' e'];
    try contradiction; try exact I.
  - destruct (SFdiv_rounded false false m' my e' ey) as (_ & Hq & _ & He & _ & ->).
    cbn [SFdiv xorb]. apply fle_zero_l. apply rounded_nonnegative; assumption.
  - destruct (SFdiv_rounded false false m my e ey) as (_ & Hq & _ & He & _ & ->).
    cbn [SFdiv xorb]. apply fle_inf_r. apply rounded_nonnegative; assumption.
  - destruct (SFdiv_rounded false false m my e ey) as (Hs & Hq & Hr & He & Hdm & ->).
    destruct (SFdiv_rounded false false m' my e' ey) as (Hs' & Hq' & Hr' & He' & Hdm' & ->).
    cbn [xorb]. apply rounded_mono; try assumption.
    unfold vle. rewrite Hdm, Hdm'.
    apply ple_scale; [lia|].
    apply ple_pow_l; [assumption|]. apply ple_pow_r; [assumption|].
    apply (ple_shift ey).
    match goal with |- ple _ ?i _ ?j =>
      replace i with e by lia; replace j with e' by lia end.
    apply fle_ple; assumption.
Qed.

(** [d / x] for a fixed positive [d]. *)
Lemma SFdiv_antitone (x x' : spec_float) (md : positive) (ed : Z) :
  valid_binary x = true -> valid_binary x' = true ->
  positive_or_inf x ->
  fle x x' ->
  fle (SFdiv prec emax (S754_finite false md ed) x')
      (SFdiv prec emax (S754_finite false md ed) x).
Proof.
  intros Vx Vx' Hpos H.
  destruct x as [s|[|]| |[|] m e]; destruct x' as [s'|[|]| |[|] m' e'];
    try contradiction; try discriminate; try exact I.
  - destruct (SFdiv_rounded false false md m ed e) as (_ & Hq & _ & He & _ & ->).
    cbn [SFdiv xorb]. apply fle_zero_l. apply rounded_nonnegative; assumption.
  - destruct (SFdiv_rounded false false md m ed e) as (Hs & Hq & Hr & He & Hdm & ->).
    destruct (SFdiv_rounded false false md m' ed e') as (Hs' & Hq' & Hr' & He' & Hdm' & ->).
    cbn [xorb]. apply rounded_mono; try assumption.
    unfold vle. rewrite Hdm, Hdm'.
    replace (Zpos md * 2 ^ (ed - e' - div_exponent (Zpos md) ed (Zpos m') e') * Zpos m)
      with (Zpos md * Zpos m * 2 ^ (ed - e' - div_exponent (Zpos md) ed (Zpos m') e')) by ring.
    replace (Zpos md * 2 ^ (ed - e - div_exponent (Zpos md) ed (Zpos m) e) * Zpos m')
      with (Zpos md * Zpos m' * 2 ^ (ed - e - div_exponent (Zpos md) ed (Zpos m) e)) by ring.
    apply ple_pow_l; [assumption|]. apply ple_pow_r; [assumption|].
    apply (ple_shift (e + e' - ed)).
    match goal with |- ple _ ?i _ ?j =>
      replace i with e by lia; replace j with e' by lia end.
    rewrite (Z.mul_comm (Zpos md) (Zpos m)), (Z.mul_comm (Zpos md) (Zpos m')).
    apply ple_scale; [lia|]. apply fle_ple; assumption.
Qed.

(** The primitive comparison, on floats that are not negative. *)
Lemma SFleb_fle (x y : spec_float) :
  positive_or_inf x -> SFleb x y = true -> fle x y.
Proof.
  destruct x as [s|[|]| |[|] m e]; cbn [positive_or_inf]; intros Hx; try discriminate;
    try contradiction;
    destruct y as [s'|[|]| |[|] m' e']; cbn; try discriminate; try (intros _; exact I).
  change (Pos.compare_cont Eq m m') with (Zpos m ?= Zpos m').
  destruct (Z.compare_spec e e') as [->|Hlt|Hgt]; try discriminate.
  - destruct (Z.compare_spec (Zpos m) (Zpos m')); try discriminate; intros _; right; lia.
  - intros _. left. exact Hlt.
Qed.

Lemma fle_positive (x y : spec_float) : positive_or_inf x -> fle x y -> positive_or_inf y.
Proof.
  destruct x as [s|[|]| |[|] m e]; cbn [positive_or_inf]; intros Hx; try discriminate;
    try contradiction;
    destruct y as [s'|[|]| |[|] m' e']; cbn; try contradiction; reflexivity.
Qed.

(** ** [math.ceil] *)

Lemma SFceil_least (m : positive) (e c k : Z) :
  Py.SFceil (S754_finite false m e) = Return c ->
  ple (Zpos m) e k 0 <-> c <= k.
Proof.
  intros H. destruct e as [|p|p].
  - assert (Hc : c = Zpos m * 2 ^ 0)
      by (change (Return (Zpos m * 2 ^ 0) = Return c) in H; congruence).
    subst c. rewrite (ple_at 0) by lia. rewrite !Z.sub_0_r. change (2 ^ 0) with 1. lia.
  - assert (Hc : c = Zpos m * 2 ^ Zpos p)
      by (change (Return (Zpos m * 2 ^ Zpos p) = Return c) in H; congruence).
    subst c.
    rewrite (ple_at 0) by lia. rewrite !Z.sub_0_r. change (2 ^ 0) with 1. lia.
  - assert (Hc : c = - (Zneg m / 2 ^ Zpos p))
      by (change (Return (- (Zneg m / 2 ^ Zpos p)) = Return c) in H; congruence).
    subst c.
    rewrite (ple_at (Zneg p)) by lia. rewrite Z.sub_diag.
    replace (0 - Zneg p) with (Zpos p) by lia. change (2 ^ 0) with 1.
    pose proof (pow2_pos (Zpos p) ltac:(lia)) as Hp.
    pose proof (Z.div_mod (Zneg m) (2 ^ Zpos p) ltac:(lia)) as Hdm.
    pose proof (Z.mod_pos_bound (Zneg m) (2 ^ Zpos p) Hp) as Hmod.
    split; intros H'; nia.
Qed.

Lemma SFceil_mono (x x' : spec_float) (n n' : Z) :
  valid_binary x = true -> valid_binary x' = true ->
  fle x x' ->
  Py.SFceil x = Return n -> Py.SFceil x' = Return n' ->
  n <= n'.
Proof.
  intros Vx Vx' H Hn Hn'.
  destruct x as [s|[|]| |[|] m e]; destruct x' as [s'|[|]| |[|] m' e'];
    try contradiction; try discriminate.
  - change (Return 0 = Return n) in Hn. change (Return 0 = Return n') in Hn'.
    assert (n = 0) by congruence. assert (n' = 0) by congruence. lia.
  - change (Return 0 = Return n) in Hn. assert (n = 0) by congruence. subst n.
    destruct (Z_le_gt_dec 0 n') as [|Hgt]; [assumption|exfalso].
    assert (Hle : n' <= 0) by lia.
    apply (SFceil_least m' e' n' 0 Hn') in Hle.
    pose proof (proj1 (ple_at (Z.min e' 0) (Zpos m') e' 0 0 ltac:(lia) ltac:(lia)) Hle) as Hv.
    pose proof (pow2_pos (e' - Z.min e' 0) ltac:(lia)) as Hp.
    assert (0 < Zpos m' * 2 ^ (e' - Z.min e' 0)) by (apply Z.mul_pos_pos; lia).
    rewrite Z.mul_0_l in Hv. lia.
  - apply (SFceil_least m e n n' Hn).
    apply (ple_trans _ _ (Zpos m') e').
    + apply fle_ple; assumption.
    + apply (SFceil_least m' e' n' n' Hn'). lia.
Qed.

(** ** [float(n)] *)

Lemma float_of_int_pos (p : positive) (x : float) :
  Py.float_of_int (Zpos p) = Return x ->
  Prim2SF x = binary_round prec emax false p 0.
Proof.
  unfold Py.float_of_int, binary_normalize.
  destruct (binary_round_facts false p 0) as (Hv & _). cbv zeta in Hv.
  destruct (binary_round prec emax false p 0) as [s|s| |s mx ex] eqn:E;
    try discriminate; intros H;
    match type of H with Return (SF2Prim ?r) = _ =>
      assert (Hx : x = SF2Prim r) by congruence end;
    rewrite Hx; apply Prim2SF_SF2Prim; exact Hv.
Qed.

Lemma float_of_int_mono (n n' : Z) (x x' : float) :
  0 < n <= n' ->
  Py.float_of_int n = Return x -> Py.float_of_int n' = Return x' ->
  fle (Prim2SF x) (Prim2SF x').
Proof.
  intros Hn Hx Hx'. destruct n as [|p|p]; try lia. destruct n' as [|p'|p']; try lia.
  rewrite (float_of_int_pos p x Hx), (float_of_int_pos p' x' Hx').
  destruct (binary_round_rounded false p 0) as (Hz & Hm & He & _ & ->).
  destruct (binary_round_rounded false p' 0) as (Hz' & Hm' & He' & _ & ->).
  apply rounded_mono; try lia.
  unfold vle.
  match goal with |- ple ((?a * 1 + 0) * 1) _ ((?b * 1 + 0) * 1) _ =>
    replace ((a * 1 + 0) * 1) with a by ring;
    replace ((b * 1 + 0) * 1) with b by ring end.
  apply ple_pow_l; [assumption|]. apply ple_pow_r; [assumption|].
  match goal with |- ple _ ?i _ ?j =>
    replace i with 0 by lia; replace j with 0 by lia end.
  unfold ple. cbn. lia.
Qed.

(** ** Equal values, doubled values *)

(** Two inputs of the same value round to the same float. *)
Lemma rounded_ext (s : bool) (m e a b m' e' a' b' : Z) :
  0 <= m -> 0 <= a < b -> e <= cexp m e ->
  0 <= m' -> 0 <= a' < b' -> e' <= cexp m' e' ->
  vle m e a b m' e' a' b' -> vle m' e' a' b' m e a b ->
  rounded s m e a b = rounded s m' e' a' b'.
Proof.
  intros Hm Hab He Hm' Hab' He' H1 H2.
  destruct (canon_mono m e a b m' e' a' b' Hm Hab He Hm' Hab' He' H1) as (Hc & Heq & _).
  destruct (canon_mono m' e' a' b' m e a b Hm' Hab' He' Hm Hab He H2) as (Hc' & Heq' & _).
  assert (Ec : cexp m e = cexp m' e') by lia.
  specialize (Heq Ec). specialize (Heq' (eq_sym Ec)).
  assert (Er : rounded_mantissa m e a b = rounded_mantissa m' e' a' b') by lia.
  unfold rounded. rewrite Ec, Er. reflexivity.
Qed.

(** One more on the exponent, up to overflow. *)
Definition twice (x : spec_float) : spec_float :=
  match x with
  | S754_finite s m e => if e + 1 <=? 971 then S754_finite s m (e + 1) else S754_infinity s
  | _ => x
  end.

Lemma finish_twice (s : bool) (r c : Z) :
  0 <= r -> finish s r (c + 1) = twice (finish s r c).
Proof.
  intros Hr. destruct r as [|p|p]; try lia; cbn [finish twice]; [reflexivity|].
  destruct (Z.leb_spec c 971); cbn [twice]; destruct (Z.leb_spec (c + 1) 971);
    try reflexivity; lia.
Qed.

(** Away from the subnormal range, rounding commutes with doubling. *)
Lemma rounded_shift (s : bool) (m e a b : Z) :
  0 <= m -> e <= cexp m e ->
  -1074 <= Zdigits2 m + e - 53 ->
  e + 1 <= cexp m (e + 1)
  /\ rounded s m (e + 1) a b = twice (rounded s m e a b).
Proof.
  intros Hm He Hn.
  assert (Hc : cexp m e = Zdigits2 m + e - 53) by (unfold cexp; rewrite fexp_eq; lia).
  assert (Hc1 : cexp m (e + 1) = cexp m e + 1) by (unfold cexp; rewrite !fexp_eq; lia).
  split; [lia|].
  pose proof (rounded_mantissa_bounds m e a b Hm He) as Hr.
  unfold rounded, rounded_mantissa in *. rewrite Hc1.
  replace (cexp m e + 1 - (e + 1)) with (cexp m e - e) by lia.
  destruct (_ =? 2 ^ 53).
  - apply finish_twice. change (2 ^ 52) with 4503599627370496. lia.
  - apply finish_twice. lia.
Qed.

(** A valid float rounds to itself. *)
Lemma rounded_id (s : bool) (m : positive) (e : Z) :
  valid_binary (S754_finite s m e) = true ->
  e <= cexp (Zpos m) e /\ rounded s (Zpos m) e 0 1 = S754_finite s m e.
Proof.
  intros V. apply valid_finite in V. destruct V as [V Hmax].
  assert (Hc : cexp (Zpos m) e = e) by (unfold cexp; rewrite fexp_eq; lia).
  split; [lia|].
  unfold rounded, rounded_mantissa. rewrite Hc, Z.sub_diag.
  change (2 ^ 0) with 1. rewrite Z.div_1_r, Z.mod_1_r. cbn [Z.mul Z.add].
  rewrite rne_exact.
  pose proof (Zdigits2_bounds (Zpos m) ltac:(lia)) as [_ Hhi].
  assert (Hd : Zdigits2 (Zpos m) <= 53) by lia.
  assert (H53 : Zpos m < 2 ^ 53).
  { eapply Z.lt_le_trans; [exact Hhi|]. apply Z.pow_le_mono_r; lia. }
  destruct (Z.eqb_spec (Zpos m) (2 ^ 53)) as [E|_]; [lia|].
  cbn [finish]. destruct (Z.leb_spec e 971); [reflexivity|lia].
Qed.

(** A result above the smallest normal number was rounded away from the
    subnormal range. *)
Lemma rounded_normal (s : bool) (m e a b : Z) (r0 : positive) (c0 : Z) :
  0 <= m -> e <= cexp m e ->
  rounded s m e a b = S754_finite s r0 c0 ->
  -1074 < c0 \/ 2 ^ 52 < Zpos r0 ->
  -1074 <= Zdigits2 m + e - 53.
Proof.
  intros Hm He HR Hbig.
  destruct (Z_le_gt_dec (-1074) (Zdigits2 m + e - 53)) as [|Hlt]; [assumption|exfalso].
  assert (Hc : cexp m e = -1074) by (unfold cexp; rewrite fexp_eq; lia).
  pose proof (kept_mantissa m e Hm He) as Hk. cbv zeta in Hk.
  destruct Hk as (Hm1 & Hd1 & _ & _).
  pose proof (rne_bounds (m / 2 ^ (cexp m e - e))
                (m mod 2 ^ (cexp m e - e) * b + a) (2 ^ (cexp m e - e) * b)) as Hr.
  fold (rounded_mantissa m e a b) in Hr.
  assert (Hsmall : m / 2 ^ (cexp m e - e) < 2 ^ 52).
  { destruct (Z.eq_dec (m / 2 ^ (cexp m e - e)) 0) as [->|N0]; [reflexivity|].
    specialize (Hd1 ltac:(lia)).
    pose proof (Zdigits2_bounds (m / 2 ^ (cexp m e - e)) ltac:(lia)) as [_ Hhi].
    eapply Z.lt_le_trans; [exact Hhi|]. apply Z.pow_le_mono_r; lia. }
  unfold rounded in HR.
  assert (P52 : 2 ^ 52 = 4503599627370496) by reflexivity.
  assert (P53 : 2 ^ 53 = 9007199254740992) by reflexivity.
  destruct (Z.eqb_spec (rounded_mantissa m e a b) (2 ^ 53)) as [E|_]; [lia|].
  destruct (rounded_mantissa m e a b) as [|p|p]; cbn [finish] in HR; try discriminate.
  destruct (cexp m e <=? 971); [|discriminate].
  injection HR as E1 E2. subst. lia.
Qed.

(** ** Exact results *)

Definition same_value (m e m' e' : Z) : Prop := ple m e m' e' /\ ple m' e' m e.

Lemma same_value_refl (m e : Z) : same_value m e m e.
Proof. split; apply ple_refl. Qed.

Lemma same_value_sym (m e m' e' : Z) : same_value m e m' e' -> same_value m' e' m e.
Proof. intros [H1 H2]. split; assumption. Qed.

Lemma same_value_trans (m e m' e' m2 e2 : Z) :
  same_value m e m' e' -> same_value m' e' m2 e2 -> same_value m e m2 e2.
Proof. intros [H1 H2] [H3 H4]. split; eapply ple_trans; eassumption. Qed.

Lemma same_value_shift (k m e m' e' : Z) :
  same_value m e m' e' -> same_value m (e + k) m' (e' + k).
Proof. intros [H1 H2]. split; apply ple_shift; assumption. Qed.

Lemma same_value_pow (s m e : Z) : 0 <= s -> same_value (m * 2 ^ s) e m (e + s).
Proof.
  intros Hs. split.
  - apply ple_pow_l; [exact Hs|apply ple_refl].
  - apply ple_pow_r; [exact Hs|apply ple_refl].
Qed.

(** When the bits shifted out are zero, nothing is rounded. *)
Lemma rounded_exact (s : bool) (m e : Z) :
  0 < m -> e <= cexp m e ->
  m mod 2 ^ (cexp m e - e) = 0 ->
  0 < m / 2 ^ (cexp m e - e)
  /\ rounded s m e 0 1 = finish s (m / 2 ^ (cexp m e - e)) (cexp m e)
  /\ same_value (m / 2 ^ (cexp m e - e)) (cexp m e) m e.
Proof.
  intros Hm He Hmod.
  pose proof (pow2_pos (cexp m e - e) ltac:(lia)) as Hp.
  pose proof (Z.div_mod m (2 ^ (cexp m e - e)) ltac:(lia)) as Hdm. rewrite Hmod in Hdm.
  pose proof (kept_mantissa m e ltac:(lia) He) as Hk. cbv zeta in Hk.
  destruct Hk as (Hm1 & _).
  assert (Hq : 0 < m / 2 ^ (cexp m e - e)) by nia.
  split; [exact Hq|]. split.
  - unfold rounded, rounded_mantissa. rewrite Hmod. cbn [Z.mul Z.add]. rewrite rne_exact.
    destruct (Z.eqb_spec (m / 2 ^ (cexp m e - e)) (2 ^ 53)); [lia|reflexivity].
  - assert (Hc : cexp m e = e + (cexp m e - e)) by lia.
    assert (Hmq : m = m / 2 ^ (cexp m e - e) * 2 ^ (cexp m e - e)) by lia.
    set (q := m / 2 ^ (cexp m e - e)) in *. set (n := cexp m e - e) in *.
    rewrite Hc. clearbody q n. clear Hdm. rewrite Hmq.
    apply same_value_sym. apply same_value_pow. lia.
Qed.

(** A float of the given value, or an overflow. *)
Definition exact_or_inf (x : spec_float) (m e : Z) : Prop :=
  match x with
  | S754_finite false m' e' => same_value (Zpos m') e' m e
  | S754_infinity false => True
  | _ => False
  end.

Lemma SFmul_comm (x y : spec_float) : SFmul prec emax x y = SFmul prec emax y x.
Proof.
  destruct x as [sx|sx| |sx mx ex]; destruct y as [sy|sy| |sy my ey]; cbn [SFmul];
    try reflexivity; try (rewrite xorb_comm; reflexivity).
  rewrite xorb_comm, Pos.mul_comm, Z.add_comm. reflexivity.
Qed.

(** Multiplying by a power of two that is at least one is exact. *)
Lemma SFmul_pow2 (m : positive) (e pe : Z) :
  valid_binary (S754_finite false m e) = true ->
  valid_binary (S754_finite false 4503599627370496 pe) = true ->
  -52 <= pe ->
  exact_or_inf (SFmul prec emax (S754_finite false m e)
                  (S754_finite false 4503599627370496 pe))
               (Zpos m) (e + pe + 52).
Proof.
  intros V VP Hpe.
  destruct (SFmul_rounded false false m 4503599627370496 e pe V VP) as [He ->].
  cbn [xorb]. apply valid_finite in V. destruct V as [V _].
  change (Zpos 4503599627370496) with (2 ^ 52) in *.
  set (M := Zpos m * 2 ^ 52) in *. set (E := e + pe) in *.
  assert (HM : 0 < M) by (unfold M; lia).
  assert (Hd : Zdigits2 M = Zdigits2 (Zpos m) + 52)
    by (unfold M; apply Zdigits2_mul_pow2; lia).
  assert (Hc : cexp M E = Z.max (Zdigits2 M + E - 53) (-1074))
    by (unfold cexp; apply fexp_eq).
  pose proof (Zdigits2_pos (Zpos m) ltac:(lia)) as Hdp.
  assert (Hn : 0 <= cexp M E - E <= 52) by (unfold E in *; lia).
  assert (Hmod : M mod 2 ^ (cexp M E - E) = 0).
  { pose proof (pow2_pos (cexp M E - E) ltac:(lia)) as Hp.
    assert (HMn : M = Zpos m * 2 ^ (52 - (cexp M E - E)) * 2 ^ (cexp M E - E)).
    { rewrite <- Z.mul_assoc, <- Z.pow_add_r by lia.
      replace (52 - (cexp M E - E) + (cexp M E - E)) with 52 by lia. reflexivity. }
    rewrite HMn at 1. apply Z.mod_mul. lia. }
  destruct (rounded_exact false M E HM He Hmod) as (Hq & -> & Hval).
  assert (Hfin : same_value (M / 2 ^ (cexp M E - E)) (cexp M E) (Zpos m) (e + pe + 52)).
  { eapply same_value_trans; [exact Hval|]. unfold M, E.
    replace (e + pe + 52) with (e + pe + 52) by lia. apply same_value_pow. lia. }
  destruct (M / 2 ^ (cexp M E - E)) as [|q|q]; try lia. cbn [finish].
  destruct (cexp M E <=? 971); cbn [exact_or_inf]; [exact Hfin|exact I].
Qed.

Lemma vle_div (mx mx' my q q' r r' e e' s s' : Z) :
  q * my + r = mx * 2 ^ s -> q' * my + r' = mx' * 2 ^ s' ->
  0 <= s -> 0 <= s' -> 0 < my ->
  ple mx (e + s) mx' (e' + s') ->
  vle q e r my q' e' r' my.
Proof.
  intros Hq Hq' Hs Hs' Hmy H. unfold vle. rewrite Hq, Hq'.
  apply ple_scale; [assumption|].
  apply ple_pow_l; [assumption|]. apply ple_pow_r; assumption.
Qed.

(** Dividing the double: away from the subnormal range, the quotient
    doubles. *)
Lemma SFdiv_doubles (m1 m2 my r0 : positive) (e1 e2 ey c0 : Z) :
  same_value (Zpos m2) e2 (Zpos m1) (e1 + 1) ->
  SFdiv prec emax (S754_finite false m1 e1) (S754_finite false my ey)
  = S754_finite false r0 c0 ->
  -1074 < c0 \/ 2 ^ 52 < Zpos r0 ->
  SFdiv prec emax (S754_finite false m2 e2) (S754_finite false my ey)
  = twice (S754_finite false r0 c0).
Proof.
  intros [Hv1 Hv2] H1 Hbig.
  destruct (SFdiv_rounded false false m1 my e1 ey) as (Hs & Hq & Hr & He & Hdm & E1).
  destruct (SFdiv_rounded false false m2 my e2 ey) as (Hs' & Hq' & Hr' & He' & Hdm' & ->).
  cbv zeta in *. cbn [xorb] in *. rewrite E1 in H1.
  pose proof (rounded_normal false _ _ _ _ r0 c0 Hq He H1 Hbig) as Hn.
  destruct (rounded_shift false _ _ ((Zpos m1 * 2 ^ (e1 - ey - div_exponent (Zpos m1) e1 (Zpos my) ey)) mod Zpos my) (Zpos my) Hq He Hn) as [He1 Hsh].
  rewrite <- H1, <- Hsh.
  apply rounded_ext; try assumption.
  - eapply vle_div; try eassumption; try lia.
    match goal with |- ple _ ?i _ ?j =>
      replace i with (e2 + - ey) by lia; replace j with (e1 + 1 + - ey) by lia end.
    apply ple_shift. exact Hv1.
  - eapply vle_div; try eassumption; try lia.
    match goal with |- ple _ ?i _ ?j =>
      replace i with (e1 + 1 + - ey) by lia; replace j with (e2 + - ey) by lia end.
    apply ple_shift. exact Hv2.
Qed.

(** [2 * x] for a normal [x]. *)
Lemma SFmul_two (r0 : positive) (c0 : Z) :
  valid_binary (S754_finite false r0 c0) = true ->
  -1074 < c0 \/ 2 ^ 52 < Zpos r0 ->
  SFmul prec emax (S754_finite false 4503599627370496 (-51)) (S754_finite false r0 c0)
  = twice (S754_finite false r0 c0).
Proof.
  intros V Hbig. rewrite SFmul_comm.
  destruct (SFmul_rounded false false r0 4503599627370496 c0 (-51) V eq_refl) as [He ->].
  cbn [xorb]. destruct (rounded_id false r0 c0 V) as [Hid E].
  pose proof (valid_finite _ _ _ V) as [Vc _].
  assert (Hd : Zdigits2 (Zpos r0) = 53).
  { destruct Hbig as [Hc|Hr]; [lia|].
    pose proof (Zdigits2_ge (Zpos r0) 52 ltac:(lia) ltac:(lia)). lia. }
  destruct (rounded_shift false (Zpos r0) c0 0 1 ltac:(lia) Hid ltac:(lia)) as [He1 Hsh].
  rewrite <- E, <- Hsh.
  apply rounded_ext; try lia.
  - unfold vle.
    replace ((Zpos r0 * Zpos 4503599627370496 * 1 + 0) * 1) with (Zpos r0 * 2 ^ 52)
      by (change (2 ^ 52) with (Zpos 4503599627370496); ring).
    replace ((Zpos r0 * 1 + 0) * 1) with (Zpos r0) by ring.
    replace (c0 + 1) with (c0 + -51 + 52) by lia.
    apply (same_value_pow 52 (Zpos r0) (c0 + -51)). lia.
  - unfold vle.
    replace ((Zpos r0 * Zpos 4503599627370496 * 1 + 0) * 1) with (Zpos r0 * 2 ^ 52)
      by (change (2 ^ 52) with (Zpos 4503599627370496); ring).
    replace ((Zpos r0 * 1 + 0) * 1) with (Zpos r0) by ring.
    replace (c0 + 1) with (c0 + -51 + 52) by lia.
    apply (same_value_pow 52 (Zpos r0) (c0 + -51)). lia.
Qed.

(** [x <= 2 * x] for a positive [x]. *)
Lemma fle_double (x : spec_float) :
  valid_binary x = true -> positive_or_inf x ->
  fle x (SFmul prec emax (S754_finite false 4503599627370496 (-51)) x).
Proof.
  intros V Hpos. destruct x as [s|[|]| |[|] m e]; cbn [positive_or_inf] in Hpos;
    try contradiction; try discriminate.
  - exact I.
  - rewrite SFmul_comm.
    destruct (SFmul_rounded false false m 4503599627370496 e (-51) V eq_refl) as [He ->].
    destruct (rounded_id false m e V) as [Hid E]. rewrite <- E at 1.
    cbn [xorb]. apply rounded_mono; try lia.
    unfold vle.
    replace ((Zpos m * 1 + 0) * 1) with (Zpos m) by ring.
    replace ((Zpos m * Zpos 4503599627370496 * 1 + 0) * 1) with (Zpos m * 2 ^ 52)
      by (change (2 ^ 52) with (Zpos 4503599627370496); ring).
    apply ple_pow_r; [lia|]. apply (ple_at e); [lia|lia|].
    replace (e + -51 + 52 - e) with 1 by lia. rewrite Z.sub_diag. cbn. lia.
Qed.

Lemma above_min_normal (x : spec_float) :
  SFltb (S754_finite false 4503599627370496 (-1074)) x = true ->
  x = S754_infinity false
  \/ exists r0 c0, x = S754_finite false r0 c0 /\ (-1074 < c0 \/ 2 ^ 52 < Zpos r0).
Proof.
  destruct x as [s|[|]| |[|] m e]; cbn [SFltb SFcompare]; try discriminate.
  - intros _. left. reflexivity.
  - change (Pos.compare_cont Eq 4503599627370496 m) with (Zpos 4503599627370496 ?= Zpos m).
    intros H. right. exists m, e. split; [reflexivity|]. revert H.
    destruct (Z.compare_spec (-1074) e) as [<-|Hlt|Hgt]; try discriminate.
    + destruct (Z.compare_spec (Zpos 4503599627370496) (Zpos m)); try discriminate.
      intros _. right. change (2 ^ 52) with (Zpos 4503599627370496). assumption.
    + intros _. left. exact Hlt.
Qed.

Lemma below_infinity (x : spec_float) :
  SFltb x (S754_infinity false) = true -> positive_or_inf x ->
  exists m e, x = S754_finite false m e.
Proof.
  destruct x as [s|[|]| |[|] m e]; cbn; try discriminate; try contradiction.
  intros _ _. exists m, e. reflexivity.
Qed.

End Order.

Import Order.

(** ** A successful run, read backwards *)

Lemma estimate_returns (md : VideoMetadata) (target : Py.number)
    (m s : float) (d : Py.number) (n : Z) :
  passes_guards md ->
  estimate_segments md target = Return (Estimate m s d n) ->
  exists mm em x dur,
    Py.int_true_divide (sum (stream_bitrates_bps md)) 1000000 = Return m
    /\ Prim2SF m = S754_finite false mm em
    /\ Py.to_float (Py.times8 target) = Return x
    /\ s = (x / m)%float
    /\ PrimFloat.leb s 0 = false
    /\ Py.to_float (total_duration_sec md) = Return dur
    /\ Py.ceil (dur / s)%float = Return n.
Proof.
  intros Hg. rewrite (estimate_past_guards md target Hg).
  destruct Hg as (_ & _ & _ & Hsum).
  destruct (Py.int_true_divide (sum (stream_bitrates_bps md)) 1000000) as [m0|] eqn:Hm;
    [|discriminate].
  cbn [bind]. destruct (mbps_positive _ _ Hsum Hm) as (mm & em & HM).
  unfold Py.div_float at 1.
  destruct (Py.to_float (Py.times8 target)) as [x|] eqn:Hx; [|discriminate].
  cbn [bind]. destruct (float_divide_by_positive x m0 mm em HM) as (Hdiv & _).
  rewrite Hdiv. cbn [bind].
  destruct (PrimFloat.leb (x / m0) 0) eqn:Hle; [discriminate|].
  unfold Py.div_float.
  destruct (Py.to_float (total_duration_sec md)) as [dur|] eqn:Hd; [|discriminate].
  cbn [bind]. unfold Py.float_divide.
  destruct (PrimFloat.eqb (x / m0) 0); [discriminate|]. cbn [bind].
  destruct (Py.ceil (dur / (x / m0))) as [k|] eqn:Hc; [|discriminate].
  cbn [bind]. intros H.
  assert (E1 : m0 = m) by congruence. assert (E2 : (x / m0)%float = s) by congruence.
  assert (E3 : k = n) by congruence. subst m0 k.
  exists mm, em, x, dur. rewrite <- E2. repeat split; assumption.
Qed.


(** ** Targets in order *)

(** Two targets in order, [a <= b] as Python compares them: two ints as
    integers, two floats as binary64 numbers, an int and a float by their
    exact values. *)
Definition target_le (a b : Py.number) : Prop :=
  match a, b with
  | Py.Int x, Py.Int y => x <= y
  | Py.Float x, Py.Float y => PrimFloat.leb x y = true
  | Py.Int x, Py.Float y => Py.int_le_float x (Prim2SF y) = true
  | Py.Float x, Py.Int y => Py.float_le_int (Prim2SF x) y = true
  end.

Lemma target_le_le (a b : Py.number) : target_le a b <-> Py.le a b = true.
Proof.
  destruct a as [x|x]; destruct b as [y|y]; cbn [target_le Py.le];
    try reflexivity. symmetry. apply Z.leb_le.
Qed.

Lemma scaled_leb_ple (x i y j : Z) : Py.scaled_leb x i y j = true <-> ple x i y j.
Proof. unfold Py.scaled_leb, ple. apply Z.leb_le. Qed.

Lemma vle_exact (M E M' E' : Z) : vle M E 0 1 M' E' 0 1 <-> ple M E M' E'.
Proof.
  unfold vle.
  replace ((M * 1 + 0) * 1) with M by ring.
  replace ((M' * 1 + 0) * 1) with M' by ring. reflexivity.
Qed.

(** A float that is the rounding of the exact value [m * 2^e]. *)
Definition rounds (x : spec_float) (m e : Z) : Prop :=
  exists M E, 0 <= M /\ E <= cexp M E /\ x = rounded false M E 0 1
              /\ same_value M E m e.

Lemma rounds_mono (x x' : spec_float) (m e m' e' : Z) :
  rounds x m e -> rounds x' m' e' -> ple m e m' e' -> fle x x'.
Proof.
  intros (M & E & HM & HE & -> & [H1 H2]) (M' & E' & HM' & HE' & -> & [H1' H2']) H.
  apply rounded_mono; try lia. apply vle_exact.
  apply (ple_trans _ _ m e); [exact H1|]. apply (ple_trans _ _ m' e'); assumption.
Qed.

Lemma rounds_nonnegative (x : spec_float) (m e : Z) : rounds x m e -> nonnegative x.
Proof.
  intros (M & E & HM & HE & -> & _). apply rounded_nonnegative; assumption.
Qed.

Lemma float_of_int_rounds (p : positive) (x : float) :
  Py.float_of_int (Zpos p) = Return x -> rounds (Prim2SF x) (Zpos p) 0.
Proof.
  intros H. rewrite (float_of_int_pos p x H).
  destruct (binary_round_rounded false p 0) as (Hz & Hm & He & _ & ->).
  eexists _, _. split; [|split; [exact He|split; [reflexivity|]]]; [lia|].
  match goal with |- same_value (_ * 2 ^ ?s) ?ez _ _ =>
    pose proof (same_value_pow s (Zpos p) ez Hz) as Hv;
    replace (ez + s) with 0 in Hv by lia end.
  exact Hv.
Qed.

Lemma valid_rounds (m : positive) (e : Z) :
  valid_binary (S754_finite false m e) = true ->
  rounds (S754_finite false m e) (Zpos m) e.
Proof.
  intros V. destruct (rounded_id false m e V) as [He E].
  exists (Zpos m), e. split; [lia|]. split; [exact He|]. split; [symmetry; exact E|].
  apply same_value_refl.
Qed.

Lemma times8_rounds (m : positive) (e : Z) :
  valid_binary (S754_finite false m e) = true ->
  rounds (SFmul prec emax (S754_finite false m e) (Prim2SF 8)) (Zpos m) (e + 3).
Proof.
  intros V. rewrite Prim2SF_8.
  destruct (SFmul_rounded false false m 4503599627370496 e (-49) V eq_refl) as [He ->].
  cbn [xorb]. eexists _, _. split; [|split; [exact He|split; [reflexivity|]]]; [lia|].
  change (Zpos 4503599627370496) with (2 ^ 52).
  pose proof (same_value_pow 52 (Zpos m) (e + -49) ltac:(lia)) as Hv.
  replace (e + -49 + 52) with (e + 3) in Hv by lia. exact Hv.
Qed.

(** A positive int below a float: the float is positive, and the exact
    values are in order. *)
Lemma int_le_float_positive (n : Z) (y : spec_float) :
  0 < n -> Py.int_le_float n y = true ->
  y = S754_infinity false
  \/ exists m e, y = S754_finite false m e /\ ple n 0 (Zpos m) e.
Proof.
  intros Hn. destruct y as [s|[|]| |[|] m e]; cbn [Py.int_le_float negb];
    try discriminate.
  - intros H. apply Z.leb_le in H. lia.
  - intros _. left. reflexivity.
  - intros H. exfalso. apply scaled_leb_ple in H. unfold ple in H.
    pose proof (pow2_pos (0 - Z.min 0 e) ltac:(lia)).
    pose proof (pow2_pos (e - Z.min 0 e) ltac:(lia)). nia.
  - intros H. right. exists m, e. split; [reflexivity|]. apply scaled_leb_ple. exact H.
Qed.

(** A positive float below an int: the float is finite, the int is
    positive, and the exact values are in order. *)
Lemma float_le_int_positive (x : spec_float) (n : Z) :
  positive_or_inf x -> Py.float_le_int x n = true ->
  exists m e, x = S754_finite false m e /\ ple (Zpos m) e n 0 /\ 0 < n.
Proof.
  destruct x as [s|[|]| |[|] m e]; cbn [positive_or_inf Py.float_le_int];
    try contradiction; try discriminate.
  intros _ H. exists m, e. split; [reflexivity|]. apply scaled_leb_ple in H.
  split; [exact H|]. unfold ple in H.
  pose proof (pow2_pos (0 - Z.min e 0) ltac:(lia)).
  pose proof (pow2_pos (e - Z.min e 0) ltac:(lia)). nia.
Qed.

Lemma ple_times8 (x i y j : Z) : ple x i y j -> ple (x * 8) i y (j + 3).
Proof.
  intros H. change 8 with (2 ^ 3). apply ple_pow_l; [lia|].
  apply ple_shift. exact H.
Qed.

Lemma ple_times8_r (x i y j : Z) : ple x i y j -> ple x (i + 3) (y * 8) j.
Proof.
  intros H. change 8 with (2 ^ 3). apply ple_pow_r; [lia|].
  apply ple_shift. exact H.
Qed.

Lemma scaled_target_mono (t1 t2 : Py.number) (x1 x2 : float) :
  Py.gt0 t1 = true -> target_le t1 t2 ->
  Py.to_float (Py.times8 t1) = Return x1 ->
  Py.to_float (Py.times8 t2) = Return x2 ->
  fle (Prim2SF x1) (Prim2SF x2).
Proof.
  destruct t1 as [n1|y1]; destruct t2 as [n2|y2]; cbn [target_le];
    cbn [Py.gt0 Py.times8 Py.to_float]; intros Hpos Hle H1 H2.
  - apply Z.ltb_lt in Hpos. apply (float_of_int_mono (n1 * 8) (n2 * 8)); [lia|assumption..].
  - (* an int below a float *)
    apply Z.ltb_lt in Hpos.
    assert (x2 = (y2 * 8)%float) as -> by congruence.
    destruct (n1 * 8) as [|p|p] eqn:Ep; try lia.
    pose proof (float_of_int_rounds p x1 H1) as R1.
    rewrite mul_spec. pose proof (Prim2SF_valid y2) as V2.
    destruct (int_le_float_positive n1 (Prim2SF y2) Hpos Hle) as [E|(m & e & E & Hv)];
      rewrite E in V2 |- *.
    + apply fle_inf_r. exact (rounds_nonnegative _ _ _ R1).
    + apply (rounds_mono _ _ _ _ _ _ R1 (times8_rounds m e V2)).
      rewrite <- Ep. apply ple_times8. exact Hv.
  - (* a float below an int *)
    apply ltb_0_iff in Hpos.
    assert (x1 = (y1 * 8)%float) as -> by congruence.
    rewrite mul_spec. pose proof (Prim2SF_valid y1) as V1.
    destruct (float_le_int_positive (Prim2SF y1) n2 Hpos Hle) as (m & e & E & Hv & Hn).
    rewrite E in V1 |- *.
    destruct (n2 * 8) as [|p|p] eqn:Ep; try lia.
    pose proof (float_of_int_rounds p x2 H2) as R2.
    apply (rounds_mono _ _ _ _ _ _ (times8_rounds m e V1) R2).
    rewrite <- Ep. apply ple_times8_r. exact Hv.
  - assert (x1 = (y1 * 8)%float) as -> by congruence.
    assert (x2 = (y2 * 8)%float) as -> by congruence.
    rewrite !mul_spec, Prim2SF_8. apply SFmul_mono; try apply Prim2SF_valid.
    + reflexivity.
    + apply SFleb_fle; [apply ltb_0_iff; exact Hpos|].
      rewrite <- leb_spec. exact Hle.
Qed.

Lemma positive_of_nonnegative (s : float) :
  nonnegative (Prim2SF s) -> PrimFloat.leb s 0 = false -> positive_or_inf (Prim2SF s).
Proof.
  intros Hnn Hle.
  destruct (Prim2SF s) as [z|z| |z m e] eqn:E; cbn in *; try assumption.
  exfalso. assert (Ht : PrimFloat.leb s 0 = true) by (apply leb_0_iff; rewrite E; exact I).
  congruence.
Qed.

Lemma duration_positive (d : Py.number) (dur : float) :
  Py.gt0 d = true -> Py.to_float d = Return dur -> positive_or_inf (Prim2SF dur).
Proof.
  destruct d as [n|y]; cbn [Py.gt0 Py.to_float]; intros Hpos Hd.
  - apply Z.ltb_lt in Hpos. destruct (float_of_int_sign _ _ Hd) as (_ & _ & H).
    destruct (H Hpos) as (mx & ex & -> & _). reflexivity.
  - assert (dur = y) as -> by congruence. apply ltb_0_iff. exact Hpos.
Qed.

(** Past the guards, two runs whose scaled targets are in order: the
    segment durations are in the same order, the segment counts in the
    opposite one. *)
Lemma runs_in_order (md : VideoMetadata) (t1 t2 : Py.number)
    (m1 s1 m2 s2 : float) (d1 d2 : Py.number) (n1 n2 : Z) :
  passes_guards md ->
  Py.gt0 t1 = true ->
  (forall x1 x2, Py.to_float (Py.times8 t1) = Return x1 ->
                 Py.to_float (Py.times8 t2) = Return x2 ->
                 fle (Prim2SF x1) (Prim2SF x2)) ->
  estimate_segments md t1 = Return (Estimate m1 s1 d1 n1) ->
  estimate_segments md t2 = Return (Estimate m2 s2 d2 n2) ->
  fle (Prim2SF s1) (Prim2SF s2) /\ n2 <= n1.
Proof.
  intros Hg Ht Hx R1 R2.
  destruct (estimate_returns md t1 m1 s1 d1 n1 Hg R1)
    as (mm & em & x1 & dur & Hm1 & HM & Hx1 & Hs1 & Hle1 & Hd1 & Hc1).
  destruct (estimate_returns md t2 m2 s2 d2 n2 Hg R2)
    as (mm' & em' & x2 & dur' & Hm2 & _ & Hx2 & Hs2 & Hle2 & Hd2 & Hc2).
  assert (m2 = m1) by congruence. assert (dur' = dur) by congruence. subst m2 dur'.
  clear mm' em' Hm2 Hd2.
  specialize (Hx x1 x2 Hx1 Hx2).
  assert (HS : fle (Prim2SF s1) (Prim2SF s2)).
  { rewrite Hs1, Hs2, !div_spec, HM. unfold SF64div.
    apply SFdiv_mono; try apply Prim2SF_valid. exact Hx. }
  split; [exact HS|].
  assert (Hp1 : positive_or_inf (Prim2SF s1)).
  { apply positive_of_nonnegative; [|exact Hle1].
    rewrite Hs1. destruct (float_divide_by_positive x1 m1 mm em HM) as (_ & Hnn & _).
    apply Hnn. apply (scaled_target_sign t1 x1 Hx1). exact Ht. }
  destruct Hg as (_ & Hdur & _).
  pose proof (duration_positive _ _ Hdur Hd1) as HD.
  unfold Py.ceil in Hc1, Hc2. rewrite div_spec in Hc1, Hc2.
  pose proof (Prim2SF_valid (dur / s1)) as V1. pose proof (Prim2SF_valid (dur / s2)) as V2.
  rewrite div_spec in V1, V2. unfold SF64div in *.
  destruct (Prim2SF dur) as [z|z| |z md' ed] eqn:ED; cbn [positive_or_inf] in HD;
    try contradiction; subst z.
  - exfalso. pose proof (fle_positive _ _ Hp1 HS) as Hp2.
    destruct (Prim2SF s2) as [z|[|]| |[|] m e]; cbn in Hp2, Hc2; try contradiction;
      discriminate.
  - apply (SFceil_mono _ _ n2 n1 V2 V1); [|exact Hc2|exact Hc1].
    apply SFdiv_antitone; try apply Prim2SF_valid; assumption.
Qed.

(** The segment count does not grow with the target. *)
Lemma segments_antitone (md : VideoMetadata) (t1 t2 : Py.number)
    (m1 s1 m2 s2 : float) (d1 d2 : Py.number) (n1 n2 : Z) :
  passes_guards md ->
  Py.gt0 t1 = true -> target_le t1 t2 ->
  estimate_segments md t1 = Return (Estimate m1 s1 d1 n1) ->
  estimate_segments md t2 = Return (Estimate m2 s2 d2 n2) ->
  n2 <= n1.
Proof.
  intros Hg Ht Hle R1 R2.
  apply (runs_in_order md t1 t2 m1 s1 m2 s2 d1 d2 n1 n2 Hg Ht); try assumption.
  intros x1 x2. apply scaled_target_mono; assumption.
Qed.

(** ** Float targets: the larger target also gets an estimate *)

Lemma fle_SFleb (x y : spec_float) : fle x y -> SFleb x y = true.
Proof.
  destruct x as [s|[|]| |[|] m e]; destruct y as [s'|[|]| |[|] m' e']; cbn [fle];
    try contradiction; try reflexivity.
  unfold SFleb, SFcompare.
  change (Pos.compare_cont Eq m m') with (Zpos m ?= Zpos m').
  intros [Hlt|[-> Hle]].
  - apply Z.compare_lt_iff in Hlt. rewrite Hlt. reflexivity.
  - rewrite Z.compare_refl. destruct (Z.compare_spec (Zpos m) (Zpos m')); try reflexivity. lia.
Qed.

Lemma SFceil_returns_below (x y : spec_float) (n : Z) :
  fle x y -> Py.SFceil y = Return n -> exists k, Py.SFceil x = Return k.
Proof.
  destruct x as [s|[|]| |[|] m e]; destruct y as [s'|[|]| |[|] m' e']; cbn [fle];
    try contradiction; try discriminate; intros _ _; cbn [Py.SFceil]; eauto.
Qed.

Lemma positive_not_le0 (s : float) :
  positive_or_inf (Prim2SF s) ->
  PrimFloat.leb s 0 = false /\ PrimFloat.eqb s 0 = false.
Proof.
  intros H. split.
  - destruct (PrimFloat.leb s 0) eqn:E; [|reflexivity].
    apply leb_0_iff in E. destruct (Prim2SF s); cbn in *; congruence || contradiction.
  - destruct (PrimFloat.eqb s 0) eqn:E; [|reflexivity].
    apply eqb_0_iff in E. destruct E as [z E]. rewrite E in H. contradiction.
Qed.

(** X2: for float targets the estimate is monotone and stays defined: past the
    guards, when the run at a positive [t1] returns an estimate, so does the
    run at every [t2 >= t1], with a segment duration at least as long and a
    segment count at most as large. *)
Theorem larger_float_target (md : VideoMetadata) (t1 t2 m s1 : float)
    (d : Py.number) (n1 : Z) :
  passes_guards md ->
  PrimFloat.ltb 0 t1 = true ->
  PrimFloat.leb t1 t2 = true ->
  estimate_segments md (Py.Float t1) = Return (Estimate m s1 d n1) ->
  exists s2 n2,
    estimate_segments md (Py.Float t2) = Return (Estimate m s2 d n2)
    /\ PrimFloat.leb s1 s2 = true
    /\ n2 <= n1.
Proof.
  intros Hg Ht Hle R1.
  destruct (estimate_returns md (Py.Float t1) m s1 d n1 Hg R1)
    as (mm & em & x1 & dur & Hm & HM & Hx1 & Hs1 & Hle1 & Hd & Hc1).
  assert (Hd1 : d = total_duration_sec md).
  { rewrite (estimate_past_guards md _ Hg), Hm in R1. cbn [bind] in R1.
    destruct (Py.div_float (Py.times8 (Py.Float t1)) m) as [sa|]; [|discriminate].
    cbn [bind] in R1. destruct (PrimFloat.leb sa 0); [discriminate|].
    destruct (Py.div_float (total_duration_sec md) sa) as [qa|]; [|discriminate].
    cbn [bind] in R1. destruct (Py.ceil qa) as [na|]; [|discriminate].
    cbn [bind] in R1. congruence. }
  set (s2 := (t2 * 8 / m)%float).
  pose proof (scaled_target_mono (Py.Float t1) (Py.Float t2) x1 (t2 * 8)%float
                Ht Hle Hx1 eq_refl) as HX.
  assert (HS : fle (Prim2SF s1) (Prim2SF s2)).
  { unfold s2. rewrite Hs1, !div_spec, HM. unfold SF64div.
    apply SFdiv_mono; try apply Prim2SF_valid. exact HX. }
  assert (Hp1 : positive_or_inf (Prim2SF s1)).
  { apply positive_of_nonnegative; [|exact Hle1].
    rewrite Hs1. destruct (float_divide_by_positive x1 m mm em HM) as (_ & Hnn & _).
    apply Hnn. apply (scaled_target_sign (Py.Float t1) x1 Hx1). exact Ht. }
  pose proof (fle_positive _ _ Hp1 HS) as Hp2.
  destruct (positive_not_le0 s2 Hp2) as [Hle2 Heq2].
  destruct Hg as (He & Hdur & Hb & Hsum).
  pose proof (duration_positive _ _ Hdur Hd) as HD.
  assert (Hq : fle (Prim2SF (dur / s2)) (Prim2SF (dur / s1))).
  { rewrite !div_spec. unfold SF64div.
    unfold Py.ceil in Hc1. rewrite div_spec in Hc1. unfold SF64div in Hc1.
    destruct (Prim2SF dur) as [z|z| |z md' ed] eqn:ED; cbn [positive_or_inf] in HD;
      try contradiction; subst z.
    - exfalso. destruct (Prim2SF s1) as [z|[|]| |[|] m0 e0]; cbn in Hp1, Hc1;
        try contradiction; discriminate.
    - apply SFdiv_antitone; try apply Prim2SF_valid; assumption. }
  destruct (SFceil_returns_below _ _ n1 Hq Hc1) as [n2 Hc2].
  assert (R2 : estimate_segments md (Py.Float t2) = Return (Estimate m s2 d n2)).
  { rewrite (estimate_past_guards md _ (conj He (conj Hdur (conj Hb Hsum)))), Hm.
    cbn [bind]. unfold Py.div_float at 1. cbn [Py.times8 Py.to_float bind].
    destruct (float_divide_by_positive (t2 * 8) m mm em HM) as (Hdiv & _).
    rewrite Hdiv. cbn [bind]. fold s2. rewrite Hle2.
    unfold Py.div_float. rewrite Hd. cbn [bind]. unfold Py.float_divide.
    rewrite Heq2. cbn [bind]. unfold Py.ceil. rewrite Hc2. cbn [bind].
    rewrite Hd1. reflexivity. }
  exists s2, n2. split; [exact R2|]. split.
  - rewrite leb_spec. apply fle_SFleb. exact HS.
  - apply (SFceil_mono _ _ n2 n1 (Prim2SF_valid _) (Prim2SF_valid _) Hq Hc2 Hc1).
Qed.

(** ** The doubled target *)

(** [2 * t]. *)
Definition double (t : Py.number) : Py.number :=
  match t with
  | Py.Int n => Py.Int (2 * n)
  | Py.Float x => Py.Float (2 * x)%float
  end.

Lemma Prim2SF_2 : Prim2SF 2 = S754_finite false 4503599627370496 (-51).
Proof. reflexivity. Qed.

Lemma double_target_mono (t : Py.number) (x1 x2 : float) :
  Py.gt0 t = true ->
  Py.to_float (Py.times8 t) = Return x1 ->
  Py.to_float (Py.times8 (double t)) = Return x2 ->
  fle (Prim2SF x1) (Prim2SF x2).
Proof.
  destruct t as [n|y]; cbn [double Py.gt0 Py.times8 Py.to_float]; intros Hpos H1 H2.
  - apply Z.ltb_lt in Hpos. apply (float_of_int_mono (n * 8) (2 * n * 8)); [lia|assumption..].
  - assert (x1 = (y * 8)%float) as -> by congruence.
    assert (x2 = (2 * y * 8)%float) as -> by congruence.
    rewrite !mul_spec, Prim2SF_8, Prim2SF_2. unfold SF64mul.
    apply SFmul_mono; try apply Prim2SF_valid; try reflexivity.
    + rewrite <- Prim2SF_2. change (SFmul prec emax) with SF64mul.
      rewrite <- mul_spec. apply Prim2SF_valid.
    + apply fle_double; [apply Prim2SF_valid|]. apply ltb_0_iff. exact Hpos.
Qed.

(** When both scaled targets are finite, the second is the double of the
    first. *)
Lemma double_target_value (t : Py.number) (x1 x2 : float) (m1 m2 : positive) (e1 e2 : Z) :
  Py.gt0 t = true ->
  Py.to_float (Py.times8 t) = Return x1 ->
  Py.to_float (Py.times8 (double t)) = Return x2 ->
  Prim2SF x1 = S754_finite false m1 e1 ->
  Prim2SF x2 = S754_finite false m2 e2 ->
  same_value (Zpos m2) e2 (Zpos m1) (e1 + 1).
Proof.
  destruct t as [n|y]; cbn [double Py.gt0 Py.times8 Py.to_float]; intros Hpos H1 H2 E1 E2.
  - apply Z.ltb_lt in Hpos.
    destruct (n * 8) as [|p|p] eqn:Ep; try lia.
    destruct (2 * n * 8) as [|p'|p'] eqn:Ep'; try lia.
    assert (Hpp : Zpos p' = 2 * Zpos p) by lia.
    rewrite (float_of_int_pos p x1 H1) in E1. rewrite (float_of_int_pos p' x2 H2) in E2.
    destruct (binary_round_rounded false p 0) as (Hz & Hm & He & Hd & R1).
    destruct (binary_round_rounded false p' 0) as (Hz' & Hm' & He' & Hd' & R2).
    cbv zeta in *. rewrite R1 in E1. rewrite R2 in E2.
    set (ez := Z.min 0 (fexp prec emax (Zdigits2 (Zpos p) + 0))) in *.
    set (ez' := Z.min 0 (fexp prec emax (Zdigits2 (Zpos p') + 0))) in *.
    pose proof (Zdigits2_pos (Zpos p) ltac:(lia)) as Hdp.
    destruct (rounded_shift false (Zpos p * 2 ^ (0 - ez)) ez 0 1 ltac:(lia) He ltac:(lia))
      as [He1 Hsh].
    assert (Hext : rounded false (Zpos p' * 2 ^ (0 - ez')) ez' 0 1
                   = rounded false (Zpos p * 2 ^ (0 - ez)) (ez + 1) 0 1).
    { assert (Hv : same_value (Zpos p' * 2 ^ (0 - ez')) ez'
                     (Zpos p * 2 ^ (0 - ez)) (ez + 1)).
      { eapply same_value_trans; [apply same_value_pow; lia|].
        apply same_value_sym.
        eapply same_value_trans; [apply same_value_pow; lia|].
        replace (ez + 1 + (0 - ez)) with 1 by lia.
        replace (ez' + (0 - ez')) with 0 by lia.
        rewrite Hpp. split; unfold ple; cbn; lia. }
      destruct Hv as [Hv1 Hv2].
      apply rounded_ext; try lia; unfold vle.
      - match goal with |- ple ((?a * 1 + 0) * 1) _ ((?b * 1 + 0) * 1) _ =>
          replace ((a * 1 + 0) * 1) with a by ring;
          replace ((b * 1 + 0) * 1) with b by ring end. exact Hv1.
      - match goal with |- ple ((?a * 1 + 0) * 1) _ ((?b * 1 + 0) * 1) _ =>
          replace ((a * 1 + 0) * 1) with a by ring;
          replace ((b * 1 + 0) * 1) with b by ring end. exact Hv2. }
    rewrite Hext, Hsh, E1 in E2. cbn [twice] in E2.
    destruct (e1 + 1 <=? 971); [|discriminate].
    injection E2 as -> ->. apply same_value_refl.
  - assert (x1 = (y * 8)%float) as Hx1 by congruence.
    assert (x2 = (2 * y * 8)%float) as Hx2 by congruence.
    rewrite Hx1, mul_spec, Prim2SF_8 in E1. rewrite Hx2, mul_spec, Prim2SF_8 in E2.
    unfold SF64mul in E1, E2.
    pose proof (Prim2SF_valid y) as Vy. pose proof (Prim2SF_valid (2 * y)) as V2y.
    rewrite mul_spec, Prim2SF_2 in V2y, E2. unfold SF64mul in V2y, E2.
    rewrite (SFmul_comm _ (Prim2SF y)) in V2y, E2.
    apply ltb_0_iff in Hpos.
    destruct (Prim2SF y) as [s|[|]| |[|] m e]; cbn [positive_or_inf] in Hpos;
      try contradiction; try discriminate.
    pose proof (SFmul_pow2 m e (-49) Vy eq_refl ltac:(lia)) as P1. rewrite E1 in P1.
    cbn [exact_or_inf] in P1.
    pose proof (SFmul_pow2 m e (-51) Vy eq_refl ltac:(lia)) as PY.
    destruct (SFmul prec emax (S754_finite false m e)
                (S754_finite false 4503599627370496 (-51))) as [s|[|]| |[|] my ey];
      cbn [exact_or_inf] in PY; try contradiction; try discriminate.
    pose proof (SFmul_pow2 my ey (-49) V2y eq_refl ltac:(lia)) as P2. rewrite E2 in P2.
    cbn [exact_or_inf] in P2.
    replace (e + -49 + 52) with (e + 3) in P1 by lia.
    replace (e + -51 + 52) with (e + 1) in PY by lia.
    replace (ey + -49 + 52) with (ey + 3) in P2 by lia.
    eapply same_value_trans; [exact P2|].
    eapply same_value_trans; [apply (same_value_shift 3); exact PY|].
    replace (e + 1 + 3) with (e + 3 + 1) by lia.
    apply same_value_shift. apply same_value_sym. exact P1.
Qed.

(** Doubling the target doubles a segment duration above the smallest
    normal float, as long as the doubled one stays finite. *)
Lemma duration_doubles (md : VideoMetadata) (t : Py.number)
    (m1 s1 m2 s2 : float) (d1 d2 : Py.number) (n1 n2 : Z) :
  passes_guards md ->
  Py.gt0 t = true ->
  estimate_segments md t = Return (Estimate m1 s1 d1 n1) ->
  estimate_segments md (double t) = Return (Estimate m2 s2 d2 n2) ->
  PrimFloat.ltb 0x1p-1022 s1 = true ->
  PrimFloat.ltb s2 infinity = true ->
  s2 = (2 * s1)%float.
Proof.
  intros Hg Ht R1 R2 Hnorm Hfin.
  destruct (runs_in_order md t (double t) m1 s1 m2 s2 d1 d2 n1 n2 Hg Ht) as [HS _];
    try assumption.
  { intros x1 x2. apply double_target_mono. exact Ht. }
  destruct (estimate_returns md t m1 s1 d1 n1 Hg R1)
    as (mm & em & x1 & dur & Hm1 & HM & Hx1 & Hs1 & Hle1 & Hd1 & Hc1).
  destruct (estimate_returns md (double t) m2 s2 d2 n2 Hg R2)
    as (mm' & em' & x2 & dur' & Hm2 & _ & Hx2 & Hs2 & Hle2 & Hd2 & Hc2).
  assert (m2 = m1) by congruence. subst m2. clear mm' em' Hm2 dur' Hd2 Hc2.
  pose proof (double_target_mono t x1 x2 Ht Hx1 Hx2) as HX.
  pose proof (double_target_value t x1 x2) as Hval. specialize (Hval) with (1 := Ht) (2 := Hx1) (3 := Hx2).
  assert (Hnn1 : nonnegative (Prim2SF x1)) by (apply (scaled_target_sign t x1 Hx1); exact Ht).
  assert (Hp1 : positive_or_inf (Prim2SF s1)).
  { apply positive_of_nonnegative; [|exact Hle1].
    rewrite Hs1. destruct (float_divide_by_positive x1 m1 mm em HM) as (_ & Hnn & _).
    apply Hnn. exact Hnn1. }
  pose proof (fle_positive _ _ Hp1 HS) as Hp2.
  rewrite ltb_spec in Hnorm, Hfin.
  change (Prim2SF 0x1p-1022) with (S754_finite false 4503599627370496 (-1074)) in Hnorm.
  change (Prim2SF infinity) with (S754_infinity false) in Hfin.
  destruct (below_infinity _ Hfin Hp2) as (r2 & c2 & ES2).
  destruct (above_min_normal _ Hnorm) as [Einf|(r0 & c0 & ES1 & Hbig)].
  { rewrite Einf, ES2 in HS. contradiction. }
  apply Prim2SF_inj. rewrite mul_spec, Prim2SF_2, ES1. unfold SF64mul.
  pose proof (Prim2SF_valid s1) as V1. rewrite ES1 in V1.
  rewrite (SFmul_two r0 c0 V1 Hbig).
  rewrite Hs1, div_spec, HM in ES1. rewrite Hs2, div_spec, HM in ES2 |- *.
  unfold SF64div in *.
  destruct (Prim2SF x1) as [z|z| |z mx1 ex1] eqn:EX1; cbn [SFdiv] in ES1; try discriminate.
  cbn [nonnegative] in Hnn1. subst z.
  destruct (Prim2SF x2) as [z|[|]| |[|] mx2 ex2] eqn:EX2; cbn [fle] in HX;
    try contradiction; try discriminate.
  apply (SFdiv_doubles mx1 mx2 mm r0 ex1 ex2 em c0); try assumption.
  apply Hval; reflexivity.
Qed.

(** C6, amended: past the guards and for a positive target, (1) when the
    run at [t] and the run at [2 * t] both return an estimate, the first
    segment duration is above the smallest normal float and the second is
    finite, the second is twice the first; (2) when the runs at two targets
    [t1 <= t2] both return an estimate, the segment count at [t2] is at
    most the one at [t1].  The targets of (2) are ints, floats or one of
    each, in the order Python gives them: an int and a float are compared
    by their exact values. *)
Theorem target_scaling :
  (forall md t m1 s1 d1 n1 m2 s2 d2 n2,
      passes_guards md ->
      Py.gt0 t = true ->
      estimate_segments md t = Return (Estimate m1 s1 d1 n1) ->
      estimate_segments md (double t) = Return (Estimate m2 s2 d2 n2) ->
      PrimFloat.ltb 0x1p-1022 s1 = true ->
      PrimFloat.ltb s2 infinity = true ->
      s2 = (2 * s1)%float)
  /\ (forall md t1 t2 m1 s1 d1 n1 m2 s2 d2 n2,
      passes_guards md ->
      Py.gt0 t1 = true -> target_le t1 t2 ->
      estimate_segments md t1 = Return (Estimate m1 s1 d1 n1) ->
      estimate_segments md t2 = Return (Estimate m2 s2 d2 n2) ->
      n2 <= n1).
Proof.
  split.
  - intros md t m1 s1 d1 n1 m2 s2 d2 n2. apply duration_doubles.
  - intros md t1 t2 m1 s1 d1 n1 m2 s2 d2 n2. apply segments_antitone.
Qed.

(** ** Concrete runs *)

Definition hour_at_5mbps : VideoMetadata :=
  {| total_duration_sec := Py.Float 3600; stream_bitrates_bps := [5000000];
     error := None |}.

(** A stream of 10^13 bits per second. *)
Definition fast_stream : VideoMetadata :=
  {| total_duration_sec := Py.Float 100; stream_bitrates_bps := [10000000000000];
     error := None |}.

(** The smallest positive float, 5e-324. *)
Definition tiny : float := 0x1p-1074%float.

(** A stream of 10^320 bits per second. *)
Definition absurd_stream : VideoMetadata :=
  {| total_duration_sec := Py.Float 100; stream_bitrates_bps := [10 ^ 320];
     error := None |}.

(** One second at 5 Mbit/s. *)
Definition second_at_5mbps : VideoMetadata :=
  {| total_duration_sec := Py.Float 1; stream_bitrates_bps := [5000000];
     error := None |}.

Lemma hour_passes_guards : passes_guards hour_at_5mbps.
Proof. repeat split. discriminate. Qed.

Lemma fast_stream_passes_guards : passes_guards fast_stream.
Proof. repeat split. discriminate. Qed.

Lemma absurd_stream_passes_guards : passes_guards absurd_stream.
Proof. repeat split. discriminate. Qed.

(** C5: one hour at 5 Mbit/s with a 22 MB target gives a 35.2 s segment
    and 103 segments, whether duration and target are ints or floats. *)
Theorem scenario_B_estimate :
  estimate_segments hour_at_5mbps (Py.Int 22)
  = Return (Estimate 5 35.2 (Py.Float 3600) 103)
  /\ estimate_segments hour_at_5mbps (Py.Float 22)
  = Return (Estimate 5 35.2 (Py.Float 3600) 103)
  /\ estimate_segments
       {| total_duration_sec := Py.Int 3600; stream_bitrates_bps := [5000000];
          error := None |} (Py.Int 22)
  = Return (Estimate 5 35.2 (Py.Int 3600) 103)
  /\ Prim2SF 35.2 = S754_finite false 4953959590107546 (-47)
  /\ 5 * 4953959590107546 = 176 * 2 ^ 47 + 2.
Proof. repeat split; vm_compute; reflexivity. Qed.

(** C2 as stated fails: a positive target so small that the quotient
    rounds to zero gets the segment-duration error, not an estimate. *)
Lemma positive_target_can_fail :
  passes_guards fast_stream
  /\ Py.gt0 (Py.Float tiny) = true
  /\ forall m s d n,
       estimate_segments fast_stream (Py.Float tiny) <> Return (Estimate m s d n).
Proof.
  split; [exact fast_stream_passes_guards|]. split; [reflexivity|].
  intros m s d n. vm_compute. discriminate.
Qed.

Lemma estimate_formulas_witness :
  estimate_segments hour_at_5mbps (Py.Int 22)
  = Return (Estimate 5 35.2 (Py.Float 3600) 103).
Proof.
  apply (estimate_formulas hour_at_5mbps (Py.Int 22) 5 35.2 (3600 / 35.2) 103).
  - exact hour_passes_guards.
  - reflexivity.
  - vm_compute; reflexivity.
  - vm_compute; reflexivity.
  - vm_compute; reflexivity.
  - vm_compute; reflexivity.
  - vm_compute; reflexivity.
Defined.

(** C8 as stated fails: the defensive branch is reached past the guards
    with the positive target 5e-324. *)
Lemma defensive_branch_is_reachable :
  passes_guards fast_stream
  /\ Py.gt0 (Py.Float tiny) = true
  /\ estimate_segments fast_stream (Py.Float tiny)
     = Return (EstimateError err_segment_duration).
Proof.
  split; [exact fast_stream_passes_guards|]. split; [reflexivity|].
  vm_compute. reflexivity.
Qed.

Lemma defensive_branch_needs_underflow_witness :
  exists t m,
    Py.Float tiny = Py.Float t
    /\ Py.int_true_divide (sum (stream_bitrates_bps fast_stream)) 1000000 = Return m
    /\ PrimFloat.eqb (t * 8 / m) 0 = true.
Proof.
  apply (defensive_branch_needs_underflow fast_stream (Py.Float tiny)).
  - exact fast_stream_passes_guards.
  - reflexivity.
  - vm_compute; reflexivity.
Defined.

(** C10, at a failing input: with a bit rate of 10^320 the conversion to
    megabits overflows and [OverflowError] escapes, for any target. *)
Theorem absurd_stream_overflows :
  passes_guards absurd_stream
  /\ estimate_segments absurd_stream (Py.Int 0) = Raise OverflowError.
Proof. split; [exact absurd_stream_passes_guards | vm_compute; reflexivity]. Qed.

Lemma nonpositive_target_is_reported_witness :
  estimate_segments hour_at_5mbps (Py.Int 0)
  = Return (EstimateError err_segment_duration).
Proof.
  apply (nonpositive_target_is_reported hour_at_5mbps (Py.Int 0) 5 0).
  - exact hour_passes_guards.
  - reflexivity.
  - vm_compute; reflexivity.
  - vm_compute; reflexivity.
Defined.

Lemma second_passes_guards : passes_guards second_at_5mbps.
Proof. repeat split. discriminate. Qed.

(** C6 as stated fails: with the target 1e-308 the segment duration is
    subnormal (1.6e-308), and the run at the doubled target returns
    3.1999999999999996e-308, one unit in the last place below its double. *)
Lemma doubling_fails_on_subnormals :
  passes_guards second_at_5mbps
  /\ Py.gt0 (Py.Float 1e-308) = true
  /\ estimate_segments second_at_5mbps (Py.Float 1e-308)
     = Return (Estimate 5 0x0.b8157268fdaeap-1022 (Py.Float 1)
                        (6263026125028040 * 2 ^ 970))
  /\ estimate_segments second_at_5mbps (double (Py.Float 1e-308))
     = Return (Estimate 5 0x1.702ae4d1fb5d3p-1022 (Py.Float 1)
                        (6263026125028041 * 2 ^ 969))
  /\ (2 * 0x0.b8157268fdaeap-1022 = 0x1.702ae4d1fb5d4p-1022)%float
  /\ (0x1.702ae4d1fb5d3p-1022 <> 2 * 0x0.b8157268fdaeap-1022)%float.
Proof.
  split; [exact second_passes_guards|]. split; [reflexivity|].
  split; [vm_compute; reflexivity|].
  split; [vm_compute; reflexivity|].
  split; [vm_compute; reflexivity|].
  intros H. apply (f_equal Prim2SF) in H. vm_compute in H. discriminate.
Qed.

Lemma target_scaling_witness :
  (70.400000000000006 = 2 * 35.2)%float /\ 52 <= 103 /\ 74 <= 103.
Proof.
  split; [|split].
  - apply (proj1 target_scaling hour_at_5mbps (Py.Float 22)
             5%float 35.2%float (Py.Float 3600) 103
             5%float 70.400000000000006%float (Py.Float 3600) 52).
    + exact hour_passes_guards.
    + reflexivity.
    + vm_compute; reflexivity.
    + vm_compute; reflexivity.
    + vm_compute; reflexivity.
    + vm_compute; reflexivity.
  - apply (proj2 target_scaling hour_at_5mbps (Py.Float 22) (Py.Float 44)
             5%float 35.2%float (Py.Float 3600) 103
             5%float 70.400000000000006%float (Py.Float 3600) 52).
    + exact hour_passes_guards.
    + reflexivity.
    + vm_compute; reflexivity.
    + vm_compute; reflexivity.
    + vm_compute; reflexivity.
  - (* the default int target against a float target *)
    apply (proj2 target_scaling hour_at_5mbps (Py.Int 22) (Py.Float 30.5)
             5%float 35.2%float (Py.Float 3600) 103
             5%float 48.8%float (Py.Float 3600) 74).
    + exact hour_passes_guards.
    + reflexivity.
    + vm_compute; reflexivity.
    + vm_compute; reflexivity.
    + vm_compute; reflexivity.
Defined.

Lemma larger_float_target_witness :
  exists s2 n2,
    estimate_segments hour_at_5mbps (Py.Float 44) = Return (Estimate 5 s2 (Py.Float 3600) n2)
    /\ PrimFloat.leb 35.2 s2 = true
    /\ n2 <= 103.
Proof.
  apply (larger_float_target hour_at_5mbps 22 44 5 35.2 (Py.Float 3600) 103).
  - exact hour_passes_guards.
  - reflexivity.
  - reflexivity.
  - vm_compute; reflexivity.
Defined.

(** * Further properties *)

(** ** Every returned estimate, read backwards *)

Lemma estimate_inversion (md : VideoMetadata) (target : Py.number)
    (m s : float) (d : Py.number) (n : Z) :
  estimate_segments md target = Return (Estimate m s d n) ->
  error_truthy (error md) = false
  /\ Py.le0 (total_duration_sec md) = false
  /\ stream_bitrates_bps md <> []
  /\ 0 < sum (stream_bitrates_bps md)
  /\ Py.int_true_divide (sum (stream_bitrates_bps md)) 1000000 = Return m
  /\ (exists x, Py.to_float (Py.times8 target) = Return x /\ s = (x / m)%float)
  /\ PrimFloat.leb s 0 = false
  /\ d = total_duration_sec md
  /\ exists dur, Py.to_float (total_duration_sec md) = Return dur
                 /\ Py.ceil (dur / s)%float = Return n.
Proof.
  unfold estimate_segments.
  destruct (error_truthy (error md)); [discriminate|].
  destruct (Py.le0 (total_duration_sec md)); [discriminate|].
  destruct (stream_bitrates_bps md) as [|b l] eqn:El; [discriminate|].
  destruct (Z.leb_spec (sum (b :: l)) 0) as [|Hsum]; [discriminate|].
  destruct (Py.int_true_divide (sum (b :: l)) 1000000) as [m0|] eqn:Hm; [|discriminate].
  cbn [bind]. unfold Py.div_float at 1.
  destruct (Py.to_float (Py.times8 target)) as [x|] eqn:Hx; [|discriminate].
  cbn [bind]. unfold Py.float_divide at 1.
  destruct (PrimFloat.eqb m0 0); [discriminate|]. cbn [bind].
  destruct (PrimFloat.leb (x / m0) 0) eqn:Hle; [discriminate|].
  unfold Py.div_float.
  destruct (Py.to_float (total_duration_sec md)) as [dur|] eqn:Hd; [|discriminate].
  cbn [bind]. unfold Py.float_divide.
  destruct (PrimFloat.eqb (x / m0) 0); [discriminate|]. cbn [bind].
  destruct (Py.ceil (dur / (x / m0))) as [k|] eqn:Hc; [|discriminate].
  cbn [bind]. intros H.
  assert (E1 : m0 = m) by congruence. assert (E2 : (x / m0)%float = s) by congruence.
  assert (E3 : k = n) by congruence. assert (E4 : total_duration_sec md = d) by congruence.
  subst m0 k. rewrite <- E2.
  split; [reflexivity|]. split; [reflexivity|]. split; [discriminate|].
  split; [exact Hsum|]. split; [reflexivity|].
  split; [exists x; split; reflexivity|]. split; [exact Hle|].
  split; [symmetry; exact E4|]. exists dur. split; [reflexivity|exact Hc].
Qed.

Lemma SFceil_nonnegative (x : spec_float) (n : Z) :
  nonnegative x -> Py.SFceil x = Return n -> 0 <= n.
Proof.
  destruct x as [z|z| |z m e]; cbn [nonnegative]; intros Hx H; try discriminate.
  - change (Return 0 = Return n) in H. assert (n = 0) by congruence. lia.
  - subst z. destruct e as [|p|p].
    + assert (n = Zpos m * 2 ^ 0)
        by (change (Return (Zpos m * 2 ^ 0) = Return n) in H; congruence).
      subst n. change (2 ^ 0) with 1. lia.
    + assert (n = Zpos m * 2 ^ Zpos p)
        by (change (Return (Zpos m * 2 ^ Zpos p) = Return n) in H; congruence).
      subst n. pose proof (pow2_pos (Zpos p) ltac:(lia)). nia.
    + assert (n = - (Zneg m / 2 ^ Zpos p))
        by (change (Return (- (Zneg m / 2 ^ Zpos p)) = Return n) in H; congruence).
      subst n. pose proof (pow2_pos (Zpos p) ltac:(lia)) as Hp.
      assert (Zneg m / 2 ^ Zpos p < 0) by (apply Z.div_lt_upper_bound; lia).
      lia.
Qed.

(** The sign of a number, on its float. *)
Lemma not_le0_float (a : Py.number) (x : float) :
  Py.le0 a = false -> Py.to_float a = Return x ->
  Prim2SF x = S754_nan \/ positive_or_inf (Prim2SF x).
Proof.
  destruct a as [k|y]; cbn [Py.le0 Py.to_float]; intros Hle Hx.
  - right. apply Z.leb_gt in Hle. destruct (float_of_int_sign _ _ Hx) as (_ & _ & H).
    destruct (H Hle) as (mx & ex & -> & _). reflexivity.
  - assert (x = y) as -> by congruence.
    destruct (Prim2SF y) as [z|[|]| |[|] m e] eqn:E; try (left; reflexivity);
      try (right; reflexivity);
      exfalso; assert (Ht : PrimFloat.leb y 0 = true)
        by (apply leb_0_iff; rewrite E; cbn; auto); congruence.
Qed.

Lemma not_leb0 (s : float) :
  PrimFloat.leb s 0 = false ->
  Prim2SF s = S754_nan \/ positive_or_inf (Prim2SF s).
Proof. intros H. apply (not_le0_float (Py.Float s) s); [exact H|reflexivity]. Qed.

(** The quotient behind a count that [math.ceil] returned. *)
Lemma ceil_of_quotient (dur s : float) (n : Z) :
  (Prim2SF dur = S754_nan \/ positive_or_inf (Prim2SF dur)) ->
  (Prim2SF s = S754_nan \/ positive_or_inf (Prim2SF s)) ->
  Py.ceil (dur / s)%float = Return n ->
  (exists md ed, Prim2SF dur = S754_finite false md ed)
  /\ positive_or_inf (Prim2SF s)
  /\ nonnegative (Prim2SF (dur / s)).
Proof.
  unfold Py.ceil. rewrite div_spec. unfold SF64div. intros HD HS Hc.
  destruct (Prim2SF dur) as [z|[|]| |[|] md ed]; destruct HD as [HD|HD];
    try discriminate; try contradiction;
    destruct (Prim2SF s) as [z'|[|]| |[|] ms es]; destruct HS as [HS|HS];
    try discriminate; try contradiction; try (cbn in Hc; discriminate).
  - split; [eauto|]. split; [reflexivity|]. exact I.
  - split; [eauto|]. split; [reflexivity|].
    destruct (SFdiv_rounded false false md ms ed es) as (_ & Hq & _ & He & _ & ->).
    apply rounded_nonnegative; assumption.
Qed.

(** X3: whatever the metadata and the target, a returned estimate holds a
    finite positive megabit rate, a positive segment duration, the
    metadata's duration and a count that is not negative; and it is returned
    only past every guard. *)
Theorem estimate_invariants (md : VideoMetadata) (target : Py.number)
    (m s : float) (d : Py.number) (n : Z) :
  estimate_segments md target = Return (Estimate m s d n) ->
  error_truthy (error md) = false
  /\ Py.le0 (total_duration_sec md) = false
  /\ 0 < sum (stream_bitrates_bps md)
  /\ PrimFloat.ltb 0 m = true /\ PrimFloat.ltb m infinity = true
  /\ PrimFloat.ltb 0 s = true
  /\ d = total_duration_sec md
  /\ 0 <= n.
Proof.
  intros H.
  destruct (estimate_inversion md target m s d n H)
    as (He & Hd & _ & Hsum & Hm & _ & Hle & Ed & dur & Hdur & Hc).
  destruct (mbps_positive _ _ Hsum Hm) as (mm & em & HM).
  destruct (ceil_of_quotient dur s n (not_le0_float _ _ Hd Hdur) (not_leb0 s Hle) Hc)
    as (_ & Hs & Hq).
  split; [exact He|]. split; [exact Hd|]. split; [exact Hsum|].
  split; [apply ltb_0_iff; rewrite HM; reflexivity|].
  split; [rewrite ltb_spec, HM; reflexivity|].
  split; [apply ltb_0_iff; exact Hs|]. split; [exact Ed|].
  exact (SFceil_nonnegative _ n Hq Hc).
Qed.

Lemma estimate_invariants_witness :
  error_truthy (error hour_at_5mbps) = false
  /\ Py.le0 (total_duration_sec hour_at_5mbps) = false
  /\ 0 < sum (stream_bitrates_bps hour_at_5mbps)
  /\ PrimFloat.ltb 0 5 = true /\ PrimFloat.ltb 5 infinity = true
  /\ PrimFloat.ltb 0 35.2 = true
  /\ Py.Float 3600 = total_duration_sec hour_at_5mbps
  /\ 0 <= 103.
Proof.
  apply (estimate_invariants hour_at_5mbps (Py.Int 22) 5 35.2 (Py.Float 3600) 103).
  vm_compute; reflexivity.
Defined.

(** ** The exceptions that can escape *)

(** A result that is not one of the two exceptions a missing key or a
    zero divisor would raise. *)
Definition no_key_or_zero_error {A : Type} (r : result A) : Prop :=
  match r with
  | Raise KeyError | Raise ZeroDivisionError => False
  | _ => True
  end.

Lemma no_key_or_zero_error_bind {A B : Type} (r : result A) (k : A -> result B) :
  no_key_or_zero_error r ->
  (forall a, r = Return a -> no_key_or_zero_error (k a)) ->
  no_key_or_zero_error (bind r k).
Proof. destruct r as [a|e]; cbn [bind]; intros Hr Hk; [apply Hk; reflexivity|exact Hr]. Qed.

Lemma float_of_int_errors (n : Z) : no_key_or_zero_error (Py.float_of_int n).
Proof. unfold Py.float_of_int. destruct (binary_normalize _ _ _ _ _); exact I. Qed.

Lemma to_float_errors (a : Py.number) : no_key_or_zero_error (Py.to_float a).
Proof. destruct a; [apply float_of_int_errors|exact I]. Qed.

Lemma ceil_errors (x : float) : no_key_or_zero_error (Py.ceil x).
Proof. unfold Py.ceil. destruct (Prim2SF x); exact I. Qed.

Lemma trunc_errors (x : float) : no_key_or_zero_error (Py.trunc x).
Proof. unfold Py.trunc. destruct (Prim2SF x); exact I. Qed.

Lemma float_divide_errors (x y : float) :
  PrimFloat.eqb y 0 = false -> no_key_or_zero_error (Py.float_divide x y).
Proof. unfold Py.float_divide. intros ->. exact I. Qed.

Lemma leb_false_eqb_false (s : float) :
  PrimFloat.leb s 0 = false -> PrimFloat.eqb s 0 = false.
Proof.
  intros H. destruct (PrimFloat.eqb s 0) eqn:E; [|reflexivity].
  apply eqb_0_iff in E. destruct E as [z E].
  assert (Ht : PrimFloat.leb s 0 = true) by (apply leb_0_iff; rewrite E; exact I).
  congruence.
Qed.

Lemma estimate_segments_errors (md : VideoMetadata) (target : Py.number) :
  no_key_or_zero_error (estimate_segments md target).
Proof.
  unfold estimate_segments.
  destruct (error_truthy (error md)); [exact I|].
  destruct (Py.le0 (total_duration_sec md)); [exact I|].
  destruct (stream_bitrates_bps md) as [|b l]; [exact I|].
  destruct (Z.leb_spec (sum (b :: l)) 0) as [|Hsum]; [exact I|].
  apply no_key_or_zero_error_bind.
  { unfold Py.int_true_divide. cbn [Z.eqb].
    destruct (SFdiv _ _ _ _); exact I. }
  intros m Hm. destruct (mbps_positive _ _ Hsum Hm) as (mm & em & HM).
  apply no_key_or_zero_error_bind.
  { unfold Py.div_float. apply no_key_or_zero_error_bind; [apply to_float_errors|].
    intros x _. destruct (float_divide_by_positive x m mm em HM) as (-> & _). exact I. }
  intros s _. destruct (PrimFloat.leb s 0) eqn:Hle; [exact I|].
  apply no_key_or_zero_error_bind.
  { unfold Py.div_float. apply no_key_or_zero_error_bind; [apply to_float_errors|].
    intros x _. apply float_divide_errors. apply leb_false_eqb_false. exact Hle. }
  intros q _. apply no_key_or_zero_error_bind; [apply ceil_errors|].
  intros n _. exact I.
Qed.

Section AdapterErrors.

Variable float_of_str : string -> option float.
Variable int_of_str : string -> option Z.

Lemma contains_errors (key : string) (v : json) :
  no_key_or_zero_error (Json.contains key v).
Proof. destruct v; exact I. Qed.

Lemma get_errors (v : json) (key : string) (default : json) :
  no_key_or_zero_error (Json.get v key default).
Proof. destruct v; exact I. Qed.

Lemma iterate_errors (v : json) : no_key_or_zero_error (Json.iterate v).
Proof. destruct v; exact I. Qed.

(** [v[key]] after [key in v] has answered yes. *)
Lemma subscript_errors (v : json) (key : string) :
  Json.contains key v = Return true -> no_key_or_zero_error (Json.subscript v key).
Proof.
  destruct v; cbn [Json.contains Json.subscript]; try (intros _; exact I).
  destruct (Json.lookup key fields); [intros _; exact I|discriminate].
Qed.

Lemma py_float_errors (v : json) : no_key_or_zero_error (py_float float_of_str v).
Proof.
  destruct v; cbn [py_float]; try exact I.
  - apply float_of_int_errors.
  - destruct (float_of_str s); exact I.
Qed.

Lemma py_int_errors (v : json) : no_key_or_zero_error (py_int int_of_str v).
Proof.
  destruct v; cbn [py_int]; try exact I.
  - apply trunc_errors.
  - destruct (int_of_str s); exact I.
Qed.

Lemma print_errors (v : json) : no_key_or_zero_error (Console.print v).
Proof.
  destruct v; try exact I. cbn [Console.print].
  destruct (Console.has_surrogate s); exact I.
Qed.

Lemma collect_bitrates_errors (streams : list json) (acc : list Z) :
  no_key_or_zero_error (collect_bitrates int_of_str streams acc).
Proof.
  revert acc. induction streams as [|stream rest IH]; intros acc; cbn [collect_bitrates].
  - exact I.
  - apply no_key_or_zero_error_bind; [apply get_errors|]. intros bit_rate _.
    pose proof (py_int_errors (if Json.is_str "N/A" bit_rate then JStr "0" else bit_rate))
      as Hi.
    assert (Hhandler :
              no_key_or_zero_error
                (raw <- Json.get stream "bit_rate" JNull ;;
                 _ <- Console.print raw ;;
                 collect_bitrates int_of_str rest (acc ++ [0])%list)).
    { apply no_key_or_zero_error_bind; [apply get_errors|]. intros raw _.
      apply no_key_or_zero_error_bind; [apply print_errors|]. intros _ _. apply IH. }
    destruct (py_int int_of_str _) as [n|[]];
      try apply IH; try exact Hhandler; exact Hi || exact I.
Qed.

Lemma per_stream_bitrates_errors (metadata : json) :
  no_key_or_zero_error (per_stream_bitrates int_of_str metadata).
Proof.
  unfold per_stream_bitrates.
  apply no_key_or_zero_error_bind; [apply contains_errors|]. intros [|] Hc; [|exact I].
  apply no_key_or_zero_error_bind; [apply subscript_errors; exact Hc|]. intros streams _.
  apply no_key_or_zero_error_bind; [apply iterate_errors|]. intros items _.
  apply collect_bitrates_errors.
Qed.

Lemma format_fallback_errors (metadata : json) (l : list Z) (d : float) :
  no_key_or_zero_error (format_fallback int_of_str metadata l d).
Proof.
  unfold format_fallback. destruct (is_empty l && PrimFloat.ltb 0 d); [|exact I].
  apply no_key_or_zero_error_bind; [apply get_errors|]. intros format _.
  apply no_key_or_zero_error_bind; [apply get_errors|]. intros format_bit_rate _.
  destruct (Json.truthy format_bit_rate); [|exact I].
  pose proof (py_int_errors format_bit_rate) as Hi.
  pose proof (print_errors format_bit_rate) as Hp.
  destruct (Console.print format_bit_rate) as [[]|[]]; cbn [bind];
    try exact Hp; try exact I;
    destruct (py_int int_of_str format_bit_rate) as [n|[]]; exact Hi || exact I.
Qed.

Lemma read_report_errors (metadata : json) :
  no_key_or_zero_error (read_report float_of_str int_of_str metadata).
Proof.
  unfold read_report.
  apply no_key_or_zero_error_bind; [apply contains_errors|]. intros has_format Hf.
  destruct has_format.
  - apply no_key_or_zero_error_bind.
    { apply no_key_or_zero_error_bind; [apply subscript_errors; exact Hf|].
      intros format _. apply contains_errors. }
    intros has_duration Hd. destruct has_duration; [|exact I].
    destruct (Json.subscript metadata "format") as [format|e] eqn:Ef;
      [|cbn [bind] in Hd; discriminate].
    cbn [bind] in Hd |- *.
    apply no_key_or_zero_error_bind; [apply subscript_errors; exact Hd|]. intros duration _.
    apply no_key_or_zero_error_bind; [apply py_float_errors|]. intros total _.
    apply no_key_or_zero_error_bind; [apply per_stream_bitrates_errors|]. intros l _.
    apply no_key_or_zero_error_bind; [apply format_fallback_errors|]. intros l' _.
    exact I.
  - cbn [bind]. exact I.
Qed.

Lemma get_video_metadata_errors (w : World) (path : string) :
  no_key_or_zero_error (get_video_metadata float_of_str int_of_str w path).
Proof.
  unfold get_video_metadata. destruct (negb (path_exists w path)); [exact I|].
  destruct (run_ffprobe w path) as [stderr| | |metadata|[]]; try exact I.
  apply read_report_errors.
Qed.

End AdapterErrors.

(** X4: whatever the probe reports and whatever the target, neither a
    missing key nor a zero divisor escapes [calculate_segment_duration]:
    it never raises [KeyError] or [ZeroDivisionError]. *)
Theorem no_key_or_zero_division_error
    (float_of_str : string -> option float) (int_of_str : string -> option Z)
    (w : World) (path : string) (target : Py.number) :
  calculate_segment_duration float_of_str int_of_str w path target <> Raise KeyError
  /\ calculate_segment_duration float_of_str int_of_str w path target
     <> Raise ZeroDivisionError.
Proof.
  assert (H : no_key_or_zero_error
                (calculate_segment_duration float_of_str int_of_str w path target)).
  { unfold calculate_segment_duration.
    apply no_key_or_zero_error_bind; [apply get_video_metadata_errors|].
    intros md _. apply estimate_segments_errors. }
  split; intros E; rewrite E in H; exact H.
Qed.

(** ** A duration that is not a number *)

(** X5: a NaN duration is not caught by the duration guard ([nan <= 0] is
    false): the run never ends in the duration error nor in an estimate,
    and once the segment duration has passed its own guard [math.ceil]
    raises [ValueError]. *)
Theorem nan_duration_slips_past_guard (md : VideoMetadata) (target : Py.number)
    (d : float) :
  error_truthy (error md) = false ->
  total_duration_sec md = Py.Float d ->
  Prim2SF d = S754_nan ->
  estimate_segments md target <> Return (EstimateError err_duration)
  /\ (forall m s d' n, estimate_segments md target <> Return (Estimate m s d' n))
  /\ (forall m s,
        stream_bitrates_bps md <> [] ->
        0 < sum (stream_bitrates_bps md) ->
        Py.int_true_divide (sum (stream_bitrates_bps md)) 1000000 = Return m ->
        Py.div_float (Py.times8 target) m = Return s ->
        PrimFloat.leb s 0 = false ->
        estimate_segments md target = Raise ValueError).
Proof.
  intros He Hd Hnan.
  assert (Hle : Py.le0 (total_duration_sec md) = false).
  { rewrite Hd. cbn [Py.le0]. destruct (PrimFloat.leb d 0) eqn:E; [|reflexivity].
    apply leb_0_iff in E. rewrite Hnan in E. contradiction. }
  split; [|split].
  - unfold estimate_segments. rewrite He, Hle.
    destruct (stream_bitrates_bps md) as [|b l]; [discriminate|].
    destruct (sum (b :: l) <=? 0); [discriminate|].
    destruct (Py.int_true_divide _ _) as [m|]; [|discriminate]. cbn [bind].
    destruct (Py.div_float _ m) as [s|]; [|discriminate]. cbn [bind].
    destruct (PrimFloat.leb s 0); [discriminate|].
    destruct (Py.div_float _ s) as [q|]; [|discriminate]. cbn [bind].
    destruct (Py.ceil q); discriminate.
  - intros m s d' n H.
    destruct (estimate_inversion md target m s d' n H)
      as (_ & _ & _ & _ & _ & _ & Hs & _ & dur & Hdur & Hc).
    rewrite Hd in Hdur. cbn [Py.to_float] in Hdur.
    assert (dur = d) as -> by congruence.
    destruct (ceil_of_quotient d s n (or_introl Hnan) (not_leb0 s Hs) Hc)
      as ((md' & ed & HD) & _). congruence.
  - intros m s Hne Hsum Hm Hs Hleb. unfold estimate_segments. rewrite He, Hle.
    destruct (stream_bitrates_bps md) as [|b l]; [contradiction|].
    destruct (Z.leb_spec (sum (b :: l)) 0); [lia|].
    rewrite Hm. cbn [bind]. rewrite Hs. cbn [bind]. rewrite Hleb.
    rewrite Hd. unfold Py.div_float. cbn [Py.to_float bind]. unfold Py.float_divide.
    rewrite (leb_false_eqb_false s Hleb). cbn [bind].
    unfold Py.ceil. rewrite div_spec, Hnan. reflexivity.
Qed.

(** One hour that is not a number. *)
Definition nan_at_5mbps : VideoMetadata :=
  {| total_duration_sec := Py.Float nan; stream_bitrates_bps := [5000000];
     error := None |}.

Lemma nan_duration_slips_past_guard_witness :
  estimate_segments nan_at_5mbps (Py.Int 22) = Raise ValueError.
Proof.
  apply (proj2 (proj2 (nan_duration_slips_past_guard nan_at_5mbps (Py.Int 22) nan
                         eq_refl eq_refl eq_refl)) 5%float 35.2%float).
  - discriminate.
  - reflexivity.
  - vm_compute; reflexivity.
  - vm_compute; reflexivity.
  - reflexivity.
Defined.

(** ** The order of the streams *)

Lemma fold_left_add (l : list Z) (a : Z) : fold_left Z.add l a = a + fold_left Z.add l 0.
Proof.
  revert a. induction l as [|x l IH]; intros a; cbn [fold_left]; [lia|].
  rewrite (IH (a + x)), (IH (0 + x)). lia.
Qed.

Lemma sum_cons (x : Z) (l : list Z) : sum (x :: l) = x + sum l.
Proof. unfold sum. cbn [fold_left]. rewrite fold_left_add. lia. Qed.

Lemma sum_permutation (l l' : list Z) : Permutation l l' -> sum l = sum l'.
Proof.
  induction 1 as [|x l l' _ IH|x y l|l l' l'' _ IH1 _ IH2].
  - reflexivity.
  - rewrite !sum_cons, IH. reflexivity.
  - rewrite !sum_cons. lia.
  - congruence.
Qed.

(** The estimator reads the bit rates through whether there is one and
    through their sum. *)
Lemma estimate_by_sum (d : Py.number) (l l' : list Z) (e : option string)
    (target : Py.number) :
  (l = [] <-> l' = []) -> sum l = sum l' ->
  estimate_segments {| total_duration_sec := d; stream_bitrates_bps := l; error := e |}
                    target
  = estimate_segments {| total_duration_sec := d; stream_bitrates_bps := l'; error := e |}
                      target.
Proof.
  intros Hnil Hsum. unfold estimate_segments.
  cbn [error total_duration_sec stream_bitrates_bps].
  destruct (error_truthy e); [reflexivity|]. destruct (Py.le0 d); [reflexivity|].
  destruct l as [|b l]; destruct l' as [|b' l'].
  - reflexivity.
  - destruct Hnil as [Hn _]. specialize (Hn eq_refl). discriminate.
  - destruct Hnil as [_ Hn]. specialize (Hn eq_refl). discriminate.
  - rewrite Hsum. reflexivity.
Qed.

(** X6: the result does not depend on the order in which the streams are
    listed. *)
Theorem stream_order_is_irrelevant (d : Py.number) (l l' : list Z) (e : option string)
    (target : Py.number) :
  Permutation l l' ->
  estimate_segments {| total_duration_sec := d; stream_bitrates_bps := l; error := e |}
                    target
  = estimate_segments {| total_duration_sec := d; stream_bitrates_bps := l'; error := e |}
                      target.
Proof.
  intros HP. apply estimate_by_sum; [|apply sum_permutation; exact HP].
  split; intros ->.
  - apply Permutation_nil. exact HP.
  - apply Permutation_nil. apply Permutation_sym. exact HP.
Qed.

Lemma stream_order_is_irrelevant_witness :
  estimate_segments
    {| total_duration_sec := Py.Float 100; stream_bitrates_bps := [2000000; 128000];
       error := None |} (Py.Int 22)
  = estimate_segments
      {| total_duration_sec := Py.Float 100; stream_bitrates_bps := [128000; 2000000];
         error := None |} (Py.Int 22).
Proof.
  apply (stream_order_is_irrelevant (Py.Float 100) [2000000; 128000] [128000; 2000000]).
  apply perm_swap.
Defined.

(** ** Longer clips, faster streams *)

Lemma positive_not_nonpositive (x : spec_float) :
  positive_or_inf x -> nonpositive x -> False.
Proof. destruct x as [z|z| |z m e]; cbn; intros H1 H2; congruence || contradiction. Qed.

(** A returned count, with the floats behind it. *)
Lemma estimate_floats (md : VideoMetadata) (target : Py.number)
    (m s : float) (d : Py.number) (n : Z) :
  estimate_segments md target = Return (Estimate m s d n) ->
  exists mm em x dur md' ed,
    0 < sum (stream_bitrates_bps md)
    /\ Py.le0 (total_duration_sec md) = false
    /\ Py.int_true_divide (sum (stream_bitrates_bps md)) 1000000 = Return m
    /\ Prim2SF m = S754_finite false mm em
    /\ Py.to_float (Py.times8 target) = Return x
    /\ s = (x / m)%float
    /\ positive_or_inf (Prim2SF x)
    /\ positive_or_inf (Prim2SF s)
    /\ Py.to_float (total_duration_sec md) = Return dur
    /\ Prim2SF dur = S754_finite false md' ed
    /\ Py.SFceil (SFdiv prec emax (Prim2SF dur) (Prim2SF s)) = Return n.
Proof.
  intros H.
  destruct (estimate_inversion md target m s d n H)
    as (_ & Hd & _ & Hsum & Hm & (x & Hx & Es) & Hle & _ & dur & Hdur & Hc).
  destruct (mbps_positive _ _ Hsum Hm) as (mm & em & HM).
  destruct (ceil_of_quotient dur s n (not_le0_float _ _ Hd Hdur) (not_leb0 s Hle) Hc)
    as ((md' & ed & HD) & Hs & _).
  exists mm, em, x, dur, md', ed.
  split; [exact Hsum|]. split; [exact Hd|]. split; [exact Hm|]. split; [exact HM|].
  split; [exact Hx|]. split; [exact Es|]. split.
  - pose proof Hs as Hs'. rewrite Es, div_spec, HM in Hs'. unfold SF64div in Hs'.
    destruct (SFdiv_positive_sign (Prim2SF x) mm em) as [_ Hneg].
    destruct (Prim2SF x) as [z|[|]| |[|] mx ex] eqn:EX; try reflexivity; exfalso;
      apply (positive_not_nonpositive _ Hs'); apply Hneg; cbn; auto.
  - split; [exact Hs|]. split; [exact Hdur|]. split; [exact HD|].
    unfold Py.ceil in Hc. rewrite div_spec in Hc. exact Hc.
Qed.

(** X7: with the same streams and target, a longer clip is not given fewer
    segments. *)
Theorem longer_clip_more_segments (dur dur' : Py.number) (l : list Z) (e : option string)
    (target : Py.number) (m s m' s' : float) (d d' : Py.number) (n n' : Z) :
  target_le dur dur' ->
  estimate_segments {| total_duration_sec := dur; stream_bitrates_bps := l; error := e |}
                    target = Return (Estimate m s d n) ->
  estimate_segments {| total_duration_sec := dur'; stream_bitrates_bps := l; error := e |}
                    target = Return (Estimate m' s' d' n') ->
  n <= n'.
Proof.
  intros Hle R R'.
  destruct (estimate_floats _ _ _ _ _ _ R)
    as (mm & em & x & D & md1 & ed1 & _ & Hd & Hm & HM & Hx & Es & _ & Hs & HD & ED & Hc).
  destruct (estimate_floats _ _ _ _ _ _ R')
    as (mm' & em' & x' & D' & md2 & ed2 & _ & Hd' & Hm' & _ & Hx' & Es' & _ & _ & HD' & ED'
        & Hc').
  cbn [total_duration_sec stream_bitrates_bps] in *.
  assert (m' = m) by congruence. assert (x' = x) by congruence. subst m' x'.
  assert (Ess : s' = s) by congruence. clear Es'. subst s'. clear Es.
  assert (HDD : fle (Prim2SF D) (Prim2SF D')).
  { destruct dur as [k|y]; destruct dur' as [k'|y']; cbn [target_le] in Hle;
      cbn [Py.to_float Py.le0] in *.
    - apply Z.leb_gt in Hd. apply (float_of_int_mono k k'); [lia|assumption..].
    - apply Z.leb_gt in Hd. assert (D' = y') by congruence. subst D'.
      destruct k as [|p|p]; try lia.
      pose proof (float_of_int_rounds p D HD) as RD.
      pose proof (Prim2SF_valid y') as V'. rewrite ED' in Hle, V' |- *.
      cbn [Py.int_le_float] in Hle. apply scaled_leb_ple in Hle.
      exact (rounds_mono _ _ _ _ _ _ RD (valid_rounds md2 ed2 V') Hle).
    - assert (D = y) by congruence. subst D.
      pose proof (Prim2SF_valid y) as V.
      destruct (float_le_int_positive (Prim2SF y) k') as (m0 & e0 & E & Hv & Hk);
        [rewrite ED; reflexivity|exact Hle|].
      rewrite E in V |- *. destruct k' as [|p|p]; try lia.
      pose proof (float_of_int_rounds p D' HD') as RD'.
      exact (rounds_mono _ _ _ _ _ _ (valid_rounds m0 e0 V) RD' Hv).
    - assert (D = y) by congruence. assert (D' = y') by congruence. subst D D'.
      apply SFleb_fle; [rewrite ED; reflexivity|]. rewrite <- leb_spec. exact Hle. }
  pose proof (Prim2SF_valid (D / s)) as V. pose proof (Prim2SF_valid (D' / s)) as V'.
  rewrite div_spec in V, V'. unfold SF64div in V, V'.
  apply (SFceil_mono _ _ n n' V V'); [|exact Hc|exact Hc'].
  destruct (Prim2SF s) as [z|[|]| |[|] ms es] eqn:ES; cbn [positive_or_inf] in Hs;
    try contradiction; try discriminate.
  - rewrite ED, ED'. exact I.
  - apply SFdiv_mono; try apply Prim2SF_valid. exact HDD.
Qed.

Lemma longer_clip_more_segments_witness : 103 <= 205.
Proof.
  apply (longer_clip_more_segments (Py.Float 3600) (Py.Float 7200) [5000000] None
           (Py.Int 22) 5 35.2 5 35.2 (Py.Float 3600) (Py.Float 7200)).
  - reflexivity.
  - vm_compute; reflexivity.
  - vm_compute; reflexivity.
Defined.

(** [a / b] on ints grows with [a]. *)
Lemma int_true_divide_mono (a a' b : Z) (m m' : float) :
  0 < a <= a' -> 0 < b ->
  Py.int_true_divide a b = Return m -> Py.int_true_divide a' b = Return m' ->
  fle (Prim2SF m) (Prim2SF m').
Proof.
  intros Ha Hb. unfold Py.int_true_divide.
  destruct (Z.eqb_spec b 0); [lia|].
  destruct a as [|pa|pa]; try lia. destruct a' as [|pa'|pa']; try lia.
  destruct b as [|pb|pb]; try lia. cbn [Py.raw_of_int].
  destruct (SFdiv_finite false false pa pb 0 0) as (V & _).
  destruct (SFdiv_finite false false pa' pb 0 0) as (V' & _).
  cbv zeta in V, V'.
  assert (HR : fle (SFdiv prec emax (S754_finite false pa 0) (S754_finite false pb 0))
                   (SFdiv prec emax (S754_finite false pa' 0) (S754_finite false pb 0))).
  { destruct (SFdiv_rounded false false pa pb 0 0) as (Hs & Hq & Hr & He & Hdm & ->).
    destruct (SFdiv_rounded false false pa' pb 0 0) as (Hs' & Hq' & Hr' & He' & Hdm' & ->).
    cbn [xorb]. apply rounded_mono; try assumption.
    eapply vle_div; try eassumption; try lia.
    match goal with |- ple _ ?i _ ?j =>
      replace i with 0 by lia; replace j with 0 by lia end.
    unfold ple. cbn. lia. }
  destruct (SFdiv prec emax (S754_finite false pa 0) (S754_finite false pb 0))
    as [z|z| |z q eq] eqn:E; try discriminate;
    destruct (SFdiv prec emax (S754_finite false pa' 0) (S754_finite false pb 0))
      as [z'|z'| |z' q' eq'] eqn:E'; try discriminate;
    intros H H';
    match type of H with Return (SF2Prim ?r) = _ =>
      assert (Em : m = SF2Prim r) by congruence end;
    match type of H' with Return (SF2Prim ?r) = _ =>
      assert (Em' : m' = SF2Prim r) by congruence end;
    rewrite Em, Em', !Prim2SF_SF2Prim by assumption; exact HR.
Qed.

(** X8: with the same clip and target, a higher total bit rate gives a
    megabit rate at least as high, a segment duration at most as long and a
    count at least as large. *)
Theorem faster_stream_more_segments (dur : Py.number) (l l' : list Z) (e : option string)
    (target : Py.number) (m s m' s' : float) (d d' : Py.number) (n n' : Z) :
  sum l <= sum l' ->
  estimate_segments {| total_duration_sec := dur; stream_bitrates_bps := l; error := e |}
                    target = Return (Estimate m s d n) ->
  estimate_segments {| total_duration_sec := dur; stream_bitrates_bps := l'; error := e |}
                    target = Return (Estimate m' s' d' n') ->
  PrimFloat.leb m m' = true /\ PrimFloat.leb s' s = true /\ n <= n'.
Proof.
  intros Hle R R'.
  destruct (estimate_floats _ _ _ _ _ _ R)
    as (mm & em & x & D & md1 & ed1 & Hsum & _ & Hm & HM & Hx & Es & HX & Hs & HD & ED & Hc).
  destruct (estimate_floats _ _ _ _ _ _ R')
    as (mm' & em' & x' & D' & md2 & ed2 & _ & _ & Hm' & HM' & Hx' & Es' & _ & Hs' & HD' & _
        & Hc').
  cbn [total_duration_sec stream_bitrates_bps] in *.
  assert (x' = x) by congruence. assert (D' = D) by congruence. subst x' D'.
  pose proof (int_true_divide_mono _ _ 1000000 m m' (conj Hsum Hle) eq_refl Hm Hm') as HMM.
  assert (HSS : fle (Prim2SF s') (Prim2SF s)).
  { rewrite Es, Es', !div_spec. unfold SF64div.
    destruct (Prim2SF x) as [z|[|]| |[|] mx ex] eqn:EX; cbn [positive_or_inf] in HX;
      try contradiction; try discriminate.
    - rewrite HM, HM'. exact I.
    - apply SFdiv_antitone; try apply Prim2SF_valid; [rewrite HM; reflexivity|exact HMM]. }
  split; [rewrite leb_spec; apply fle_SFleb; exact HMM|].
  split; [rewrite leb_spec; apply fle_SFleb; exact HSS|].
  pose proof (Prim2SF_valid (D / s)) as V. pose proof (Prim2SF_valid (D / s')) as V'.
  rewrite div_spec in V, V'. unfold SF64div in V, V'.
  apply (SFceil_mono _ _ n n' V V'); [|exact Hc|exact Hc'].
  rewrite ED. apply SFdiv_antitone; try apply Prim2SF_valid; assumption.
Qed.

Lemma faster_stream_more_segments_witness :
  PrimFloat.leb 2 5 = true /\ PrimFloat.leb 35.2 88 = true /\ 41 <= 103.
Proof.
  apply (faster_stream_more_segments (Py.Float 3600) [2000000] [5000000] None
           (Py.Int 22) 2 88 5 35.2 (Py.Float 3600) (Py.Float 3600)).
  - vm_compute; discriminate.
  - vm_compute; reflexivity.
  - vm_compute; reflexivity.
Defined.

(** ** What a successful probe went through *)

Section ProbeFacts.

Variable float_of_str : string -> option float.
Variable int_of_str : string -> option Z.

Lemma probe_success (w : World) (path : string) (md : VideoMetadata) :
  get_video_metadata float_of_str int_of_str w path = Return md ->
  error md = None ->
  path_exists w path = true
  /\ exists metadata format duration x l,
       run_ffprobe w path = Loaded metadata
       /\ Json.subscript metadata "format" = Return format
       /\ Json.subscript format "duration" = Return duration
       /\ py_float float_of_str duration = Return x
       /\ per_stream_bitrates int_of_str metadata = Return l
       /\ format_fallback int_of_str metadata l x = Return (stream_bitrates_bps md)
       /\ total_duration_sec md = Py.Float x.
Proof.
  unfold get_video_metadata.
  destruct (path_exists w path); cbn [negb]; [|intros H; injection H as <-; discriminate].
  destruct (run_ffprobe w path) as [stderr| | |metadata|failure];
    try (intros H; injection H as <-; discriminate); [|discriminate].
  intros H Herr. split; [reflexivity|]. exists metadata.
  unfold read_report in H.
  destruct (Json.contains "format" metadata) as [[|]|]; cbn [bind] in H;
    try discriminate; [|injection H as <-; discriminate].
  destruct (Json.subscript metadata "format") as [format|] eqn:E1; cbn [bind] in H;
    [|discriminate].
  destruct (Json.contains "duration" format) as [[|]|]; cbn [bind] in H;
    try discriminate; [|injection H as <-; discriminate].
  destruct (Json.subscript format "duration") as [duration|] eqn:E2; cbn [bind] in H;
    [|discriminate].
  destruct (py_float float_of_str duration) as [x|] eqn:E3; cbn [bind] in H;
    [|discriminate].
  destruct (per_stream_bitrates int_of_str metadata) as [l|] eqn:E4; cbn [bind] in H;
    [|discriminate].
  destruct (format_fallback int_of_str metadata l x) as [l'|] eqn:Ef; cbn [bind] in H;
    [|discriminate].
  injection H as <-. exists format, duration, x, l. cbn.
  repeat split; assumption || reflexivity.
Qed.

(** ** One entry per stream *)

Lemma collect_bitrates_length (items : list json) (acc l : list Z) :
  collect_bitrates int_of_str items acc = Return l ->
  List.length l = (List.length acc + List.length items)%nat.
Proof.
  revert acc. induction items as [|stream rest IH]; intros acc; cbn [collect_bitrates].
  - intros H. injection H as <-. cbn. lia.
  - destruct (Json.get stream "bit_rate" (JStr "0")) as [bit_rate|]; cbn [bind];
      [|discriminate].
    destruct (py_int int_of_str _) as [n|[]]; try discriminate;
      try (destruct (Json.get stream "bit_rate" JNull) as [raw|]; cbn [bind];
           [|discriminate];
           destruct (Console.print raw) as [[]|]; cbn [bind]; [|discriminate]);
      intros H; apply IH in H; rewrite H, List.length_app; cbn; lia.
Qed.

(** X9: when the probe returns metadata without an error for a report that
    lists at least one stream, the bit-rate list has one entry per stream. *)
Theorem one_bitrate_per_stream (w : World) (path : string) (md : VideoMetadata)
    (metadata : json) (items : list json) :
  get_video_metadata float_of_str int_of_str w path = Return md ->
  error md = None ->
  run_ffprobe w path = Loaded metadata ->
  Json.subscript metadata "streams" = Return (JList items) ->
  items <> [] ->
  List.length (stream_bitrates_bps md) = List.length items.
Proof.
  intros Hget Herr Hrun Hstreams Hne.
  destruct (probe_success w path md Hget Herr)
    as (_ & metadata' & format & duration & x & l & Hrun' & _ & _ & _ & Hl & Hf & _).
  assert (metadata' = metadata) by congruence. subst metadata'.
  unfold per_stream_bitrates in Hl.
  rewrite (subscript_contains _ _ _ Hstreams) in Hl. cbn [bind] in Hl.
  rewrite Hstreams in Hl. cbn [bind Json.iterate] in Hl.
  apply collect_bitrates_length in Hl. cbn [List.length] in Hl.
  unfold format_fallback in Hf.
  destruct l as [|b l]; [destruct items; [contradiction|discriminate]|].
  cbn [is_empty andb] in Hf. injection Hf as <-. exact Hl.
Qed.

End ProbeFacts.

(** [{"format": {"duration": "100.000000"},
      "streams": [{"bit_rate": "2000000"}, {"bit_rate": "128000"}]}] *)
Definition report_two_streams : json :=
  JDict [("format", JDict [("duration", JStr "100.000000")]);
         ("streams", JList [JDict [("bit_rate", JStr "2000000")];
                            JDict [("bit_rate", JStr "128000")]])].

Lemma one_bitrate_per_stream_witness :
  List.length [2000000; 128000] = 2%nat.
Proof.
  apply (one_bitrate_per_stream Decimal.float_of_str Decimal.int_of_str
           (world_of (Loaded report_two_streams)) "clip.mp4"
           {| total_duration_sec := Py.Float 100; stream_bitrates_bps := [2000000; 128000];
              error := None |}
           report_two_streams
           [JDict [("bit_rate", JStr "2000000")]; JDict [("bit_rate", JStr "128000")]]).
  - vm_compute; reflexivity.
  - reflexivity.
  - reflexivity.
  - reflexivity.
  - discriminate.
Defined.

(** ** Reports of the shape [ffprobe] prints *)


(** A dict with no bit rate, or the sentinel for an unknown one. *)
Definition unknown_bit_rate (v : json) : bool :=
  match v with
  | JDict fields =>
      match Json.lookup "bit_rate" fields with
      | None => true
      | Some b => Json.is_str "N/A" b
      end
  | _ => false
  end.

Section Reports.

Variable float_of_str : string -> option float.
Variable int_of_str : string -> option Z.



Lemma collect_bitrates_unknown (items : list json) (acc : list Z) :
  int_of_str "0" = Some 0 ->
  forallb unknown_bit_rate items = true ->
  collect_bitrates int_of_str items acc
  = Return (acc ++ repeat 0 (List.length items))%list.
Proof.
  intros H0. revert acc.
  induction items as [|stream rest IH]; intros acc; cbn [forallb collect_bitrates].
  - intros _. cbn. rewrite app_nil_r. reflexivity.
  - intros H. apply andb_true_iff in H. destruct H as [Hs Hrest].
    destruct stream as [| | | | | |fields]; try discriminate.
    cbn [unknown_bit_rate] in Hs. cbn [Json.get bind].
    assert (E : (if Json.is_str "N/A"
                      match Json.lookup "bit_rate" fields with
                      | Some x => x
                      | None => JStr "0"
                      end
                 then JStr "0"
                 else match Json.lookup "bit_rate" fields with
                      | Some x => x
                      | None => JStr "0"
                      end) = JStr "0").
    { destruct (Json.lookup "bit_rate" fields) as [b|]; [rewrite Hs|]; reflexivity. }
    rewrite E. cbn [py_int]. rewrite H0. rewrite (IH _ Hrest).
    cbn [List.length repeat]. rewrite <- app_assoc. reflexivity.
Qed.

Lemma sum_repeat_0 (n : nat) : sum (repeat 0 n) = 0.
Proof. induction n as [|n IH]; [reflexivity|]. cbn [repeat]. rewrite sum_cons, IH. lia. Qed.

(** X11: when every stream of the report has no bit rate or the sentinel
    N/A, each counts as 0: the list is not empty, so the format's bit rate
    is not consulted, and for a positive duration the estimator reports a
    zero total bit rate, whatever the format's bit rate and the target. *)
Theorem unknown_stream_bitrates_hide_format (w : World) (path : string)
    (fields : list (string * json)) (format : json) (ds : string) (x : float)
    (items : list json) (target : Py.number) :
  int_of_str "0" = Some 0 ->
  path_exists w path = true ->
  run_ffprobe w path = Loaded (JDict fields) ->
  Json.lookup "format" fields = Some format ->
  Json.subscript format "duration" = Return (JStr ds) ->
  float_of_str ds = Some x ->
  PrimFloat.ltb 0 x = true ->
  Json.lookup "streams" fields = Some (JList items) ->
  items <> [] ->
  forallb unknown_bit_rate items = true ->
  get_video_metadata float_of_str int_of_str w path
  = Return {| total_duration_sec := Py.Float x;
              stream_bitrates_bps := repeat 0 (List.length items);
              error := None |}
  /\ calculate_segment_duration float_of_str int_of_str w path target
     = Return (EstimateError err_total_bitrate).
Proof.
  intros H0 Hex Hrun Hformat Hdur Hx Hpos Hstreams Hne Hunk.
  assert (Hget : get_video_metadata float_of_str int_of_str w path
                 = Return {| total_duration_sec := Py.Float x;
                             stream_bitrates_bps := repeat 0 (List.length items);
                             error := None |}).
  { unfold get_video_metadata. rewrite Hex, Hrun. cbn [negb].
    unfold read_report. cbn [Json.contains Json.subscript]. rewrite Hformat. cbn [bind].
    rewrite (subscript_contains _ _ _ Hdur). cbn [bind]. rewrite Hdur. cbn [bind py_float].
    rewrite Hx. cbn [bind].
    unfold per_stream_bitrates. cbn [Json.contains Json.subscript]. rewrite Hstreams.
    cbn [bind Json.iterate]. rewrite (collect_bitrates_unknown items [] H0 Hunk).
    cbn [app bind]. unfold format_fallback.
    destruct items as [|i items']; [contradiction|]. reflexivity. }
  split; [exact Hget|].
  unfold calculate_segment_duration. rewrite Hget. cbn [bind].
  unfold estimate_segments. cbn [error error_truthy total_duration_sec stream_bitrates_bps].
  rewrite (gt0_not_le0 (Py.Float x) Hpos).
  destruct items as [|i items']; [contradiction|]. cbn [List.length repeat].
  rewrite sum_cons, sum_repeat_0. reflexivity.
Qed.

(** X12: an estimate is returned only for an existing file whose probe ran
    and whose report was read: the duration it carries is the positive
    float parsed from the report. *)
Theorem estimate_needs_a_report (w : World) (path : string) (target : Py.number)
    (m s : float) (d : Py.number) (n : Z) :
  calculate_segment_duration float_of_str int_of_str w path target
  = Return (Estimate m s d n) ->
  path_exists w path = true
  /\ exists metadata format duration x,
       run_ffprobe w path = Loaded metadata
       /\ Json.subscript metadata "format" = Return format
       /\ Json.subscript format "duration" = Return duration
       /\ py_float float_of_str duration = Return x
       /\ d = Py.Float x
       /\ PrimFloat.ltb 0 x = true.
Proof.
  unfold calculate_segment_duration.
  destruct (get_video_metadata float_of_str int_of_str w path) as [md|] eqn:Hget;
    cbn [bind]; [|discriminate].
  intros H.
  destruct (estimate_inversion md target m s d n H) as (He & _ & _ & _ & _ & _ & _ & Ed & _).
  assert (Herr : error md = None).
  { destruct (adapter_error_shape _ _ _ _ _ Hget) as [Hn|(msg & Hmsg & ->)]; [exact Hn|].
    cbn [placeholder error error_truthy] in He.
    destruct (String.eqb_spec msg ""); [contradiction|discriminate]. }
  destruct (probe_success float_of_str int_of_str w path md Hget Herr)
    as (Hex & metadata & format & duration & x & l & Hrun & Hf & Hd & Hx & _ & _ & Hdur).
  split; [exact Hex|]. exists metadata, format, duration, x.
  repeat split; try assumption.
  - congruence.
  - destruct (estimate_floats md target m s d n H)
      as (mm & em & x0 & D & md' & ed & _ & _ & _ & _ & _ & _ & _ & _ & HD & ED & _).
    rewrite Hdur in HD. cbn [Py.to_float] in HD. assert (D = x) as -> by congruence.
    apply ltb_0_iff. rewrite ED. reflexivity.
Qed.

End Reports.


(** The string of one lone surrogate, U+D800. *)
Definition lone_surrogate : string :=
  String (ascii_of_N 237) (String (ascii_of_N 160) (String (ascii_of_N 128) EmptyString)).

(** [{"format": {"duration": "100.000000"},
      "streams": [{"bit_rate": "\ud800"}]}] *)
Definition report_unencodable_stream : json :=
  JDict [("format", JDict [("duration", JStr "100.000000")]);
         ("streams", JList [JDict [("bit_rate", JStr lone_surrogate)]])].

(** [{"format": {"duration": "100.000000", "bit_rate": "\ud800"},
      "streams": []}] *)
Definition report_unencodable_format : json :=
  JDict [("format", JDict [("duration", JStr "100.000000");
                           ("bit_rate", JStr lone_surrogate)]);
         ("streams", JList [])].

(** A bit rate that [int] rejects is quoted in a warning; when the console
    cannot encode it, the [print] in the handler raises and the exception
    leaves the probe. *)
Example unencodable_bit_rate_escapes :
  probe (world_of (Loaded report_unencodable_stream)) "clip.mp4"
  = Raise UnicodeEncodeError
  /\ probe (world_of (Loaded report_unencodable_format)) "clip.mp4"
     = Raise UnicodeEncodeError.
Proof. split; vm_compute; reflexivity. Qed.

(** [{"format": {"duration": "100.000000", "bit_rate": "2128000"},
      "streams": [{"codec_type": "video", "bit_rate": "N/A"}, {}]}] *)
Definition report_unknown_streams : json :=
  JDict [("format", JDict [("duration", JStr "100.000000");
                           ("bit_rate", JStr "2128000")]);
         ("streams", JList [JDict [("codec_type", JStr "video");
                                   ("bit_rate", JStr "N/A")];
                            JDict []])].

Lemma unknown_stream_bitrates_hide_format_witness :
  probe (world_of (Loaded report_unknown_streams)) "clip.mp4"
  = Return {| total_duration_sec := Py.Float 100; stream_bitrates_bps := [0; 0];
              error := None |}
  /\ calculate_segment_duration Decimal.float_of_str Decimal.int_of_str
       (world_of (Loaded report_unknown_streams)) "clip.mp4" (Py.Int 22)
     = Return (EstimateError err_total_bitrate).
Proof.
  apply (unknown_stream_bitrates_hide_format Decimal.float_of_str Decimal.int_of_str
           (world_of (Loaded report_unknown_streams)) "clip.mp4"
           [("format", JDict [("duration", JStr "100.000000");
                              ("bit_rate", JStr "2128000")]);
            ("streams", JList [JDict [("codec_type", JStr "video");
                                      ("bit_rate", JStr "N/A")];
                               JDict []])]
           (JDict [("duration", JStr "100.000000"); ("bit_rate", JStr "2128000")])
           "100.000000" 100%float
           [JDict [("codec_type", JStr "video"); ("bit_rate", JStr "N/A")]; JDict []]
           (Py.Int 22));
    try reflexivity.
  discriminate.
Defined.

Lemma estimate_needs_a_report_witness :
  path_exists (world_of (Loaded report_format_only)) "clip.mp4" = true
  /\ exists metadata format duration x,
       run_ffprobe (world_of (Loaded report_format_only)) "clip.mp4" = Loaded metadata
       /\ Json.subscript metadata "format" = Return format
       /\ Json.subscript format "duration" = Return duration
       /\ py_float Decimal.float_of_str duration = Return x
       /\ Py.Float 3600 = Py.Float x
       /\ PrimFloat.ltb 0 x = true.
Proof.
  apply (estimate_needs_a_report Decimal.float_of_str Decimal.int_of_str
           (world_of (Loaded report_format_only)) "clip.mp4" (Py.Int 22)
           5 35.2 (Py.Float 3600) 103).
  vm_compute; reflexivity.
Defined.

(** ** [install_ffmpeg] *)

(** The commands of a full installation, in order. *)
Definition install_script (use_sudo : bool) : list Script.command :=
  [Script.ffmpeg_version;
   Script.with_sudo use_sudo Script.apt_get_update;
   Script.with_sudo use_sudo Script.apt_get_install;
   Script.ffmpeg_version].

Section Install.

Variable decode : string -> option string.
Variable sys : Script.System.

Ltac step_install :=
  unfold Script.install_ffmpeg, Script.io_bind, Script.lift, Script.run, Script.ret,
    Script.install_failed.

(** Every way through [install_ffmpeg], with the exits that lead there. *)
Ltac install_cases :=
  step_install;
  repeat (repeat rewrite <- app_assoc in *; cbn [app fst snd] in *;
          match goal with
          | |- context [Script.execute sys ?t ?c] =>
              let E := fresh "E" in destruct (Script.execute sys t c) eqn:E
          | |- context [Script.stderr_text decode ?c] =>
              let E := fresh "D" in destruct (Script.stderr_text decode c) eqn:E
          end);
  repeat rewrite <- app_assoc in *; cbn [app fst snd] in *.

(** X13: the commands [install_ffmpeg] runs are the first [k] of the
    script, with [sudo] on both [apt-get] commands or on neither: the
    package lists are updated only after [ffmpeg -version] has failed, the
    package is installed only after the update has succeeded, and the check
    is repeated only after the installation has. *)
Theorem install_ffmpeg_follows_script (t : list Script.command) (s : bool) :
  Script.use_sudo sys = Return s ->
  exists k,
    (1 <= k <= 4)%nat
    /\ snd (Script.install_ffmpeg decode sys t) = (t ++ firstn k (install_script s))%list
    /\ ((2 <= k)%nat ->
        forall out, Script.execute sys t Script.ffmpeg_version <> Script.Exit0 out)
    /\ ((3 <= k)%nat ->
        exists out,
          Script.execute sys (t ++ firstn 1 (install_script s))
            (Script.with_sudo s Script.apt_get_update) = Script.Exit0 out)
    /\ ((4 <= k)%nat ->
        exists out,
          Script.execute sys (t ++ firstn 2 (install_script s))
            (Script.with_sudo s Script.apt_get_install) = Script.Exit0 out).
Proof.
  intros Hs. unfold install_script. cbn [firstn]. step_install. rewrite Hs.
  install_cases;
    first [ exists 1%nat; split; [lia|]; split; [reflexivity|];
            split; [lia|]; split; lia
          | exists 2%nat; split; [lia|]; split; [reflexivity|];
            split; [intros _ out; congruence|]; split; lia
          | exists 3%nat; split; [lia|]; split; [reflexivity|];
            split; [intros _ out; congruence|]; split; [intros _; eauto|lia]
          | exists 4%nat; split; [lia|]; split; [reflexivity|];
            split; [intros _ out; congruence|]; split; intros _; eauto ].
Qed.

(** Whatever happens, the commands run so far are kept and at most the
    script is added. *)
Lemma install_ffmpeg_extends (t : list Script.command) :
  exists s k,
    snd (Script.install_ffmpeg decode sys t) = (t ++ firstn k (install_script s))%list.
Proof.
  step_install. destruct (Script.use_sudo sys) as [s|e].
  - exists s. unfold install_script.
    install_cases;
      first [ exists 1%nat; reflexivity | exists 2%nat; reflexivity
            | exists 3%nat; reflexivity | exists 4%nat; reflexivity ].
  - exists true, 0%nat. cbn. rewrite app_nil_r. reflexivity.
Qed.

(** X14: [install_ffmpeg] answers [True] only when the last command it ran
    was [ffmpeg -version] and that command exited with status 0. *)
Theorem install_true_is_verified (t : list Script.command) :
  fst (Script.install_ffmpeg decode sys t) = Return true ->
  exists t0 out,
    snd (Script.install_ffmpeg decode sys t) = (t0 ++ [Script.ffmpeg_version])%list
    /\ Script.execute sys t0 Script.ffmpeg_version = Script.Exit0 out.
Proof.
  step_install. destruct (Script.use_sudo sys) as [s|e]; [|discriminate].
  install_cases; intros H; try discriminate.
  - exists t. eexists. split; [reflexivity|eassumption].
  - eexists. eexists.
    split; [|eassumption]. rewrite <- app_assoc. reflexivity.
  - eexists. eexists.
    split; [|eassumption]. rewrite <- app_assoc. reflexivity.
Qed.

(** X15: when the installation goes through but the check that follows
    fails and has written on stderr, [e.stderr] is a [str] (the check runs
    with [text=True]) and [e.stderr.decode()] raises [AttributeError], which
    leaves [install_ffmpeg]. *)
Theorem failed_check_after_install_raises (t : list Script.command) (s : bool)
    (out1 out2 stderr : string) :
  Script.use_sudo sys = Return s ->
  (forall out, Script.execute sys t Script.ffmpeg_version <> Script.Exit0 out) ->
  Script.execute sys (t ++ firstn 1 (install_script s))
    (Script.with_sudo s Script.apt_get_update) = Script.Exit0 out1 ->
  Script.execute sys (t ++ firstn 2 (install_script s))
    (Script.with_sudo s Script.apt_get_install) = Script.Exit0 out2 ->
  Script.execute sys (t ++ firstn 3 (install_script s)) Script.ffmpeg_version
  = Script.ExitFailure stderr ->
  stderr <> "" ->
  Script.install_ffmpeg decode sys t
  = (Raise AttributeError, (t ++ install_script s)%list).
Proof.
  unfold install_script. cbn [firstn]. intros Hs H0 H1 H2 H3 Hne.
  step_install. rewrite Hs.
  assert (E : (if (stderr =? "")%string then Return "No stderr" else Raise AttributeError)
              = @Raise string AttributeError).
  { destruct (String.eqb_spec stderr ""); [contradiction|reflexivity]. }
  destruct (Script.execute sys t Script.ffmpeg_version) as [o|e|] eqn:E0;
    [exfalso; apply (H0 o); reflexivity| |];
    rewrite H1; repeat rewrite <- app_assoc; cbn [app];
    rewrite H2; repeat rewrite <- app_assoc; cbn [app];
    rewrite H3; cbn [Script.stderr_text]; rewrite E; reflexivity.
Qed.

End Install.

(** ** The probe, with its processes *)

Lemma In_firstn {A : Type} (x : A) (k : nat) (l : list A) : In x (firstn k l) -> In x l.
Proof.
  revert l. induction k as [|k IH]; intros [|a l]; cbn [firstn In]; try contradiction.
  intros [H|H]; [left; exact H|right; apply IH; exact H].
Qed.

Lemma ffprobe_not_in_install_script (path : string) (s : bool) :
  ~ In (Script.ffprobe_command path) (install_script s).
Proof. destruct s; cbn; intros H; repeat destruct H as [H|H]; try discriminate; exact H. Qed.

Lemma dummy_not_in_install_script (path : string) (s : bool) :
  ~ In (Script.dummy_video_command path) (install_script s).
Proof. destruct s; cbn; intros H; repeat destruct H as [H|H]; try discriminate; exact H. Qed.

Section Probe.

Variable float_of_str : string -> option float.
Variable int_of_str : string -> option Z.
Variable loads : string -> Script.decoded.
Variable decode : string -> option string.
Variable sys : Script.System.

Ltac step_probe :=
  unfold Script.get_video_metadata, Script.io_bind, Script.os_path_exists, Script.run,
    Script.ret, Script.lift.

Lemma script_probe_agrees (path : string) (t : list Script.command) :
  fst (Script.get_video_metadata float_of_str int_of_str loads decode sys path t) = get_video_metadata float_of_str int_of_str (Script.world_at loads sys t) path
  \/ (Script.path_present sys t path = true
      /\ Script.execute sys t (Script.ffprobe_command path) = Script.NoSuchProgram
      /\ exists e,
           fst (Script.install_ffmpeg decode sys (t ++ [Script.ffprobe_command path])%list) = Raise e
           /\ fst (Script.get_video_metadata float_of_str int_of_str loads decode sys path t) = Raise e).
Proof.
  step_probe. unfold get_video_metadata. cbn [path_exists run_ffprobe Script.world_at].
  destruct (Script.path_present sys t path) eqn:Hex; cbn [negb]; [|left; reflexivity].
  destruct (Script.execute sys t (Script.ffprobe_command path)) as [out|err|] eqn:Hrun.
  - left. destruct (loads out); reflexivity.
  - left. reflexivity.
  - destruct (Script.install_ffmpeg decode sys (t ++ [Script.ffprobe_command path])%list) as [[b|e] t'] eqn:Hi.
    + left. reflexivity.
    + right. split; [reflexivity|]. split; [reflexivity|]. exists e. split; reflexivity.
Qed.

Lemma script_calculate_agrees (path : string) (target : Py.number)
    (t : list Script.command) (r : SegmentEstimate) :
  fst (Script.calculate_segment_duration float_of_str int_of_str loads decode sys
         path target t) = Return r ->
  calculate_segment_duration float_of_str int_of_str (Script.world_at loads sys t)
    path target = Return r.
Proof.
  unfold Script.calculate_segment_duration, Script.io_bind, Script.lift,
    calculate_segment_duration.
  destruct (script_probe_agrees path t) as [H|(_ & _ & e & _ & H)].
  - rewrite <- H.
    destruct (Script.get_video_metadata float_of_str int_of_str loads decode sys path t)
      as [[md|e] t']; cbn [fst bind]; [intros H'; exact H'|discriminate].
  - destruct (Script.get_video_metadata float_of_str int_of_str loads decode sys path t)
      as [[md|e'] t']; cbn [fst] in H |- *; discriminate.
Qed.



End Probe.

(** ** The main block *)

Definition fmap_result {A B : Type} (f : A -> B) (r : result A) : result B :=
  match r with
  | Return a => Return (f a)
  | Raise e => Raise e
  end.

Section MainBlock.

Variable float_of_str : string -> option float.
Variable int_of_str : string -> option Z.
Variable loads : string -> Script.decoded.
Variable decode : string -> option string.
Variable sys : Script.System.

Lemma calculate_trace (path : string) (target : Py.number) (t : list Script.command) :
  snd (Script.calculate_segment_duration float_of_str int_of_str loads decode sys
         path target t)
  = snd (Script.get_video_metadata float_of_str int_of_str loads decode sys path t).
Proof.
  unfold Script.calculate_segment_duration, Script.io_bind, Script.lift.
  destruct (Script.get_video_metadata _ _ _ _ _ path t) as [[md|e] t']; reflexivity.
Qed.

(** The commands of a probe: none, or [ffprobe] and then some of the
    installation script. *)
Lemma probe_trace (path : string) (t : list Script.command) :
  exists l,
    snd (Script.get_video_metadata float_of_str int_of_str loads decode sys path t)
    = (t ++ l)%list
    /\ (l = []
        \/ (Script.path_present sys t path = true
            /\ exists s k, l = Script.ffprobe_command path :: firstn k (install_script s))).
Proof.
  unfold Script.get_video_metadata, Script.io_bind, Script.os_path_exists, Script.run,
    Script.ret, Script.lift.
  destruct (Script.path_present sys t path) eqn:Hex; cbn [negb].
  - destruct (Script.execute sys t (Script.ffprobe_command path)) as [out|err|] eqn:Hrun.
    + exists [Script.ffprobe_command path]. split; [destruct (loads out); reflexivity|].
      right. split; [reflexivity|]. exists true, 0%nat. reflexivity.
    + exists [Script.ffprobe_command path]. split; [reflexivity|].
      right. split; [reflexivity|]. exists true, 0%nat. reflexivity.
    + destruct (install_ffmpeg_extends decode sys (t ++ [Script.ffprobe_command path])%list)
        as (s & k & Hk).
      exists (Script.ffprobe_command path :: firstn k (install_script s)). split.
      * destruct (Script.install_ffmpeg decode sys (t ++ [Script.ffprobe_command path])%list)
          as [[b|e] t']; cbn [snd] in Hk |- *; rewrite Hk, <- app_assoc; reflexivity.
      * right. split; [reflexivity|]. exists s, k. reflexivity.
  - exists []. split; [cbn; rewrite app_nil_r; reflexivity|]. left. reflexivity.
Qed.

(** The main block, by the answers it gets. *)
Lemma main_cases (t : list Script.command) :
  Script.main float_of_str int_of_str loads decode sys t
  = match Script.install_ffmpeg decode sys t with
    | (Raise e, t1) => (Raise e, t1)
    | (Return false, t1) => (Return Script.Aborted, t1)
    | (Return true, t1) =>
        if Script.path_present sys t1 "test_video.mp4" then
          let (r, t2) :=
            Script.calculate_segment_duration float_of_str int_of_str loads decode sys
              "test_video.mp4" (Py.Int 22) t1 in
          (fmap_result Script.Printed r, t2)
        else
          match Script.execute sys t1 (Script.dummy_video_command "test_video.mp4") with
          | Script.Exit0 _ =>
              let (r, t2) :=
                Script.calculate_segment_duration float_of_str int_of_str loads decode sys
                  "test_video.mp4" (Py.Int 22)
                  (t1 ++ [Script.dummy_video_command "test_video.mp4"])%list in
              (fmap_result Script.Printed r, t2)
          | _ => (Return Script.Skipped,
                  (t1 ++ [Script.dummy_video_command "test_video.mp4"])%list)
          end
    end.
Proof.
  unfold Script.main. unfold Script.io_bind at 1.
  destruct (Script.install_ffmpeg decode sys t) as [[[|]|e] t1]; try reflexivity.
  cbn [negb]. unfold Script.io_bind at 1. unfold Script.os_path_exists.
  destruct (Script.path_present sys t1 "test_video.mp4"); cbn [negb].
  - unfold Script.io_bind at 1. unfold Script.ret at 1.
    change (negb ("test_video.mp4" =? "")%string) with true. cbv iota.
    unfold Script.io_bind at 1.
    destruct (Script.calculate_segment_duration _ _ _ _ _ _ _ t1) as [[r|e] t2];
      reflexivity.
  - unfold Script.io_bind at 1. unfold Script.io_bind at 1. unfold Script.run.
    destruct (Script.execute sys t1 (Script.dummy_video_command "test_video.mp4"));
      try reflexivity.
    unfold Script.ret at 1. change (negb ("test_video.mp4" =? "")%string) with true.
    cbv iota. unfold Script.io_bind at 1.
    destruct (Script.calculate_segment_duration _ _ _ _ _ _ _ _) as [[r|e] t2];
      reflexivity.
Qed.

(** X18: what the three ways the main block ends mean.  It aborts only when
    [install_ffmpeg] answered [False], and then runs nothing more; it skips
    the estimate only when the video was absent and could not be created;
    and a result it prints is what [calculate_segment_duration] gives for
    [test_video.mp4] with the target 22 on the machine as it is at that
    call: right after [install_ffmpeg] when the video was there, and after
    the command that wrote the video, which exited 0, when it was not. *)
Theorem main_outcomes (t : list Script.command) :
  (fst (Script.main float_of_str int_of_str loads decode sys t) = Return Script.Aborted ->
   fst (Script.install_ffmpeg decode sys t) = Return false
   /\ snd (Script.main float_of_str int_of_str loads decode sys t)
      = snd (Script.install_ffmpeg decode sys t))
  /\ (fst (Script.main float_of_str int_of_str loads decode sys t) = Return Script.Skipped ->
      exists t1,
        Script.install_ffmpeg decode sys t = (Return true, t1)
        /\ Script.path_present sys t1 "test_video.mp4" = false
        /\ (forall out,
              Script.execute sys t1 (Script.dummy_video_command "test_video.mp4")
              <> Script.Exit0 out)
        /\ snd (Script.main float_of_str int_of_str loads decode sys t)
           = (t1 ++ [Script.dummy_video_command "test_video.mp4"])%list)
  /\ (forall r,
        fst (Script.main float_of_str int_of_str loads decode sys t)
        = Return (Script.Printed r) ->
        exists t1,
          Script.install_ffmpeg decode sys t = (Return true, t1)
          /\ ((Script.path_present sys t1 "test_video.mp4" = true
               /\ fst (Script.calculate_segment_duration float_of_str int_of_str loads
                         decode sys "test_video.mp4" (Py.Int 22) t1) = Return r
               /\ calculate_segment_duration float_of_str int_of_str
                    (Script.world_at loads sys t1) "test_video.mp4" (Py.Int 22)
                  = Return r)
              \/ (Script.path_present sys t1 "test_video.mp4" = false
                  /\ (exists out,
                        Script.execute sys t1 (Script.dummy_video_command "test_video.mp4")
                        = Script.Exit0 out)
                  /\ fst (Script.calculate_segment_duration float_of_str int_of_str loads
                            decode sys "test_video.mp4" (Py.Int 22)
                            (t1 ++ [Script.dummy_video_command "test_video.mp4"])%list)
                     = Return r
                  /\ calculate_segment_duration float_of_str int_of_str
                       (Script.world_at loads sys
                          (t1 ++ [Script.dummy_video_command "test_video.mp4"])%list)
                       "test_video.mp4" (Py.Int 22)
                     = Return r))).
Proof.
  rewrite main_cases.
  destruct (Script.install_ffmpeg decode sys t) as [[[|]|e] t1] eqn:Hi; cbn [fst snd].
  - (* ffmpeg is ready *)
    destruct (Script.path_present sys t1 "test_video.mp4") eqn:Hex.
    + pose proof (script_calculate_agrees float_of_str int_of_str loads decode sys
                    "test_video.mp4" (Py.Int 22) t1) as Hagree.
      destruct (Script.calculate_segment_duration _ _ _ _ _ _ _ t1) as [[r|e] t2] eqn:Hc;
        cbn [fst snd fmap_result] in *.
      * split; [discriminate|]. split; [discriminate|].
        intros r' H. assert (r' = r) as -> by congruence. exists t1.
        split; [reflexivity|]. left. split; [exact Hex|].
        split; [rewrite Hc; reflexivity|]. apply Hagree. reflexivity.
      * split; [discriminate|]. split; discriminate.
    + destruct (Script.execute sys t1 (Script.dummy_video_command "test_video.mp4"))
        as [out|err|] eqn:Hrun.
      * pose proof (script_calculate_agrees float_of_str int_of_str loads decode sys
                      "test_video.mp4" (Py.Int 22)
                      (t1 ++ [Script.dummy_video_command "test_video.mp4"])%list) as Hagree.
        destruct (Script.calculate_segment_duration _ _ _ _ _ _ _ _) as [[r|e] t2] eqn:Hc;
          cbn [fst snd fmap_result] in *.
        -- split; [discriminate|]. split; [discriminate|].
           intros r' H. assert (r' = r) as -> by congruence. exists t1.
           split; [reflexivity|]. right. split; [exact Hex|].
           split; [exists out; exact Hrun|].
           split; [rewrite Hc; reflexivity|]. apply Hagree. reflexivity.
        -- split; [discriminate|]. split; discriminate.
      * split; [discriminate|]. split; [|discriminate].
        intros _. exists t1. split; [reflexivity|]. split; [exact Hex|].
        split; [intros out; congruence|reflexivity].
      * split; [discriminate|]. split; [|discriminate].
        intros _. exists t1. split; [reflexivity|]. split; [exact Hex|].
        split; [intros out; congruence|reflexivity].
  - split; [intros _; split; reflexivity|]. split; discriminate.
  - split; [discriminate|]. split; discriminate.
Qed.

(** X19: the commands the main block adds are guarded.  The video is
    written ([ffmpeg -y ...]) only after [install_ffmpeg] answered [True]
    and [test_video.mp4] was then absent, so an existing file is never
    overwritten; and [ffprobe] is run only on [test_video.mp4], after
    [install_ffmpeg] answered [True], when the file was there or was
    created. *)
Theorem main_commands_are_guarded (t new : list Script.command) :
  snd (Script.main float_of_str int_of_str loads decode sys t) = (t ++ new)%list ->
  (In (Script.dummy_video_command "test_video.mp4") new ->
   exists t1,
     Script.install_ffmpeg decode sys t = (Return true, t1)
     /\ Script.path_present sys t1 "test_video.mp4" = false)
  /\ (forall path,
        In (Script.ffprobe_command path) new ->
        path = "test_video.mp4"
        /\ exists t1,
             Script.install_ffmpeg decode sys t = (Return true, t1)
             /\ (Script.path_present sys t1 "test_video.mp4" = true
                 \/ exists out,
                      Script.execute sys t1 (Script.dummy_video_command "test_video.mp4")
                      = Script.Exit0 out)).
Proof.
  rewrite main_cases.
  destruct (install_ffmpeg_extends decode sys t) as (s & k & Hk).
  destruct (Script.install_ffmpeg decode sys t) as [[[|]|e] t1] eqn:Hi; cbn [snd] in Hk;
    subst t1.
  - destruct (Script.path_present sys (t ++ firstn k (install_script s))%list
                "test_video.mp4") eqn:Hex.
    + pose proof (calculate_trace "test_video.mp4" (Py.Int 22)
                    (t ++ firstn k (install_script s))%list) as Hc.
      destruct (probe_trace "test_video.mp4" (t ++ firstn k (install_script s))%list)
        as (l & Hl & Hshape).
      destruct (Script.calculate_segment_duration _ _ _ _ _ _ _ _) as [r t2].
      cbn [snd] in Hc |- *. rewrite Hc, Hl, <- app_assoc. intros Hnew.
      apply app_inv_head in Hnew. subst new. split.
      * intros H. exfalso. apply in_app_or in H. destruct H as [H|H].
        -- exact (dummy_not_in_install_script _ s (In_firstn _ _ _ H)).
        -- destruct Hshape as [->|(_ & s' & k' & ->)]; [exact H|].
           destruct H as [H|H]; [discriminate|].
           exact (dummy_not_in_install_script _ s' (In_firstn _ _ _ H)).
      * intros path H. apply in_app_or in H. destruct H as [H|H].
        -- exfalso. exact (ffprobe_not_in_install_script _ s (In_firstn _ _ _ H)).
        -- destruct Hshape as [->|(_ & s' & k' & ->)]; [contradiction|].
           destruct H as [H|H].
           ++ split; [injection H as H; symmetry; exact H|].
              eexists. split; [reflexivity|]. left. exact Hex.
           ++ exfalso. exact (ffprobe_not_in_install_script _ s' (In_firstn _ _ _ H)).
    + destruct (Script.execute sys (t ++ firstn k (install_script s))%list
                  (Script.dummy_video_command "test_video.mp4")) as [out|err|] eqn:Hrun.
      * pose proof (calculate_trace "test_video.mp4" (Py.Int 22)
                      ((t ++ firstn k (install_script s))
                         ++ [Script.dummy_video_command "test_video.mp4"])%list) as Hc.
        destruct (probe_trace "test_video.mp4"
                    ((t ++ firstn k (install_script s))
                       ++ [Script.dummy_video_command "test_video.mp4"])%list)
          as (l & Hl & Hshape).
        destruct (Script.calculate_segment_duration _ _ _ _ _ _ _ _) as [r t2].
        cbn [snd] in Hc |- *. rewrite Hc, Hl, <- !app_assoc. intros Hnew.
        apply app_inv_head in Hnew. subst new. split.
        -- intros _. eexists. split; [reflexivity|exact Hex].
        -- intros path H. apply in_app_or in H. destruct H as [H|H].
           ++ exfalso. exact (ffprobe_not_in_install_script _ s (In_firstn _ _ _ H)).
           ++ cbn [app] in H. destruct H as [H|H]; [discriminate|].
              destruct Hshape as [->|(_ & s' & k' & ->)]; [contradiction|].
              destruct H as [H|H].
              ** split; [injection H as H; symmetry; exact H|].
                 eexists. split; [reflexivity|]. right. exists out. exact Hrun.
              ** exfalso.
                 exact (ffprobe_not_in_install_script _ s' (In_firstn _ _ _ H)).
      * cbn [snd]. rewrite <- app_assoc. intros Hnew. apply app_inv_head in Hnew.
        subst new. split.
        -- intros _. eexists. split; [reflexivity|exact Hex].
        -- intros path H. exfalso. apply in_app_or in H. destruct H as [H|H].
           ++ exact (ffprobe_not_in_install_script _ s (In_firstn _ _ _ H)).
           ++ destruct H as [H|H]; [discriminate|exact H].
      * cbn [snd]. rewrite <- app_assoc. intros Hnew. apply app_inv_head in Hnew.
        subst new. split.
        -- intros _. eexists. split; [reflexivity|exact Hex].
        -- intros path H. exfalso. apply in_app_or in H. destruct H as [H|H].
           ++ exact (ffprobe_not_in_install_script _ s (In_firstn _ _ _ H)).
           ++ destruct H as [H|H]; [discriminate|exact H].
  - cbn [snd]. intros Hnew. apply app_inv_head in Hnew. subst new. split.
    + intros H. exfalso. exact (dummy_not_in_install_script _ s (In_firstn _ _ _ H)).
    + intros path H. exfalso.
      exact (ffprobe_not_in_install_script _ s (In_firstn _ _ _ H)).
  - cbn [snd]. intros Hnew. apply app_inv_head in Hnew. subst new. split.
    + intros H. exfalso. exact (dummy_not_in_install_script _ s (In_firstn _ _ _ H)).
    + intros path H. exfalso.
      exact (ffprobe_not_in_install_script _ s (In_firstn _ _ _ H)).
Qed.

End MainBlock.

(** ** Machines used as concrete inputs *)

(** A Colab machine whose [ffmpeg] fails to start, before and after the
    package is installed. *)
Definition colab_with_broken_ffmpeg : Script.System :=
  {| Script.colab_gpu := true;
     Script.geteuid := Some 0;
     Script.execute := fun _ cmd =>
       if (hd "" cmd =? "ffmpeg")%string
       then Script.ExitFailure "ffmpeg: error while loading shared libraries"
       else Script.Exit0 "";
     Script.path_present := fun _ _ => false |}.

(** A machine with [ffmpeg] and the video in place. *)
Definition ready_machine : Script.System :=
  {| Script.colab_gpu := false;
     Script.geteuid := Some 1000;
     Script.execute := fun _ cmd =>
       if (hd "" cmd =? "ffmpeg")%string then Script.Exit0 "ffmpeg version 6.0"
       else if (hd "" cmd =? "ffprobe")%string then Script.Exit0 "report"
       else Script.NoSuchProgram;
     Script.path_present := fun _ _ => true |}.

(** A [json.loads] for [ready_machine], whose [ffprobe] prints one report. *)
Definition loads_report (stdout : string) : Script.decoded :=
  if (stdout =? "report")%string then Script.Document report_format_only
  else Script.DecodeError.

(** A [bytes.decode] that accepts everything. *)
Definition decode_ascii (b : string) : option string := Some b.

Lemma install_ffmpeg_follows_script_witness :
  exists k,
    (1 <= k <= 4)%nat
    /\ snd (Script.install_ffmpeg decode_ascii colab_with_broken_ffmpeg [])
       = ([] ++ firstn k (install_script true))%list
    /\ ((2 <= k)%nat ->
        forall out,
          Script.execute colab_with_broken_ffmpeg [] Script.ffmpeg_version
          <> Script.Exit0 out)
    /\ ((3 <= k)%nat ->
        exists out,
          Script.execute colab_with_broken_ffmpeg ([] ++ firstn 1 (install_script true))
            (Script.with_sudo true Script.apt_get_update) = Script.Exit0 out)
    /\ ((4 <= k)%nat ->
        exists out,
          Script.execute colab_with_broken_ffmpeg ([] ++ firstn 2 (install_script true))
            (Script.with_sudo true Script.apt_get_install) = Script.Exit0 out).
Proof.
  apply (install_ffmpeg_follows_script decode_ascii colab_with_broken_ffmpeg [] true).
  reflexivity.
Defined.

Lemma install_true_is_verified_witness :
  exists t0 out,
    snd (Script.install_ffmpeg decode_ascii ready_machine [])
    = (t0 ++ [Script.ffmpeg_version])%list
    /\ Script.execute ready_machine t0 Script.ffmpeg_version = Script.Exit0 out.
Proof.
  apply (install_true_is_verified decode_ascii ready_machine []). reflexivity.
Defined.

Lemma failed_check_after_install_raises_witness :
  Script.install_ffmpeg decode_ascii colab_with_broken_ffmpeg []
  = (Raise AttributeError,
     [["ffmpeg"; "-version"]; ["sudo"; "apt-get"; "update"];
      ["sudo"; "apt-get"; "install"; "-y"; "ffmpeg"]; ["ffmpeg"; "-version"]]).
Proof.
  apply (failed_check_after_install_raises decode_ascii colab_with_broken_ffmpeg [] true
           "" "" "ffmpeg: error while loading shared libraries").
  - reflexivity.
  - intros out. discriminate.
  - reflexivity.
  - reflexivity.
  - reflexivity.
  - discriminate.
Defined.

Lemma main_commands_are_guarded_witness :
  (In (Script.dummy_video_command "test_video.mp4")
      [Script.ffmpeg_version; Script.ffprobe_command "test_video.mp4"] ->
   exists t1,
     Script.install_ffmpeg decode_ascii ready_machine [] = (Return true, t1)
     /\ Script.path_present ready_machine t1 "test_video.mp4" = false)
  /\ (forall path,
        In (Script.ffprobe_command path)
           [Script.ffmpeg_version; Script.ffprobe_command "test_video.mp4"] ->
        path = "test_video.mp4"
        /\ exists t1,
             Script.install_ffmpeg decode_ascii ready_machine [] = (Return true, t1)
             /\ (Script.path_present ready_machine t1 "test_video.mp4" = true
                 \/ exists out,
                      Script.execute ready_machine t1
                        (Script.dummy_video_command "test_video.mp4")
                      = Script.Exit0 out)).
Proof.
  apply (main_commands_are_guarded Decimal.float_of_str Decimal.int_of_str loads_report
           decode_ascii ready_machine []).
  vm_compute; reflexivity.
Defined.



(** On [ready_machine] the main block prints Scenario B's estimate. *)
Example main_on_ready_machine :
  Script.main Decimal.float_of_str Decimal.int_of_str loads_report decode_ascii
    ready_machine []
  = (Return (Script.Printed (Estimate 5 35.2 (Py.Float 3600) 103)),
     [Script.ffmpeg_version; Script.ffprobe_command "test_video.mp4"]).
Proof. vm_compute; reflexivity. Qed.

Lemma main_outcomes_witness :
  exists t1,
    Script.install_ffmpeg decode_ascii ready_machine [] = (Return true, t1)
    /\ ((Script.path_present ready_machine t1 "test_video.mp4" = true
         /\ fst (Script.calculate_segment_duration Decimal.float_of_str Decimal.int_of_str
                   loads_report decode_ascii ready_machine "test_video.mp4" (Py.Int 22) t1)
            = Return (Estimate 5 35.2 (Py.Float 3600) 103)
         /\ calculate_segment_duration Decimal.float_of_str Decimal.int_of_str
              (Script.world_at loads_report ready_machine t1) "test_video.mp4" (Py.Int 22)
            = Return (Estimate 5 35.2 (Py.Float 3600) 103))
        \/ (Script.path_present ready_machine t1 "test_video.mp4" = false
            /\ (exists out,
                  Script.execute ready_machine t1
                    (Script.dummy_video_command "test_video.mp4")
                  = Script.Exit0 out)
            /\ fst (Script.calculate_segment_duration Decimal.float_of_str
                      Decimal.int_of_str loads_report decode_ascii ready_machine
                      "test_video.mp4" (Py.Int 22)
                      (t1 ++ [Script.dummy_video_command "test_video.mp4"])%list)
               = Return (Estimate 5 35.2 (Py.Float 3600) 103)
            /\ calculate_segment_duration Decimal.float_of_str Decimal.int_of_str
                 (Script.world_at loads_report ready_machine
                    (t1 ++ [Script.dummy_video_command "test_video.mp4"])%list)
                 "test_video.mp4" (Py.Int 22)
               = Return (Estimate 5 35.2 (Py.Float 3600) 103))).
Proof.
  apply (proj2 (proj2 (main_outcomes Decimal.float_of_str Decimal.int_of_str loads_report
                         decode_ascii ready_machine []))).
  vm_compute; reflexivity.
Defined.

